(** * Server actions and report views of the recruiting and employee app

    A shallow embedding of [src/app/actions.ts] (the submission handlers and
    their zod schemas), of the pages that call them (the DSR, calls,
    earnings and membership forms with their client-side schemas, the
    travel column of the report table), of the employee dashboard
    (earnings total) and of the admin console (verification of a
    membership, the employees page and the report page), followed by the
    properties stated for them.

    Conventions of the embedding
    - JavaScript values are the inductive type [jsval]; a missing property
      reads as [JUndefined], as in JavaScript.
    - A JavaScript number is [NaN], an infinity, or a finite value carried
      as an exact rational: binary64 rounding and overflow are outside the
      model.  Sums are stated in the order in which the code adds, and
      their proofs use no law of addition.
    - Strings are sequences of 8-bit code units.
    - Asynchronous code is sequenced: a handler is a function from the state
      of the external services (document store, identity service, object
      storage) to an outcome and a new state; a rejected promise is a
      thrown value, and what was written before it stays written. *)

From Stdlib Require Import String Ascii List Bool Arith NArith ZArith QArith.
From Stdlib Require Import Qreduction Qcanon Lia.
From Stdlib Require Import DecimalString DecimalN DecimalPos.
Import ListNotations.

Local Close Scope Q_scope.
Local Open Scope string_scope.
Local Open Scope list_scope.

Set Implicit Arguments.
Set Warnings "-register-all".

(* ================================================================== *)
(** ** JavaScript numbers *)
(* ================================================================== *)

Module Num.

Inductive number : Type :=
| NaN
| PInf
| NInf
| Fin (q : Q).

Definition ofZ (z : Z) : number := Fin (inject_Z z).
Definition ofN (n : N) : number := Fin (inject_Z (Z.of_N n)).

Definition isNaN (a : number) : bool :=
  match a with NaN => true | _ => false end.

Definition neg (a : number) : number :=
  match a with
  | NaN => NaN
  | PInf => NInf
  | NInf => PInf
  | Fin q => Fin (Qred (- q))
  end.

(** [a + b] *)
Definition add (a b : number) : number :=
  match a, b with
  | NaN, _ | _, NaN => NaN
  | PInf, NInf | NInf, PInf => NaN
  | PInf, _ | _, PInf => PInf
  | NInf, _ | _, NInf => NInf
  | Fin x, Fin y => Fin (Qred (x + y))
  end.

(** [a - b] *)
Definition sub (a b : number) : number := add a (neg b).

(** [a < b]; every comparison with [NaN] is false. *)
Definition ltb (a b : number) : bool :=
  match a, b with
  | NaN, _ | _, NaN => false
  | _, NInf => false
  | NInf, _ => true
  | PInf, _ => false
  | Fin _, PInf => true
  | Fin x, Fin y => negb (Qle_bool y x)
  end.

(** [a > b] *)
Definition gtb (a b : number) : bool := ltb b a.

(** [a === 0] (both zeros) *)
Definition isZero (a : number) : bool :=
  match a with Fin q => Qeq_bool q 0 | _ => false end.

(** Same numeric value (not the JavaScript [===]: used in statements). *)
Definition same (a b : number) : Prop :=
  match a, b with
  | NaN, NaN | PInf, PInf | NInf, NInf => True
  | Fin x, Fin y => Qeq x y
  | _, _ => False
  end.

End Num.

Import Num.

(* ================================================================== *)
(** ** JavaScript values *)
(* ================================================================== *)

Inductive jsval : Type :=
| JUndefined
| JNull
| JBool (b : bool)
| JNum (n : number)
| JStr (s : string)
| JArr (items : list jsval)
| JObj (fields : list (string * jsval))
| JFile (name : string) (size : N)      (* a File taken from a FormData *)
| JTimestamp (millis : N)               (* a timestamp held by the store *)
| JServerTimestamp.                     (* the serverTimestamp() sentinel *)

(** An object is its list of own properties, in insertion order. *)
Definition object := list (string * jsval).

(** [o[k]] *)
Fixpoint get (k : string) (o : object) : jsval :=
  match o with
  | [] => JUndefined
  | (k', v) :: o' => if String.eqb k k' then v else get k o'
  end.

(** [k in o] *)
Fixpoint has (k : string) (o : object) : bool :=
  match o with
  | [] => false
  | (k', _) :: o' => String.eqb k k' || has k o'
  end.

(** [o[k] = v]: an existing property keeps its place. *)
Fixpoint set (k : string) (v : jsval) (o : object) : object :=
  match o with
  | [] => [(k, v)]
  | (k', v') :: o' =>
      if String.eqb k k' then (k, v) :: o' else (k', v') :: set k v o'
  end.

(** [{...a, ...b}] *)
Definition spread (a b : object) : object :=
  fold_left (fun acc kv => set (fst kv) (snd kv) acc) b a.

(** ToBoolean *)
Definition truthy (v : jsval) : bool :=
  match v with
  | JUndefined | JNull => false
  | JBool b => b
  | JNum n => negb (isNaN n || isZero n)
  | JStr s => negb (String.eqb s "")
  | JArr _ | JObj _ | JFile _ _ | JTimestamp _ | JServerTimestamp => true
  end.

(** [a || b] *)
Definition js_or (a b : jsval) : jsval := if truthy a then a else b.

(** [a && b] *)
Definition js_and (a b : jsval) : jsval := if truthy a then b else a.

(** [s.endsWith(suffix)] *)
Definition endsWith (s suffix : string) : bool :=
  let n := String.length s in
  let m := String.length suffix in
  (m <=? n)%nat && String.eqb (substring (n - m) m s) suffix.

(* ------------------------------------------------------------------ *)
(** *** [Number(string)] : the StringNumericLiteral grammar *)
(* ------------------------------------------------------------------ *)

Module StringToNumber.

Definition code (c : ascii) : N := N_of_ascii c.

(** White space and line terminators among the 8-bit code units. *)
Definition isWhiteSpace (c : ascii) : bool :=
  let n := code c in
  ((9 <=? n) && (n <=? 13) || (n =? 32) || (n =? 160))%N.

Definition decDigit (c : ascii) : option N :=
  let n := code c in
  if ((48 <=? n) && (n <=? 57))%N then Some (n - 48)%N else None.

Definition hexDigit (c : ascii) : option N :=
  let n := code c in
  if ((48 <=? n) && (n <=? 57))%N then Some (n - 48)%N
  else if ((97 <=? n) && (n <=? 102))%N then Some (n - 87)%N
  else if ((65 <=? n) && (n <=? 70))%N then Some (n - 55)%N
  else None.

Definition octDigit (c : ascii) : option N :=
  let n := code c in
  if ((48 <=? n) && (n <=? 55))%N then Some (n - 48)%N else None.

Definition binDigit (c : ascii) : option N :=
  let n := code c in
  if ((48 <=? n) && (n <=? 49))%N then Some (n - 48)%N else None.

(** The longest prefix of digits, and what follows it. *)
Fixpoint spanDigits (digit : ascii -> option N) (l : list ascii)
  : list N * list ascii :=
  match l with
  | [] => ([], [])
  | c :: l' =>
      match digit c with
      | Some d => let (ds, r) := spanDigits digit l' in (d :: ds, r)
      | None => ([], l)
      end
  end.

(** The value of a digit sequence, most significant digit first. *)
Definition digitsValue (base : N) (ds : list N) : N :=
  fold_left (fun acc d => acc * base + d)%N ds 0%N.

Fixpoint dropWhile (p : ascii -> bool) (l : list ascii) : list ascii :=
  match l with
  | [] => []
  | c :: l' => if p c then dropWhile p l' else l
  end.

Definition trim (l : list ascii) : list ascii :=
  rev (dropWhile isWhiteSpace (rev (dropWhile isWhiteSpace l))).

Definition chars (s : string) : list ascii := list_ascii_of_string s.

Definition isChars (l : list ascii) (s : string) : bool :=
  String.eqb (string_of_list_ascii l) s.

(** mantissa * 10^exponent *)
Definition scale (mantissa : N) (exponent : Z) : number :=
  Fin (Qred (inject_Z (Z.of_N mantissa) * Qpower (inject_Z 10) exponent)).

(** ExponentPart_opt at the end of the literal. *)
Definition exponentPart (l : list ascii) : option Z :=
  match l with
  | [] => Some 0%Z
  | c :: r =>
      if Ascii.eqb c "e" || Ascii.eqb c "E" then
        let '(negative, r') :=
          match r with
          | s :: r' =>
              if Ascii.eqb s "-" then (true, r')
              else if Ascii.eqb s "+" then (false, r')
              else (false, r)
          | [] => (false, r)
          end in
        match spanDigits decDigit r' with
        | ((_ :: _) as ds, []) =>
            let e := Z.of_N (digitsValue 10 ds) in
            Some (if negative then (- e)%Z else e)
        | _ => None
        end
      else None
  end.

(** StrUnsignedDecimalLiteral *)
Definition unsignedDecimal (l : list ascii) : number :=
  if isChars l "Infinity" then PInf
  else
    let (ip, r1) := spanDigits decDigit l in
    let '(fp, r2, wellFormed) :=
      match r1 with
      | c :: r =>
          if Ascii.eqb c "." then
            let (fp, r2) := spanDigits decDigit r in
            (fp, r2, negb (Nat.eqb (length ip + length fp) 0))
          else ([], r1, negb (Nat.eqb (length ip) 0))
      | [] => ([], r1, negb (Nat.eqb (length ip) 0))
      end in
    if wellFormed then
      match exponentPart r2 with
      | Some e =>
          scale (digitsValue 10 (ip ++ fp)) (e - Z.of_nat (length fp))
      | None => NaN
      end
    else NaN.

(** NonDecimalIntegerLiteral: 0x, 0o and 0b prefixes, unsigned. *)
Definition nonDecimal (l : list ascii) : option number :=
  match l with
  | z :: p :: r =>
      if Ascii.eqb z "0" then
        let radix :=
          if Ascii.eqb p "x" || Ascii.eqb p "X" then Some (hexDigit, 16%N)
          else if Ascii.eqb p "o" || Ascii.eqb p "O" then Some (octDigit, 8%N)
          else if Ascii.eqb p "b" || Ascii.eqb p "B" then Some (binDigit, 2%N)
          else None in
        match radix with
        | Some (digit, base) =>
            match spanDigits digit r with
            | ((_ :: _) as ds, []) => Some (ofN (digitsValue base ds))
            | _ => Some NaN
            end
        | None => None
        end
      else None
  | _ => None
  end.

(** StrNumericLiteral, after trimming. *)
Definition numericLiteral (l : list ascii) : number :=
  match nonDecimal l with
  | Some n => n
  | None =>
      match l with
      | c :: r =>
          if Ascii.eqb c "-" then neg (unsignedDecimal r)
          else if Ascii.eqb c "+" then unsignedDecimal r
          else unsignedDecimal l
      | [] => NaN
      end
  end.

(** [Number(s)] for a string [s]: white space only gives 0. *)
Definition parse (s : string) : number :=
  match trim (chars s) with
  | [] => ofN 0
  | l => numericLiteral l
  end.

End StringToNumber.

(** ToNumber, i.e. [Number(v)].  An array goes through its string form: the
    empty array is the empty string, a one-element array is its element's
    string, longer arrays contain a comma.  The other objects are taken to
    have no numeric value. *)
Fixpoint Number (v : jsval) : number :=
  match v with
  | JUndefined => NaN
  | JNull => ofN 0
  | JBool b => ofN (if b then 1 else 0)
  | JNum n => n
  | JStr s => StringToNumber.parse s
  | JArr [] => ofN 0
  | JArr [x] =>
      match x with
      | JUndefined | JNull => ofN 0
      | JBool _ => NaN
      | _ => Number x
      end
  | JArr _ => NaN
  | JObj _ | JFile _ _ | JTimestamp _ | JServerTimestamp => NaN
  end.

(** Decimal rendering of a non-negative integer, as a template literal
    prints it. *)
Definition decimal (n : N) : string := NilZero.string_of_uint (N.to_uint n).



(** [s.trim()] *)
Definition js_trim (s : string) : string :=
  string_of_list_ascii (StringToNumber.trim (StringToNumber.chars s)).

(** [s.split(sep)] for a separator of one character: the pieces between
    the occurrences of [sep], the empty ones included. *)
Fixpoint split (sep : ascii) (s : string) : list string :=
  match s with
  | EmptyString => [""]
  | String c s' =>
      if Ascii.eqb c sep then "" :: split sep s'
      else
        match split sep s' with
        | piece :: pieces => String c piece :: pieces
        | [] => [String c ""]
        end
  end.

(* ================================================================== *)
(** ** Library functions the handlers rely on *)
(* ================================================================== *)

(** Pure functions of the platform whose definitions are not part of the
    application: the e-mail pattern of the validation library, URL
    well-formedness, the address check of the identity service and the
    retrieval URL the object storage hands out for a path. *)
Class Platform : Type := {
  isEmail : string -> bool;
  isURL : string -> bool;
  authAcceptsEmail : string -> bool;
  downloadURL : string -> string
}.

(* ================================================================== *)
(** ** The validation library (zod), as parser combinators *)
(* ================================================================== *)

Module Zod.

Inductive PathSeg : Type :=
| Key (k : string)
| Index (i : nat).

Record ZodIssue : Type := { path : list PathSeg; message : string }.

(** The status a parser carries: [Dirty] when a check failed on a value of
    the right type, [Aborted] when there is no value to go on with. *)
Inductive ParseStatus : Type := Valid | Dirty | Aborted.

Record ParseReturn : Type := {
  status : ParseStatus;
  value : jsval;
  issues : list ZodIssue
}.

Definition ZodType : Type := jsval -> ParseReturn.

Definition OK (v : jsval) : ParseReturn :=
  {| status := Valid; value := v; issues := [] |}.

Definition INVALID (m : string) : ParseReturn :=
  {| status := Aborted; value := JUndefined;
     issues := [ {| path := []; message := m |} ] |}.

(** getParsedType *)
Definition parsedType (v : jsval) : string :=
  match v with
  | JUndefined => "undefined"
  | JNull => "null"
  | JBool _ => "boolean"
  | JNum n => if isNaN n then "nan" else "number"
  | JStr _ => "string"
  | JArr _ => "array"
  | JObj _ | JFile _ _ | JTimestamp _ | JServerTimestamp => "object"
  end.

(** The default message of an invalid_type issue. *)
Definition invalidType (expected : string) (v : jsval) : string :=
  match v with
  | JUndefined => "Required"
  | _ => ("Expected " ++ expected ++ ", received " ++ parsedType v)%string
  end.

(** A check of a string or number schema, with its message. *)
Record Check (A : Type) : Type := { test : A -> bool; msg : string }.

Definition failing A (checks : list (Check A)) (a : A) : list ZodIssue :=
  map (fun c => {| path := []; message := msg c |})
      (filter (fun c => negb (test c a)) checks).

Definition checked A (checks : list (Check A)) (a : A) (v : jsval)
  : ParseReturn :=
  let iss := failing checks a in
  {| status := match iss with [] => Valid | _ => Dirty end;
     value := v; issues := iss |}.

(** [z.string()] followed by its checks *)
Definition string_ (checks : list (Check string)) : ZodType :=
  fun v =>
    match v with
    | JStr s => checked checks s v
    | _ => INVALID (invalidType "string" v)
    end.

Definition min (n : nat) (m : string) : Check string :=
  {| test := fun s => (n <=? String.length s)%nat; msg := m |}.
Definition max (n : nat) (m : string) : Check string :=
  {| test := fun s => (String.length s <=? n)%nat; msg := m |}.
Definition length (n : nat) (m : string) : Check string :=
  {| test := fun s => (String.length s =? n)%nat; msg := m |}.
Definition email `{Platform} (m : string) : Check string :=
  {| test := isEmail; msg := m |}.
Definition url `{Platform} (m : string) : Check string :=
  {| test := isURL; msg := m |}.

(** [z.coerce.number()] followed by its checks: the input goes through
    [Number] first, and [NaN] is not a number. *)
Definition coerce_number (checks : list (Check number)) : ZodType :=
  fun v =>
    let n := Number v in
    if isNaN n then INVALID (invalidType "number" (JNum n))
    else checked checks n (JNum n).

(** [.min(k, m)] of a number schema: fails when [data < k]. *)
Definition nmin (k : number) (m : string) : Check number :=
  {| test := fun n => negb (ltb n k); msg := m |}.

(** [z.boolean()] *)
Definition boolean : ZodType :=
  fun v =>
    match v with
    | JBool _ => OK v
    | _ => INVALID (invalidType "boolean" v)
    end.

(** [.optional()] *)
Definition optional (t : ZodType) : ZodType :=
  fun v => match v with JUndefined => OK JUndefined | _ => t v end.

(** [.default(d)] *)
Definition default (t : ZodType) (d : jsval) : ZodType :=
  fun v => match v with JUndefined => t d | _ => t v end.

Definition joinValues (values : list string) : string :=
  String.concat " | " (map (fun s => ("'" ++ s ++ "'")%string) values).

(** [z.enum([...])] *)
Definition enum (values : list string) : ZodType :=
  fun v =>
    match v with
    | JStr s =>
        if existsb (String.eqb s) values then OK v
        else INVALID ("Invalid enum value. Expected " ++ joinValues values
                        ++ ", received '" ++ s ++ "'")%string
    | _ => INVALID (invalidType (joinValues values) v)
    end.

Definition under (seg : PathSeg) (i : ZodIssue) : ZodIssue :=
  {| path := seg :: path i; message := message i |}.

Definition merge (a b : ParseStatus) : ParseStatus :=
  match a, b with
  | Aborted, _ | _, Aborted => Aborted
  | Dirty, _ | _, Dirty => Dirty
  | Valid, Valid => Valid
  end.

(** The elements of an array, parsed in order from index [i]. *)
Fixpoint elements (t : ZodType) (i : nat) (l : list jsval)
  : ParseStatus * list jsval * list ZodIssue :=
  match l with
  | [] => (Valid, [], [])
  | x :: l' =>
      let r := t x in
      let '(st, vs, iss) := elements t (S i) l' in
      (merge (status r) st, value r :: vs,
       map (under (Index i)) (issues r) ++ iss)
  end.

(** [z.array(t).min(n, m)] ; [n = 0] for no minimum. *)
Definition array (t : ZodType) (n : nat) (m : string) : ZodType :=
  fun v =>
    match v with
    | JArr l =>
        let tooSmall := (List.length l <? n)%nat in
        let '(st, vs, iss) := elements t 0 l in
        {| status := merge (if tooSmall then Dirty else Valid) st;
           value := JArr vs;
           issues := (if tooSmall then [ {| path := []; message := m |} ]
                      else []) ++ iss |}
    | _ => INVALID (invalidType "array" v)
    end.

(** The properties of an object, parsed in the order of the shape.  A
    property is set in the output when its value is defined or the key
    was present in the input. *)
Fixpoint properties (shape : list (string * ZodType)) (o : object)
  : ParseStatus * object * list ZodIssue :=
  match shape with
  | [] => (Valid, [], [])
  | (k, t) :: shape' =>
      let r := t (get k o) in
      let '(st, out, iss) := properties shape' o in
      (merge (status r) st,
       match value r with
       | JUndefined => if has k o then (k, JUndefined) :: out else out
       | x => (k, x) :: out
       end,
       map (under (Key k)) (issues r) ++ iss)
  end.

(** [z.object({...})]: unknown keys are stripped. *)
Definition object_ (shape : list (string * ZodType)) : ZodType :=
  fun v =>
    match v with
    | JObj o =>
        let '(st, out, iss) := properties shape o in
        {| status := st; value := JObj out; issues := iss |}
    | _ => INVALID (invalidType "object" v)
    end.

(** [.refine(check, { message, path })]: runs unless the inner parse was
    aborted. *)
Definition refine (t : ZodType) (check : jsval -> bool)
           (m : string) (p : list PathSeg) : ZodType :=
  fun v =>
    let r := t v in
    match status r with
    | Aborted => r
    | _ =>
        if check (value r) then r
        else {| status := Dirty; value := value r;
                issues := issues r ++ [ {| path := p; message := m |} ] |}
    end.

Inductive SafeParseReturn : Type :=
| Success (data : jsval)
| Failure (error : list ZodIssue).

(** [schema.safeParse(data)] *)
Definition safeParse (t : ZodType) (data : jsval) : SafeParseReturn :=
  let r := t data in
  match status r with
  | Valid => Success (value r)
  | _ => Failure (issues r)
  end.

(** [error.flatten().fieldErrors]: the messages grouped by the first
    segment of their path. *)
Definition FieldErrors : Type := list (string * list string).

Fixpoint addFieldError (k m : string) (fe : FieldErrors) : FieldErrors :=
  match fe with
  | [] => [(k, [m])]
  | (k', ms) :: fe' =>
      if String.eqb k k' then (k', ms ++ [m]) :: fe'
      else (k', ms) :: addFieldError k m fe'
  end.

Definition segName (seg : PathSeg) : string :=
  match seg with
  | Key k => k
  | Index i => decimal (N.of_nat i)
  end.


(** One step of [fieldErrors]. *)
Definition step (fe : FieldErrors) (i : ZodIssue) : FieldErrors :=
  match path i with
  | seg :: _ => addFieldError (segName seg) (message i) fe
  | [] => fe
  end.

Definition fieldErrors (iss : list ZodIssue) : FieldErrors :=
  fold_left step iss [].

(** The messages reported for one field. *)
Fixpoint messagesOf (k : string) (fe : FieldErrors) : list string :=
  match fe with
  | [] => []
  | (k', ms) :: fe' => if String.eqb k k' then ms else messagesOf k fe'
  end.

(** The three parts of what [properties] returns. *)
Definition statusOf (r : ParseStatus * object * list ZodIssue) :=
  fst (fst r).
Definition outputOf (r : ParseStatus * object * list ZodIssue) :=
  snd (fst r).
Definition issuesOf (r : ParseStatus * object * list ZodIssue) := snd r.


End Zod.

(** [a - b]: both operands go through ToNumber. *)
Definition js_sub (a b : jsval) : jsval := JNum (sub (Number a) (Number b)).

(** [a + b] on operands that are neither strings nor objects, where it is
    the numeric sum.  With a string or an object operand JavaScript
    concatenates strings; the model has no rendering of fractions and
    leaves that case undefined. *)
Definition js_add (a b : jsval) : option jsval :=
  match a, b with
  | (JUndefined | JNull | JBool _ | JNum _),
    (JUndefined | JNull | JBool _ | JNum _) =>
      Some (JNum (add (Number a) (Number b)))
  | _, _ => None
  end.

(** [a > b]: two strings are compared as strings; otherwise the operands
    are compared as numbers, as JavaScript does when neither is an object. *)
Definition js_gt (a b : jsval) : bool :=
  match a, b with
  | JStr x, JStr y => String.ltb y x
  | _, _ => gtb (Number a) (Number b)
  end.

(** [a === b] on primitive values; two objects are never the same here. *)
Definition strictEq (a b : jsval) : bool :=
  match a, b with
  | JUndefined, JUndefined | JNull, JNull => true
  | JBool x, JBool y => Bool.eqb x y
  | JStr x, JStr y => String.eqb x y
  | JNum (Fin x), JNum (Fin y) => Qeq_bool x y
  | JNum PInf, JNum PInf | JNum NInf, JNum NInf => true
  | _, _ => false
  end.

(* ================================================================== *)
(** ** The external services and the handlers' effects *)
(* ================================================================== *)

Record Document : Type := { docId : string; docData : object }.

Record Account : Type := {
  uid : string;
  accountEmail : string;
  accountPassword : string
}.

Record StoredFile : Type := {
  filePath : string;
  fileName : string;
  fileSize : N
}.

(** A call to an external service, as recorded in the trace. *)
Inductive Call : Type :=
| CreateUser (email password : string)
| AddDoc (collection : string) (data : object)
| SetDoc (collection id : string) (data : object)
| UpdateDoc (collection id : string) (data : object)
| GetDocs (collection field : string) (v : jsval)
| GetCount (collection : string) (conditions : list (string * jsval))
| UploadBytes (path name : string) (size : N)
| GetDownloadURL (path : string)
| RevalidatePath (path : string).

Record World : Type := {
  store : string -> list Document;   (* document store, by collection *)
  accounts : list Account;           (* identity service *)
  bucket : list StoredFile;          (* object storage *)
  nextId : N;                        (* source of generated identifiers *)
  dateNow : N;                       (* Date.now() of the server *)
  serverTime : N;                    (* clock of the document store *)
  faults : list bool;                (* whether each coming call fails *)
  calls : list Call                  (* service calls so far, oldest first *)
}.

Record Error : Type := { code : string; errorMessage : string }.

Inductive Outcome (A : Type) : Type :=
| Return (a : A)
| Throw (e : Error).
Arguments Return {A} a.
Arguments Throw {A} e.

(** An asynchronous computation, awaited. *)
Definition Async (A : Type) : Type := World -> Outcome A * World.

Definition ret {A} (a : A) : Async A := fun w => (Return a, w).

Definition bind {A B} (m : Async A) (k : A -> Async B) : Async B :=
  fun w =>
    match m w with
    | (Return a, w') => k a w'
    | (Throw e, w') => (Throw e, w')
    end.

(** [try { m } catch (error) { h error }] *)
Definition tryCatch {A} (m : Async A) (h : Error -> Async A) : Async A :=
  fun w =>
    match m w with
    | (Return a, w') => (Return a, w')
    | (Throw e, w') => h e w'
    end.

Declare Scope async_scope.
Delimit Scope async_scope with async.
Notation "x <- m ;; k" := (bind m (fun x => k))
  (at level 61, m at next level, right associativity) : async_scope.
Notation "m ;; k" := (bind m (fun _ => k))
  (at level 61, right associativity) : async_scope.

(** [await Promise.all(ps)] for promises created in the order of [ps]: every
    one of them runs; the join rejects with the first rejection. *)
Fixpoint promiseAll {A} (ps : list (Async A)) : Async (list A) :=
  fun w =>
    match ps with
    | [] => (Return [], w)
    | p :: ps' =>
        let (r, w1) := p w in
        let (rs, w2) := promiseAll ps' w1 in
        (match r, rs with
         | Return a, Return l => Return (a :: l)
         | Throw e, _ => Throw e
         | Return _, Throw e => Throw e
         end, w2)
    end.

Definition withStore (f : (string -> list Document) -> string -> list Document)
           (w : World) : World :=
  {| store := f (store w); accounts := accounts w; bucket := bucket w;
     nextId := nextId w; dateNow := dateNow w; serverTime := serverTime w;
     faults := faults w; calls := calls w |}.

Definition withAccounts (f : list Account -> list Account) (w : World)
  : World :=
  {| store := store w; accounts := f (accounts w); bucket := bucket w;
     nextId := nextId w; dateNow := dateNow w; serverTime := serverTime w;
     faults := faults w; calls := calls w |}.

Definition withBucket (f : list StoredFile -> list StoredFile) (w : World)
  : World :=
  {| store := store w; accounts := accounts w; bucket := f (bucket w);
     nextId := nextId w; dateNow := dateNow w; serverTime := serverTime w;
     faults := faults w; calls := calls w |}.

Definition withNextId (n : N) (w : World) : World :=
  {| store := store w; accounts := accounts w; bucket := bucket w;
     nextId := n; dateNow := dateNow w; serverTime := serverTime w;
     faults := faults w; calls := calls w |}.

Definition recorded (c : Call) (w : World) : World :=
  {| store := store w; accounts := accounts w; bucket := bucket w;
     nextId := nextId w; dateNow := dateNow w; serverTime := serverTime w;
     faults := faults w; calls := calls w ++ [c] |}.

Definition withFaults (fs : list bool) (w : World) : World :=
  {| store := store w; accounts := accounts w; bucket := bucket w;
     nextId := nextId w; dateNow := dateNow w; serverTime := serverTime w;
     faults := fs; calls := calls w |}.

(** The collection [c] replaced by [f] of it. *)
Definition inCollection (c : string) (f : list Document -> list Document)
           (s : string -> list Document) : string -> list Document :=
  fun c' => if String.eqb c' c then f (s c) else s c'.

Definition unavailable : Error :=
  {| code := "unavailable"; errorMessage := "The service is unavailable." |}.

(** Whether the [i]-th coming service call fails. *)
Definition failsAt (i : nat) (w : World) : bool := nth i (faults w) false.

(** The world once the call [c] has been made. *)
Definition afterCall (c : Call) (w : World) : World :=
  withFaults (tl (faults w)) (recorded c w).

(** Every call to a service is recorded, and fails when the environment
    says so (an unreachable service, a rejected write). *)
Definition service (c : Call) : Async unit :=
  fun w =>
    if failsAt 0 w then (Throw unavailable, afterCall c w)
    else (Return tt, afterCall c w).

Local Open Scope async_scope.

(** A generated identifier. *)
Definition freshId (prefix : string) : Async string :=
  fun w => (Return (prefix ++ decimal (nextId w))%string,
            withNextId (N.succ (nextId w)) w).

(** [Date.now()] *)
Definition Date_now : Async N := fun w => (Return (dateNow w), w).

(** The store replaces the [serverTimestamp()] sentinel when it writes. *)
Definition resolved (time : N) (data : object) : object :=
  map (fun kv =>
         match snd kv with
         | JServerTimestamp => (fst kv, JTimestamp time)
         | _ => kv
         end) data.

Definition hasId (id : string) (d : Document) : bool :=
  String.eqb (docId d) id.

(** [addDoc(collection(db, c), data)].  Whether the store takes the document
    is the environment's decision, like every failure of a service; the
    refusal of a document with an [undefined] property is one of them. *)
Definition addDoc (c : string) (data : object) : Async string :=
  service (AddDoc c data) ;;
  id <- freshId "doc" ;;
  fun w =>
    (Return id,
     withStore
       (inCollection c
          (fun ds =>
             ds ++ [ {| docId := id;
                        docData := resolved (serverTime w) data |} ]))
       w).

(** [setDoc(doc(db, c, id), data)] *)
Definition setDoc (c id : string) (data : object) : Async unit :=
  service (SetDoc c id data) ;;
  fun w =>
    let d := {| docId := id; docData := resolved (serverTime w) data |} in
    (Return tt,
     withStore
       (inCollection c
          (fun ds =>
             if existsb (hasId id) ds
             then map (fun x => if hasId id x then d else x) ds
             else ds ++ [d]))
       w).

(** [updateDoc(doc(db, c, id), data)]: fails when there is no such
    document. *)
Definition updateDoc (c id : string) (data : object) : Async unit :=
  service (UpdateDoc c id data) ;;
  fun w =>
    if existsb (hasId id) (store w c) then
      (Return tt,
       withStore
         (inCollection c
            (map (fun x =>
                    if hasId id x
                    then {| docId := id;
                            docData :=
                              spread (docData x)
                                (resolved (serverTime w) data) |}
                    else x)))
         w)
    else
      (Throw {| code := "not-found";
                errorMessage := "No document to update." |}, w).

(** [getDocs(query(collection(db, c), where(field, "==", v)))] *)
Definition getDocs (c field : string) (v : jsval) : Async (list Document) :=
  service (GetDocs c field v) ;;
  fun w =>
    (Return (filter (fun d => strictEq (get field (docData d)) v) (store w c)),
     w).

(** [getCountFromServer(query(collection(db, c), where(f, "==", v), ...))]:
    the number of documents that meet every condition. *)
Definition getCountFromServer (c : string) (conditions : list (string * jsval))
  : Async N :=
  service (GetCount c conditions) ;;
  fun w =>
    (Return
       (N.of_nat
          (List.length
             (filter
                (fun d =>
                   forallb
                     (fun fv => strictEq (get (fst fv) (docData d)) (snd fv))
                     conditions)
                (store w c)))),
     w).

(** [createUserWithEmailAndPassword(auth, email, password)]: returns the
    identifier of the new user.  Addresses are compared as given. *)
Definition createUserWithEmailAndPassword `{Platform} (email password : string)
  : Async string :=
  service (CreateUser email password) ;;
  fun w =>
    if negb (authAcceptsEmail email) then
      (Throw {| code := "auth/invalid-email";
                errorMessage := "The email address is badly formatted." |}, w)
    else if existsb (fun a => String.eqb (accountEmail a) email) (accounts w)
    then
      (Throw {| code := "auth/email-already-in-use";
                errorMessage := "The email address is already in use." |}, w)
    else if (String.length password <? 6)%nat then
      (Throw {| code := "auth/weak-password";
                errorMessage := "Password should be at least 6 characters." |},
       w)
    else
      (id <- freshId "uid" ;;
       fun w' =>
         (Return id,
          withAccounts
            (fun l => l ++ [ {| uid := id; accountEmail := email;
                                accountPassword := password |} ])
            w')) w.

(** [uploadBytes(ref(storage, path), file)] *)
Definition uploadBytes (path name : string) (size : N) : Async string :=
  service (UploadBytes path name size) ;;
  fun w =>
    (Return path,
     withBucket
       (fun l =>
          filter (fun f => negb (String.eqb (filePath f) path)) l
            ++ [ {| filePath := path; fileName := name; fileSize := size |} ])
       w).

(** [getDownloadURL(ref)] *)
Definition getDownloadURL `{Platform} (path : string) : Async string :=
  service (GetDownloadURL path) ;;
  ret (downloadURL path).

(** [revalidatePath(p)]: local to the server. *)
Definition revalidatePath (p : string) : Async unit :=
  fun w => (Return tt, recorded (RevalidatePath p) w).

(** The world after [addDoc(collection(db, c), data)] went through. *)
Definition added (c : string) (data : object) (w : World) : World :=
  withStore
    (inCollection c
       (fun ds => ds ++ [ {| docId := ("doc" ++ decimal (nextId w))%string;
                             docData := resolved (serverTime w) data |} ]))
    (withNextId (N.succ (nextId w)) (afterCall (AddDoc c data) w)).

(* ================================================================== *)
(** ** [src/app/actions.ts] *)
(* ================================================================== *)

(** What a server action returns: [success], [message], the optional
    [errors], and the other properties some actions add. *)
Record ActionResult : Type := {
  success : bool;
  message : string;
  errors : option Zod.FieldErrors;
  details : object
}.

Definition result (ok : bool) (m : string) : ActionResult :=
  {| success := ok; message := m; errors := None; details := [] |}.

Definition invalid (m : string) (error : list Zod.ZodIssue) : ActionResult :=
  {| success := false; message := m;
     errors := Some (Zod.fieldErrors error); details := [] |}.

(** The properties of a validated object. *)
Definition dataOf (v : jsval) : object :=
  match v with JObj o => o | _ => [] end.

Definition itemsOf (v : jsval) : list jsval :=
  match v with JArr l => l | _ => [] end.

Definition stringOf (v : jsval) : string :=
  match v with JStr s => s | _ => "" end.

(** A FormData: its entries in order, each a string or a file. *)
Definition FormData : Type := list (string * jsval).

(** [formData.get(k)] *)
Fixpoint formGet (k : string) (fd : FormData) : jsval :=
  match fd with
  | [] => JNull
  | (k', v) :: fd' => if String.eqb k k' then v else formGet k fd'
  end.

(** [formData.getAll(k)] *)
Definition formGetAll (k : string) (fd : FormData) : jsval :=
  JArr (map snd (filter (fun kv => String.eqb k (fst kv)) fd)).

(** [Object.fromEntries(formData.entries())] *)
Definition fromEntries (fd : FormData) : object := spread [] fd.

Module Actions.
Section WithPlatform.

Context `{Platform}.

Definition applicationSchema : Zod.ZodType :=
  Zod.object_
    [ ("jobId", Zod.string_ []);
      ("fullName", Zod.string_ [Zod.min 2 "Full name is required."]);
      ("dob", Zod.optional (Zod.string_ []));
      ("gender", Zod.optional (Zod.string_ []));
      ("mobile",
        Zod.string_ [Zod.min 10 "A valid mobile number is required."]);
      ("email",
        Zod.string_ [Zod.email "A valid email address is required."]);
      ("whatsapp", Zod.optional (Zod.string_ []));
      ("permanentAddress", Zod.optional (Zod.string_ []));
      ("currentAddress", Zod.optional (Zod.string_ []));
      ("city", Zod.optional (Zod.string_ []));
      ("state", Zod.optional (Zod.string_ []));
      ("pincode", Zod.optional (Zod.string_ []));
      ("highestQualification", Zod.optional (Zod.string_ []));
      ("yearOfPassing", Zod.optional (Zod.string_ []));
      ("university", Zod.optional (Zod.string_ []));
      ("specialization", Zod.optional (Zod.string_ []));
      ("hasExperience", Zod.enum ["yes"; "no"]);
      ("previousCompany", Zod.optional (Zod.string_ []));
      ("designation", Zod.optional (Zod.string_ []));
      ("yearsOfExperience", Zod.optional (Zod.coerce_number []));
      ("linkedin", Zod.optional (Zod.string_ []));
      ("technicalSkills", Zod.optional (Zod.string_ []));
      ("softSkills", Zod.optional (Zod.string_ []));
      ("certifications", Zod.optional (Zod.string_ []));
      ("languages", Zod.optional (Zod.array (Zod.string_ []) 0 ""));
      ("preferredRole", Zod.optional (Zod.string_ []));
      ("preferredLocation", Zod.optional (Zod.string_ []));
      ("expectedSalary", Zod.optional (Zod.string_ []));
      ("noticePeriod", Zod.optional (Zod.string_ []));
      ("readyToRelocate", Zod.enum ["yes"; "no"]);
      ("whyShouldWeHireYou", Zod.optional (Zod.string_ []));
      ("confirmInfo",
        Zod.refine Zod.boolean (fun val => strictEq val (JBool true))
          "You must confirm the information is true." []);
      ("agreeTerms",
        Zod.refine Zod.boolean (fun val => strictEq val (JBool true))
          "You must agree to the terms." []);
      ("resumeUrl",
        Zod.optional (Zod.string_ [Zod.url "Failed to upload resume."])) ].

(** The object handed to the schema: the form's entries, with the check
    boxes and the number converted. *)
Definition applicationInput (formData : FormData) : object :=
  let rawData := fromEntries formData in
  spread rawData
    [ ("languages", formGetAll "languages" formData);
      ("yearsOfExperience",
        if truthy (get "yearsOfExperience" rawData)
        then JNum (Number (get "yearsOfExperience" rawData))
        else JUndefined);
      ("confirmInfo", JBool (strictEq (get "confirmInfo" rawData) (JStr "on")));
      ("agreeTerms", JBool (strictEq (get "agreeTerms" rawData) (JStr "on"))) ].

(** The storage path of a resume. *)
Definition resumePath (jobId : string) (now : N) (name : string) : string :=
  ("resumes/" ++ jobId ++ "/" ++ decimal now ++ "-" ++ name)%string.

Definition applyForJob (prevState : jsval) (formData : FormData)
  : Async ActionResult :=
  let data := applicationInput formData in
  match Zod.safeParse applicationSchema (JObj data) with
  | Zod.Failure error =>
      ret (invalid "Invalid application data. Please check all fields." error)
  | Zod.Success validated =>
      tryCatch
        (let applicationData := dataOf validated in
         applicationData <-
           match formGet "resume" formData with
           | JFile name size =>
               if (0 <? size)%N then
                 now <- Date_now ;;
                 snapshot <-
                   uploadBytes
                     (resumePath (stringOf (get "jobId" applicationData))
                        now name)
                     name size ;;
                 downloadURL <- getDownloadURL snapshot ;;
                 ret (set "resumeUrl" (JStr downloadURL) applicationData)
               else ret applicationData
           | _ => ret applicationData
           end ;;
         addDoc "applications"
           (spread applicationData [("submittedAt", JServerTimestamp)]) ;;
         ret (result true
                "Application submitted successfully! We will get back to you soon."))
        (fun _ =>
           ret (result false "Failed to submit application. Please try again."))
  end.

Definition dsrSchema : Zod.ZodType :=
  Zod.object_
    [ ("description", Zod.string_ [Zod.min 10 "Description is required."]);
      ("hasTravelled", Zod.default Zod.boolean (JBool false));
      ("openingKm", Zod.optional (Zod.coerce_number []));
      ("closingKm", Zod.optional (Zod.coerce_number []));
      ("employeeId", Zod.string_ []);
      ("employeeName", Zod.string_ []) ].

Definition submitDsr (data : jsval) : Async ActionResult :=
  match Zod.safeParse dsrSchema data with
  | Zod.Failure error => ret (invalid "Invalid data." error)
  | Zod.Success validated =>
      tryCatch
        (addDoc "dsr"
           (spread (dataOf validated) [("date", JServerTimestamp)]) ;;
         ret (result true "DSR submitted successfully."))
        (fun _ => ret (result false "Failed to submit DSR."))
  end.

Definition callLogSchema : Zod.ZodType :=
  Zod.object_
    [ ("clientName", Zod.string_ [Zod.min 2 "Client name is required."]);
      ("clientMobile",
        Zod.string_ [Zod.min 10 "A valid mobile number is required."]);
      ("topic", Zod.string_ [Zod.min 5 "Topic is required."]);
      ("duration",
        Zod.coerce_number
          [Zod.nmin (ofN 1) "Duration must be at least 1 minute."]);
      ("employeeId", Zod.string_ []);
      ("employeeName", Zod.string_ []) ].

Definition logCall (data : jsval) : Async ActionResult :=
  match Zod.safeParse callLogSchema data with
  | Zod.Failure error => ret (invalid "Invalid data." error)
  | Zod.Success validated =>
      tryCatch
        (addDoc "callLogs"
           (spread (dataOf validated) [("date", JServerTimestamp)]) ;;
         ret (result true "Call logged successfully."))
        (fun _ => ret (result false "Failed to log call."))
  end.

Definition earningSchema : Zod.ZodType :=
  Zod.object_
    [ ("description", Zod.string_ [Zod.min 3 "Description is required."]);
      ("amount",
        Zod.coerce_number
          [Zod.nmin (ofN 1) "Amount must be greater than 0."]) ].

Definition earningsSchema : Zod.ZodType :=
  Zod.object_
    [ ("earnings",
        Zod.array earningSchema 1 "Please add at least one earning.");
      ("employeeId", Zod.string_ []);
      ("employeeName", Zod.string_ []) ].

(** The document written for one line item. *)
Definition earningDocument (employeeId employeeName earning : jsval)
  : object :=
  spread (dataOf earning)
    [ ("employeeId", employeeId);
      ("employeeName", employeeName);
      ("date", JServerTimestamp) ].

Definition submitEarnings (data : jsval) : Async ActionResult :=
  match Zod.safeParse earningsSchema data with
  | Zod.Failure error => ret (invalid "Invalid data." error)
  | Zod.Success validated =>
      tryCatch
        (let employeeId := get "employeeId" (dataOf validated) in
         let employeeName := get "employeeName" (dataOf validated) in
         let earningPromises :=
           map (fun earning =>
                  addDoc "earnings"
                    (earningDocument employeeId employeeName earning))
               (itemsOf (get "earnings" (dataOf validated))) in
         promiseAll earningPromises ;;
         ret (result true "Earnings submitted successfully."))
        (fun _ => ret (result false "Failed to submit earnings."))
  end.

Definition registrationSchema : Zod.ZodType :=
  Zod.object_
    [ ("fullName",
        Zod.string_ [Zod.min 3 "Full name must be at least 3 characters."]);
      ("mobile",
        Zod.string_ [Zod.min 10 "A valid 10-digit mobile number is required.";
                     Zod.max 10 "A valid 10-digit mobile number is required."]);
      ("personalEmail",
        Zod.string_ [Zod.email "Please enter a valid personal email."]);
      ("userId",
        Zod.refine (Zod.string_ [Zod.min 3 "User ID is required."])
          (fun val => endsWith (stringOf val) "@zensolve.in")
          "User ID must end with @zensolve.in" []);
      ("password",
        Zod.string_ [Zod.min 6 "Password must be at least 6 characters."]);
      ("district", Zod.string_ [Zod.min 2 "District is required."]);
      ("state", Zod.string_ [Zod.min 2 "State is required."]);
      ("pincode", Zod.string_ [Zod.length 6 "Pincode must be 6 digits."]) ].

Definition registerEmployee (data : jsval) : Async ActionResult :=
  match Zod.safeParse registrationSchema data with
  | Zod.Failure error =>
      ret (invalid "Invalid registration data. Please check all fields."
             error)
  | Zod.Success validated =>
      tryCatch
        (let fullName := get "fullName" (dataOf validated) in
         let userId := get "userId" (dataOf validated) in
         let password := get "password" (dataOf validated) in
         let otherData := dataOf validated in
         user <-
           createUserWithEmailAndPassword (stringOf userId)
             (stringOf password) ;;
         setDoc "employees" user
           [ ("name", fullName);
             ("userId", userId);
             ("mobile", get "mobile" otherData);
             ("personalEmail", get "personalEmail" otherData);
             ("district", get "district" otherData);
             ("state", get "state" otherData);
             ("pincode", get "pincode" otherData);
             ("createdAt", JServerTimestamp);
             ("status", JStr "active") ] ;;
         revalidatePath "/admin/employees" ;;
         ret {| success := true;
                message := "Employee registered successfully!";
                errors := None;
                details := [("userId", userId); ("password", password)] |})
        (fun error =>
           let errorMessage :=
             if String.eqb (code error) "auth/email-already-in-use" then
               "This User ID is already taken. Please try with a different User ID."
             else if String.eqb (code error) "auth/weak-password" then
               "The password is too weak. It must be at least 6 characters long."
             else "Failed to register employee. Please try again." in
           ret (result false errorMessage))
  end.

Definition newsletterSchema : Zod.ZodType :=
  Zod.object_
    [ ("email",
        Zod.string_ [Zod.email "Please enter a valid email address."]) ].

Definition subscribeToNewsletter (prevState : jsval) (formData : FormData)
  : Async ActionResult :=
  match Zod.safeParse newsletterSchema
          (JObj [("email", formGet "email" formData)]) with
  | Zod.Failure _ => ret (result false "Invalid email address.")
  | Zod.Success validated =>
      tryCatch
        (existingSubscriber <-
           getDocs "newsletterSubscribers" "email"
             (get "email" (dataOf validated)) ;;
         match existingSubscriber with
         | _ :: _ => ret (result true "You are already subscribed!")
         | [] =>
             addDoc "newsletterSubscribers"
               [ ("email", get "email" (dataOf validated));
                 ("subscribedAt", JServerTimestamp) ] ;;
             revalidatePath "/admin/newsletter" ;;
             ret (result true "Thank you for subscribing!")
         end)
        (fun _ =>
           ret (result false "Something went wrong. Please try again later."))
  end.

Definition membershipApplicationSchema : Zod.ZodType :=
  Zod.object_
    [ ("name", Zod.string_ [Zod.min 2 "Name is required."]);
      ("email", Zod.string_ [Zod.email "A valid email is required."]);
      ("phone",
        Zod.string_ [Zod.min 10 "A valid 10-digit phone number is required."]);
      ("district", Zod.string_ [Zod.min 2 "District is required."]);
      ("state", Zod.string_ [Zod.min 2 "State is required."]);
      ("utr",
        Zod.string_ [Zod.min 10 "A valid UTR/Transaction ID is required."]) ].

Definition applyForMembership (data : jsval) : Async ActionResult :=
  match Zod.safeParse membershipApplicationSchema data with
  | Zod.Failure error =>
      ret (invalid "Invalid data. Please check all fields." error)
  | Zod.Success validated =>
      tryCatch
        (docRef <-
           addDoc "memberships"
             (spread (dataOf validated)
                [ ("status", JStr "pending");
                  ("submittedAt", JServerTimestamp) ]) ;;
         ret {| success := true;
                message := "Application submitted successfully!";
                errors := None;
                details := [("membershipId", JStr docRef)] |})
        (fun _ =>
           ret (result false "Failed to submit application. Please try again."))
  end.

Definition verifyMembershipSchema : Zod.ZodType :=
  Zod.object_
    [ ("membershipId", Zod.string_ []);
      ("email", Zod.string_ [Zod.email "Invalid email"]);
      ("password", Zod.string_ []) ].

Definition verifyMembership (data : jsval) : Async ActionResult :=
  match Zod.safeParse verifyMembershipSchema data with
  | Zod.Failure _ => ret (result false "Invalid data.")
  | Zod.Success validated =>
      let membershipId := stringOf (get "membershipId" (dataOf validated)) in
      let email := stringOf (get "email" (dataOf validated)) in
      let password := stringOf (get "password" (dataOf validated)) in
      tryCatch
        (createUserWithEmailAndPassword email password ;;
         updateDoc "memberships" membershipId [("status", JStr "verified")] ;;
         revalidatePath "/admin/memberships" ;;
         ret (result true "Membership verified and user created."))
        (fun error =>
           if String.eqb (code error) "auth/email-already-in-use" then
             updateDoc "memberships" membershipId
               [("status", JStr "verified")] ;;
             revalidatePath "/admin/memberships" ;;
             ret (result true
                    "User already exists. Membership marked as verified.")
           else
             ret (result false
                    (if String.eqb (errorMessage error) ""
                     then "Failed to verify membership."
                     else errorMessage error)))
  end.

Definition contactFormSchema : Zod.ZodType :=
  Zod.object_
    [ ("name", Zod.string_ [Zod.min 2 "Name must be at least 2 characters."]);
      ("email", Zod.string_ [Zod.email "Invalid email address."]);
      ("subject",
        Zod.string_ [Zod.min 5 "Subject must be at least 5 characters."]);
      ("message",
        Zod.string_ [Zod.min 10 "Message must be at least 10 characters."]) ].

(** The message is only written to the server's console. *)
Definition submitContactForm (data : jsval) : Async ActionResult :=
  match Zod.safeParse contactFormSchema data with
  | Zod.Failure error => ret (invalid "Invalid form data." error)
  | Zod.Success _ =>
      tryCatch
        (ret (result true
                "Thank you for your message! We will get back to you soon."))
        (fun _ =>
           ret (result false "Something went wrong. Please try again later."))
  end.

(** [z.coerce.number().min(0).optional()], with the library's message. *)
Definition notNegative : Zod.ZodType :=
  Zod.optional
    (Zod.coerce_number
       [Zod.nmin (ofN 0) "Number must be greater than or equal to 0"]).

Definition jobSchema : Zod.ZodType :=
  Zod.object_
    [ ("title", Zod.string_ [Zod.min 3 "Title is required."]);
      ("company", Zod.string_ [Zod.min 2 "Company name is required."]);
      ("location", Zod.string_ [Zod.min 2 "Location is required."]);
      ("type", Zod.string_ [Zod.min 1 "Job type is required."]);
      ("workMode", Zod.string_ [Zod.min 1 "Work mode is required."]);
      ("experienceMin", notNegative);
      ("experienceMax", notNegative);
      ("salaryMin", notNegative);
      ("salaryMax", notNegative);
      ("department", Zod.string_ [Zod.min 1 "Department is required."]);
      ("companyType", Zod.string_ [Zod.min 1 "Company type is required."]);
      ("roleCategory", Zod.string_ [Zod.min 1 "Role category is required."]);
      ("education", Zod.string_ [Zod.min 1 "Education is required."]);
      ("industry", Zod.string_ [Zod.min 1 "Industry is required."]);
      ("description", Zod.string_ [Zod.min 10 "Description is required."]);
      ("tags", Zod.optional (Zod.string_ [])) ].

(** [tags ? tags.split(',').map(tag => tag.trim()) : []] *)
Definition tagsArray (tags : jsval) : list string :=
  if truthy tags then map js_trim (split "," (stringOf tags)) else [].

(** The document written for a job. *)
Definition jobDocument (jobData : object) : object :=
  spread jobData
    [ ("tags", JArr (map JStr (tagsArray (get "tags" jobData))));
      ("postedAt", JServerTimestamp) ].

Definition addJob (data : jsval) : Async ActionResult :=
  match Zod.safeParse jobSchema data with
  | Zod.Failure error =>
      ret (invalid "Invalid job data. Please check all fields." error)
  | Zod.Success validated =>
      tryCatch
        (let jobData := dataOf validated in
         addDoc "jobs" (jobDocument jobData) ;;
         revalidatePath "/jobs" ;;
         revalidatePath "/admin" ;;
         ret (result true "Job added successfully!"))
        (fun _ => ret (result false "Failed to add job. Please try again."))
  end.

Definition attendanceSchema : Zod.ZodType :=
  Zod.object_
    [ ("status", Zod.enum ["working"; "leave"]);
      ("tasks", Zod.optional (Zod.string_ []));
      ("employeeId", Zod.string_ []);
      ("employeeName", Zod.string_ []) ].

Definition markAttendance (data : jsval) : Async ActionResult :=
  match Zod.safeParse attendanceSchema data with
  | Zod.Failure _ => ret (result false "Invalid data.")
  | Zod.Success validated =>
      tryCatch
        (addDoc "attendance"
           (spread (dataOf validated) [("date", JServerTimestamp)]) ;;
         ret (result true "Attendance marked successfully."))
        (fun _ => ret (result false "Failed to mark attendance."))
  end.

End WithPlatform.
End Actions.

(* ================================================================== *)
(** ** The DSR page: the form's schema and the report table *)
(* ================================================================== *)

(** The signed-in user, as the pages read it. *)
Record User : Type := {
  userUid : string;
  displayName : jsval;
  userEmail : jsval
}.

Module DsrPage.
Section WithPlatform.

Context `{Platform}.

Definition dsrSchema : Zod.ZodType :=
  Zod.refine
    (Zod.object_
       [ ("description",
           Zod.string_
             [Zod.min 10
                "Please provide a detailed description of your work."]);
         ("hasTravelled", Zod.default Zod.boolean (JBool false));
         ("openingKm", Zod.optional (Zod.coerce_number []));
         ("closingKm", Zod.optional (Zod.coerce_number [])) ])
    (fun data =>
       let d := dataOf data in
       if truthy (get "hasTravelled" d) then
         negb (strictEq (get "openingKm" d) JUndefined)
         && negb (strictEq (get "closingKm" d) JUndefined)
         && js_gt (get "closingKm" d) (get "openingKm" d)
       else true)
    "Closing KM must be greater than Opening KM."
    [Zod.Key "closingKm"].

(** [onSubmit(values)]: the result of the server action, when there is a
    signed-in user. *)
Definition onSubmit (user : option User) (values : jsval)
  : Async (option ActionResult) :=
  match user with
  | None => ret None
  | Some u =>
      r <- Actions.submitDsr
             (JObj (spread (dataOf values)
                      [ ("employeeId", JStr (userUid u));
                        ("employeeName",
                          js_or (js_or (displayName u) (userEmail u))
                                (JStr "Unknown")) ])) ;;
      ret (Some r)
  end.

(** [form.handleSubmit(onSubmit)]: the form's values go through the
    resolver of [dsrSchema]; [onSubmit] runs on the parsed values, and not
    at all when the resolver reports errors. *)
Definition handleSubmit (user : option User) (formValues : jsval)
  : Async (option ActionResult) :=
  match Zod.safeParse dsrSchema formValues with
  | Zod.Failure _ => ret None
  | Zod.Success values => onSubmit user values
  end.

(** The "Travel (KM)" cell of one row of the table. *)
Definition travelCell (log : object) : jsval :=
  if truthy
       (js_and (js_and (get "hasTravelled" log) (get "closingKm" log))
               (get "openingKm" log))
  then js_sub (get "closingKm" log) (get "openingKm" log)
  else JStr "N/A".

End WithPlatform.
End DsrPage.

(* ================================================================== *)
(** ** The memberships page of the admin console *)
(* ================================================================== *)

Module MembershipsPage.
Section WithPlatform.

Context `{Platform}.

(** [handleVerify] of the row of one membership. *)
Definition handleVerify (membership : Document) : Async ActionResult :=
  Actions.verifyMembership
    (JObj [ ("membershipId", JStr (docId membership));
            ("email", get "email" (docData membership));
            ("password", get "phone" (docData membership)) ]).

End WithPlatform.
End MembershipsPage.

(* ================================================================== *)
(** ** The employee dashboard *)
(* ================================================================== *)

Module Dashboard.

(** The state [stats] of the page. *)
Record Stats : Type := {
  dsrCount : N;
  callCount : N;
  totalEarnings : jsval;
  pendingTasks : N
}.

(** Its initial value. *)
Definition initialStats : Stats :=
  {| dsrCount := 0; callCount := 0; totalEarnings := JNum (ofN 0);
     pendingTasks := 0 |}.

(** [let totalEarnings = 0;
     earningsSnapshot.forEach(doc => {
       totalEarnings += doc.data().amount || 0; })]: the value of the
    variable after the loop. *)
Definition earningsTotal (earningsSnapshot : list Document) : option jsval :=
  fold_left
    (fun total doc =>
       match total with
       | Some t => js_add t (js_or (get "amount" (docData doc)) (JNum (ofN 0)))
       | None => None
       end)
    earningsSnapshot (Some (JNum (ofN 0))).

(** [fetchData()] for the signed-in user, from the state [stats]: the
    state once it is over.  The four queries are awaited one after the
    other; when one of them fails the error is logged and the state is
    left as it was.  There is no state where the model has no value for
    the total. *)
Definition fetchData (user : User) (stats : Stats) : Async (option Stats) :=
  tryCatch
    (dsrCount <-
       getCountFromServer "dsr" [("employeeId", JStr (userUid user))] ;;
     callCount <-
       getCountFromServer "callLogs" [("employeeId", JStr (userUid user))] ;;
     earningsSnapshot <-
       getDocs "earnings" "employeeId" (JStr (userUid user)) ;;
     let totalEarnings := earningsTotal earningsSnapshot in
     pendingTasks <-
       getCountFromServer "tasks"
         [ ("employeeId", JStr (userUid user));
           ("status", JStr "pending") ] ;;
     ret (match totalEarnings with
          | Some total =>
              Some {| dsrCount := dsrCount; callCount := callCount;
                      totalEarnings := total;
                      pendingTasks := pendingTasks |}
          | None => None
          end))
    (fun _ => ret (Some stats)).

End Dashboard.

(* ================================================================== *)
(** ** The calls page: the form's schema and its submission *)
(* ================================================================== *)

Module CallsPage.

Definition callLogSchema : Zod.ZodType :=
  Zod.object_
    [ ("clientName", Zod.string_ [Zod.min 2 "Client name is required."]);
      ("clientMobile",
        Zod.string_ [Zod.min 10 "A valid mobile number is required."]);
      ("topic", Zod.string_ [Zod.min 5 "Topic must be at least 5 characters."]);
      ("duration",
        Zod.coerce_number
          [Zod.nmin (ofN 1) "Duration must be at least 1 minute."]) ].

Definition onSubmit (user : option User) (values : jsval)
  : Async (option ActionResult) :=
  match user with
  | None => ret None
  | Some u =>
      r <- Actions.logCall
             (JObj (spread (dataOf values)
                      [ ("employeeId", JStr (userUid u));
                        ("employeeName",
                          js_or (js_or (displayName u) (userEmail u))
                                (JStr "Unknown")) ])) ;;
      ret (Some r)
  end.

(** [form.handleSubmit(onSubmit)], with the resolver of [callLogSchema]. *)
Definition handleSubmit (user : option User) (formValues : jsval)
  : Async (option ActionResult) :=
  match Zod.safeParse callLogSchema formValues with
  | Zod.Failure _ => ret None
  | Zod.Success values => onSubmit user values
  end.

End CallsPage.

(* ================================================================== *)
(** ** The earnings page: the form's schema and its submission *)
(* ================================================================== *)

Module EarningsPage.

Definition earningsSchema : Zod.ZodType :=
  Zod.object_
    [ ("earnings",
        Zod.array
          (Zod.object_
             [ ("description",
                 Zod.string_
                   [Zod.min 3 "Description must be at least 3 characters."]);
               ("amount",
                 Zod.coerce_number
                   [Zod.nmin (ofN 1) "Amount must be a positive number."]) ])
          1 "Please add at least one earning entry.") ].

Definition onSubmit (user : option User) (values : jsval)
  : Async (option ActionResult) :=
  match user with
  | None => ret None
  | Some u =>
      r <- Actions.submitEarnings
             (JObj [ ("earnings", get "earnings" (dataOf values));
                     ("employeeId", JStr (userUid u));
                     ("employeeName",
                       js_or (js_or (displayName u) (userEmail u))
                             (JStr "Unknown")) ]) ;;
      ret (Some r)
  end.

(** [form.handleSubmit(onSubmit)], with the resolver of [earningsSchema]. *)
Definition handleSubmit (user : option User) (formValues : jsval)
  : Async (option ActionResult) :=
  match Zod.safeParse earningsSchema formValues with
  | Zod.Failure _ => ret None
  | Zod.Success values => onSubmit user values
  end.

End EarningsPage.

(* ================================================================== *)
(** ** The page to join as a member *)
(* ================================================================== *)

(** [v.length] of a string or an array. *)
Definition lengthOf (v : jsval) : jsval :=
  match v with
  | JStr s => JNum (ofN (N.of_nat (String.length s)))
  | JArr l => JNum (ofN (N.of_nat (List.length l)))
  | _ => JUndefined
  end.

Module JoinMembershipPage.
Section WithPlatform.

Context `{Platform}.

Definition membershipSchema : Zod.ZodType :=
  Zod.object_
    [ ("name", Zod.string_ [Zod.min 2 "Name is required."]);
      ("email", Zod.string_ [Zod.email "A valid email is required."]);
      ("phone",
        Zod.string_ [Zod.min 10 "A valid 10-digit phone number is required.";
                     Zod.max 13 "Phone number is too long."]);
      ("state", Zod.string_ [Zod.min 1 "State is required."]);
      ("district", Zod.string_ [Zod.min 1 "District is required."]);
      ("utr",
        Zod.string_ [Zod.min 10 "A valid UTR/Transaction ID is required."]) ].

(** What the page shows once [onSubmit] is over. *)
Inductive Shown : Type :=
| FieldError (field message : string)      (* form.setError *)
| Confirmation (membershipId : jsval)      (* the third step *)
| SubmissionFailed (description : string). (* the toast *)

Definition onSubmit (values : jsval) : Async Shown :=
  let utr := get "utr" (dataOf values) in
  if negb (truthy utr) || js_gt (JNum (ofN 10)) (lengthOf utr) then
    ret (FieldError "utr" "A valid UTR/Transaction ID is required.")
  else
    r <- Actions.applyForMembership values ;;
    if success r && truthy (get "membershipId" (details r)) then
      ret (Confirmation (get "membershipId" (details r)))
    else
      ret (SubmissionFailed
             (if String.eqb (message r) "" then "An unknown error occurred."
              else message r)).

(** [form.handleSubmit(onSubmit)], with the resolver of
    [membershipSchema]. *)
Definition handleSubmit (formValues : jsval) : Async (option Shown) :=
  match Zod.safeParse membershipSchema formValues with
  | Zod.Failure _ => ret None
  | Zod.Success values => r <- onSubmit values ;; ret (Some r)
  end.

End WithPlatform.
End JoinMembershipPage.

(* ================================================================== *)
(** ** The employees page of the admin console, and the report page *)
(* ================================================================== *)

Module EmployeesPage.

(** An employee, as the components are given it. *)
Record Employee : Type := { id : string; name : string }.

(** [employees.filter(e => e.status === 'active').length] *)
Definition activeEmployees (employees : list object) : nat :=
  List.length
    (filter (fun e => strictEq (get "status" e) (JStr "active")) employees).

(** The number on the "Inactive Employees" card:
    [employees.length - activeEmployees]. *)
Definition inactiveEmployees (employees : list object) : nat :=
  List.length employees - activeEmployees employees.

(** The toast [handleSendWork] ends with. *)
Inductive Toast : Type :=
| ToastSuccess (description : string)
| ToastError (description : string).

(** [handleSendWork] of the dialog of one employee; [now] is what
    [Timestamp.now()] reads in the browser. *)
Definition handleSendWork (now : N) (employee : Employee)
           (title description priority : string) : Async Toast :=
  if String.eqb (js_trim title) "" || String.eqb (js_trim description) ""
  then ret (ToastError "Title and description are required.")
  else
    tryCatch
      (addDoc "tasks"
         [ ("employeeId", JStr (id employee));
           ("employeeName", JStr (name employee));
           ("title", JStr title);
           ("description", JStr description);
           ("priority", JStr priority);
           ("status", JStr "pending");
           ("assignedAt", JTimestamp now) ] ;;
       ret (ToastSuccess ("Task assigned to " ++ name employee)%string))
      (fun _ => ret (ToastError "Failed to assign task.")).

End EmployeesPage.

Module ReportPage.

(** [{ id: doc.id, ...doc.data() }] *)
Definition item (doc : Document) : object :=
  spread [("id", JStr (docId doc))] (docData doc).

(** [reportData.earnings.reduce((sum, item) => sum + item.amount, 0)] *)
Definition totalEarnings (earnings : list object) : option jsval :=
  fold_left
    (fun sum item =>
       match sum with
       | Some s => js_add s (get "amount" item)
       | None => None
       end)
    earnings (Some (JNum (ofN 0))).

End ReportPage.

(* ================================================================== *)
(** ** Running the model on concrete inputs *)
(* ================================================================== *)

(** A platform for concrete runs: an address has an [@] with something on
    both sides, a URL starts with [https://]. *)
Definition hasAt (s : string) : bool :=
  match index 0 "@" s with
  | Some i => (0 <? i)%nat && (i + 1 <? String.length s)%nat
  | None => false
  end.

Definition samplePlatform : Platform :=
  {| isEmail := hasAt;
     isURL := fun s => String.prefix "https://" s;
     authAcceptsEmail := hasAt;
     downloadURL := fun p => ("https://storage.example/" ++ p)%string |}.

(** A world with empty services and no failure ahead. *)
Definition emptyWorld : World :=
  {| store := fun _ => []; accounts := []; bucket := [];
     nextId := 0; dateNow := 1700000000000; serverTime := 1700000000500;
     faults := []; calls := [] |}.

Definition num (n : N) : jsval := JNum (ofN n).

(* ================================================================== *)
(** ** Inputs and notions used in the statements *)
(* ================================================================== *)

(** A DSR submission of a travelled day, with the two readings given. *)
Definition travelledDsr (description : string) (openingKm closingKm : jsval)
  : jsval :=
  JObj [ ("description", JStr description);
         ("hasTravelled", JBool true);
         ("openingKm", openingKm);
         ("closingKm", closingKm);
         ("employeeId", JStr "emp-1");
         ("employeeName", JStr "Asha") ].

(** The values of the DSR form for a travelled day. *)
Definition travelledForm (description : string) (openingKm closingKm : jsval)
  : jsval :=
  JObj [ ("description", JStr description);
         ("hasTravelled", JBool true);
         ("openingKm", openingKm);
         ("closingKm", closingKm) ].

(** The document the store holds for [travelledDsr], written at the time
    of [emptyWorld]. *)
Definition travelledDocument (description : string)
           (openingKm closingKm : jsval) : Document :=
  {| docId := "doc0";
     docData := [ ("description", JStr description);
                  ("hasTravelled", JBool true);
                  ("openingKm", openingKm);
                  ("closingKm", closingKm);
                  ("employeeId", JStr "emp-1");
                  ("employeeName", JStr "Asha");
                  ("date", JTimestamp 1700000000500) ] |}.

(** Whether a schema accepts a value. *)
Definition accepted (t : Zod.ZodType) (v : jsval) : bool :=
  match Zod.safeParse t v with
  | Zod.Success _ => true
  | Zod.Failure _ => false
  end.

(** One line item of an earnings submission. *)
Definition lineItem (description : string) (amount : jsval) : jsval :=
  JObj [ ("description", JStr description); ("amount", amount) ].

(** A stored DSR, as the report table reads it. *)
Definition dsrLog (hasTravelled openingKm closingKm : jsval) : object :=
  [ ("description", JStr "Visited two client sites");
    ("hasTravelled", hasTravelled);
    ("openingKm", openingKm);
    ("closingKm", closingKm) ].

(** What an Earning document adds to the total of the dashboard: its
    amount, and 0 when the amount is missing (or is itself 0 or NaN). *)
Definition amountOf (d : Document) : number :=
  match get "amount" (docData d) with
  | JNum n => if isNaN n || isZero n then ofN 0 else n
  | _ => ofN 0
  end.

(** The amounts of the documents added up one after the other from 0, in
    the order of the list. *)
Definition sumOfAmounts (ds : list Document) : number :=
  fold_left (fun total d => add total (amountOf d)) ds (ofN 0).

(** The amount of an Earning document is a number, or is missing. *)
Definition amountIsNumberOrMissing (d : Document) : bool :=
  match get "amount" (docData d) with
  | JUndefined => true
  | JNum n => negb (isNaN n)
  | _ => false
  end.

(** The documents of a collection that meet every condition of a query. *)
Definition matching (c : string) (conditions : list (string * jsval))
           (w : World) : list Document :=
  filter
    (fun d =>
       forallb (fun fv => strictEq (get (fst fv) (docData d)) (snd fv))
               conditions)
    (store w c).

(** The documents of a collection that belong to one employee. *)
Definition documentsOf (c uid : string) (w : World) : list Document :=
  filter (fun d => strictEq (get "employeeId" (docData d)) (JStr uid))
         (store w c).

(** A user and a world for running the dashboard. *)
Definition sampleUser : User :=
  {| userUid := "emp-1"; displayName := JStr "Asha";
     userEmail := JStr "asha@zensolve.in" |}.

Definition sampleEarnings : list Document :=
  [ {| docId := "e1";
       docData := [ ("description", JStr "Booking from client X");
                    ("amount", num 50000); ("employeeId", JStr "emp-1") ] |};
    {| docId := "e2";
       docData := [ ("description", JStr "Entry without amount");
                    ("employeeId", JStr "emp-1") ] |};
    {| docId := "e3";
       docData := [ ("description", JStr "Consulting");
                    ("amount", JNum (Fin (5 # 2)));
                    ("employeeId", JStr "emp-1") ] |};
    {| docId := "e4";
       docData := [ ("description", JStr "Another employee");
                    ("amount", num 700); ("employeeId", JStr "emp-2") ] |} ].

Definition earningsWorld : World :=
  withStore (inCollection "earnings" (fun _ => sampleEarnings)) emptyWorld.



(** A registration; only the login identifier varies. *)
Definition registration (userId : string) : object :=
  [ ("fullName", JStr "Bob Builder");
    ("mobile", JStr "9876543210");
    ("personalEmail", JStr "bob@gmail.com");
    ("userId", JStr userId);
    ("password", JStr "secret1");
    ("district", JStr "Pune");
    ("state", JStr "Maharashtra");
    ("pincode", JStr "411001") ].

(** The Earning documents written for the line items of a submission, in
    the order of the items, the generated identifiers counting from [k]. *)
Fixpoint earningDocuments (time : N) (employeeId employeeName : jsval)
         (k : N) (items : list jsval) : list Document :=
  match items with
  | [] => []
  | item :: rest =>
      {| docId := ("doc" ++ decimal k)%string;
         docData :=
           resolved time
             (Actions.earningDocument employeeId employeeName
                (Zod.value (Actions.earningSchema item))) |}
        :: earningDocuments time employeeId employeeName (N.succ k) rest
  end.

(** An earnings submission. *)
Definition earningsSubmission (items : list jsval) : object :=
  [ ("earnings", JArr items);
    ("employeeId", JStr "emp-1");
    ("employeeName", JStr "Asha") ].

Definition twoItems : list jsval :=
  [ lineItem "Booking from client X" (JStr "50000");
    lineItem "Consulting fee" (num 1200) ].

(** The subscriber documents that hold the address [e]. *)
Definition subscribersWith (e : string) (w : World) : list Document :=
  filter (fun d => strictEq (get "email" (docData d)) (JStr e))
         (store w "newsletterSubscribers").

(** The form of the newsletter box. *)
Definition newsletterForm (e : string) : FormData := [("email", JStr e)].

(** The world after [updateDoc(doc(db, c, id), data)] went through. *)
Definition updated (c id : string) (data : object) (w : World) : World :=
  withStore
    (inCollection c
       (map (fun x =>
               if hasId id x
               then {| docId := id;
                       docData := spread (docData x)
                                    (resolved (serverTime w) data) |}
               else x)))
    (afterCall (UpdateDoc c id data) w).

(** The world after the identity service created the account. *)
Definition registered (e p : string) (w : World) : World :=
  withAccounts
    (fun l => l ++ [ {| uid := ("uid" ++ decimal (nextId w))%string;
                        accountEmail := e; accountPassword := p |} ])
    (withNextId (N.succ (nextId w)) (afterCall (CreateUser e p) w)).

(** Whether the identity service holds an account for the address. *)
Definition hasAccount (e : string) (w : World) : bool :=
  existsb (fun a => String.eqb (accountEmail a) e) (accounts w).

(** The accounts of the identity service for one address. *)
Definition accountsWith (e : string) (w : World) : list Account :=
  filter (fun a => String.eqb (accountEmail a) e) (accounts w).

(** There is a membership under the identifier, and its status is
    "verified". *)
Definition membershipVerified (id : string) (w : World) : bool :=
  existsb (hasId id) (store w "memberships")
  && forallb (fun d => strictEq (get "status" (docData d)) (JStr "verified"))
       (filter (hasId id) (store w "memberships")).

(** What the admin console sends to verify a membership. *)
Definition verification (id e p : string) : jsval :=
  JObj [ ("membershipId", JStr id); ("email", JStr e); ("password", JStr p) ].

Definition verifiedMark : object := [("status", JStr "verified")].

(** A pending membership, and a world that holds it. *)
Definition pendingMembership : Document :=
  {| docId := "m-1";
     docData := [ ("name", JStr "Ravi Kumar");
                  ("email", JStr "ravi@example.org");
                  ("phone", JStr "9876543210");
                  ("district", JStr "Pune");
                  ("state", JStr "Maharashtra");
                  ("utr", JStr "UTR1234567890");
                  ("status", JStr "pending");
                  ("submittedAt", JTimestamp 1699999999000) ] |}.

Definition membershipWorld : World :=
  withStore (inCollection "memberships" (fun _ => [pendingMembership]))
            emptyWorld.

(** The world after [uploadBytes] went through. *)
Definition uploaded (path name : string) (size : N) (w : World) : World :=
  withBucket
    (fun l =>
       filter (fun f => negb (String.eqb (filePath f) path)) l
         ++ [ {| filePath := path; fileName := name; fileSize := size |} ])
    (afterCall (UploadBytes path name size) w).

(** A job application with a resume attached. *)
Definition applicationForm : FormData :=
  [ ("jobId", JStr "job-42");
    ("fullName", JStr "Meera Nair");
    ("mobile", JStr "9876543210");
    ("email", JStr "meera@example.org");
    ("hasExperience", JStr "yes");
    ("yearsOfExperience", JStr "3");
    ("languages", JStr "English");
    ("languages", JStr "Hindi");
    ("readyToRelocate", JStr "yes");
    ("confirmInfo", JStr "on");
    ("agreeTerms", JStr "on");
    ("resume", JFile "cv.pdf" 48213) ].

(** What validation makes of it. *)
Definition applicationValidated : jsval :=
  JObj [ ("jobId", JStr "job-42");
         ("fullName", JStr "Meera Nair");
         ("mobile", JStr "9876543210");
         ("email", JStr "meera@example.org");
         ("hasExperience", JStr "yes");
         ("yearsOfExperience", num 3);
         ("languages", JArr [JStr "English"; JStr "Hindi"]);
         ("readyToRelocate", JStr "yes");
         ("confirmInfo", JBool true);
         ("agreeTerms", JBool true) ].

(* ------------------------------------------------------------------ *)
(** *** Notions and inputs for the other handlers and pages *)
(* ------------------------------------------------------------------ *)

(** The output of an object schema, property by property. *)
Definition outputs (o : object) (kt : string * Zod.ZodType) : object :=
  match Zod.value (snd kt (get (fst kt) o)) with
  | JUndefined => if has (fst kt) o then [(fst kt, JUndefined)] else []
  | x => [(fst kt, x)]
  end.

(** A schema that hands back the value it was given. *)
Definition faithful (t : Zod.ZodType) : Prop :=
  forall v, Zod.status (t v) = Zod.Valid -> Zod.value (t v) = v.

(** A handler reported the failure [m] after the store rejected a write
    to the collection [c]: the attempted write is its only call, and the
    store is as it was. *)
Definition reported (w : World) (run : Outcome ActionResult * World)
           (m c : string) : Prop :=
  fst run = Return (result false m)
  /\ store (snd run) = store w
  /\ exists doc, calls (snd run) = calls w ++ [AddDoc c doc].

(** A logged call; only the duration varies. *)
Definition callLog (clientName clientMobile topic : string) (duration : jsval)
  : object :=
  [ ("clientName", JStr clientName);
    ("clientMobile", JStr clientMobile);
    ("topic", JStr topic);
    ("duration", duration);
    ("employeeId", JStr "emp-1");
    ("employeeName", JStr "Asha") ].

(** An attendance record; only the status varies. *)
Definition attendance (status : jsval) : object :=
  [ ("status", status); ("tasks", JStr "Client follow-ups");
    ("employeeId", JStr "emp-1"); ("employeeName", JStr "Asha") ].

(** A job posting; the lower salary bound and the tags vary. *)
Definition sampleJob (salaryMin tags : jsval) : object :=
  [ ("title", JStr "Field sales executive");
    ("company", JStr "Zensolve");
    ("location", JStr "Pune");
    ("type", JStr "Full-time");
    ("workMode", JStr "On-site");
    ("experienceMin", JStr "1");
    ("salaryMin", salaryMin);
    ("department", JStr "Sales");
    ("companyType", JStr "Services");
    ("roleCategory", JStr "Business development");
    ("education", JStr "Graduate");
    ("industry", JStr "IT services");
    ("description", JStr "Meet clients and close renewals.");
    ("tags", tags) ].

(** What the membership form sends. *)
Definition membershipForm (utr : string) : object :=
  [ ("name", JStr "Ravi Kumar");
    ("email", JStr "ravi@example.org");
    ("phone", JStr "9876543210");
    ("state", JStr "Maharashtra");
    ("district", JStr "Pune");
    ("utr", JStr utr) ].

(** How many times a character occurs in a string. *)
Fixpoint occurrences (c : ascii) (s : string) : nat :=
  match s with
  | EmptyString => 0%nat
  | String x s' => ((if Ascii.eqb x c then 1 else 0) + occurrences c s')%nat
  end.

(** Whether a string starts or ends with white space. *)
Definition edgeSpace (s : string) : bool :=
  match StringToNumber.chars s with
  | [] => false
  | c :: l =>
      StringToNumber.isWhiteSpace c
      || StringToNumber.isWhiteSpace (last l c)
  end.

(** The world after [setDoc(doc(db, c, id), data)] went through. *)
Definition stored (c id : string) (data : object) (w : World) : World :=
  withStore
    (inCollection c
       (fun ds =>
          let d := {| docId := id;
                      docData := resolved (serverTime w) data |} in
          if existsb (hasId id) ds
          then map (fun x => if hasId id x then d else x) ds
          else ds ++ [d]))
    (afterCall (SetDoc c id data) w).

(** The fields of a registration. *)
Definition registrationFields : list string :=
  [ "fullName"; "mobile"; "personalEmail"; "userId"; "password";
    "district"; "state"; "pincode" ].

(** The document written for the employee of a registration. *)
Definition employeeRecord (registration : object) : object :=
  [ ("name", get "fullName" registration);
    ("userId", get "userId" registration);
    ("mobile", get "mobile" registration);
    ("personalEmail", get "personalEmail" registration);
    ("district", get "district" registration);
    ("state", get "state" registration);
    ("pincode", get "pincode" registration);
    ("createdAt", JServerTimestamp);
    ("status", JStr "active") ].

(** A world where the identity service already knows one employee. *)
Definition staffWorld : World :=
  withAccounts
    (fun _ => [ {| uid := "uid-7"; accountEmail := "bob@zensolve.in";
                   accountPassword := "welcome1" |} ])
    emptyWorld.

(** The same application when no file was chosen: the browser sends an
    empty file. *)
Definition applicationWithoutFile : FormData :=
  [ ("jobId", JStr "job-42");
    ("fullName", JStr "Meera Nair");
    ("mobile", JStr "9876543210");
    ("email", JStr "meera@example.org");
    ("hasExperience", JStr "yes");
    ("yearsOfExperience", JStr "3");
    ("languages", JStr "English");
    ("languages", JStr "Hindi");
    ("readyToRelocate", JStr "yes");
    ("confirmInfo", JStr "on");
    ("agreeTerms", JStr "on");
    ("resume", JFile "" 0) ].

(** A form with one box left unticked, and a resume attached. *)
Definition applicationUnconfirmed : FormData :=
  [ ("jobId", JStr "job-42");
    ("fullName", JStr "Meera Nair");
    ("mobile", JStr "9876543210");
    ("email", JStr "meera@example.org");
    ("hasExperience", JStr "no");
    ("readyToRelocate", JStr "yes");
    ("confirmInfo", JStr "on");
    ("resume", JFile "cv.pdf" 48213) ].

(** How many of the [n] coming service calls go through. *)
Definition goingThrough (n : nat) (w : World) : nat :=
  List.length (filter (fun i => negb (failsAt i w)) (seq 0 n)).

(** A name of the signed-in user, as the identity service gives it: a
    string, or nothing. *)
Definition nameGiven (v : jsval) : bool :=
  match v with
  | JNull | JUndefined | JStr _ => true
  | _ => false
  end.

(** The amount of an Earning document is a number. *)
Definition amountIsNumber (d : Document) : bool :=
  match get "amount" (docData d) with
  | JNum n => negb (isNaN n)
  | _ => false
  end.

(** An Earning document has no amount. *)
Definition amountIsMissing (d : Document) : bool :=
  strictEq (get "amount" (docData d)) JUndefined.

(** Whether every property of a document is defined.  The document store
    refuses a document with an [undefined] property (unless it was set up
    to ignore such properties; the set-up is not part of these sources),
    so the statements that a write goes through are made for documents
    without one. *)
Definition definedFields (data : object) : bool :=
  forallb (fun kv => negb (strictEq (snd kv) JUndefined)) data.

(** A string of white space only. *)
Definition blank (s : string) : bool :=
  forallb StringToNumber.isWhiteSpace (StringToNumber.chars s).


(** [tag] is [piece] without the white space at its two ends. *)
Definition trimmedOf (piece tag : string) : Prop :=
  edgeSpace tag = false
  /\ exists before after : string,
      piece = (before ++ tag ++ after)%string
      /\ blank before = true /\ blank after = true.

(** A job application without a file, the years of experience as typed. *)
Definition applicationWithYears (years : string) : FormData :=
  [ ("jobId", JStr "job-42");
    ("fullName", JStr "Meera Nair");
    ("mobile", JStr "9876543210");
    ("email", JStr "meera@example.org");
    ("hasExperience", JStr "yes");
    ("yearsOfExperience", JStr years);
    ("readyToRelocate", JStr "yes");
    ("confirmInfo", JStr "on");
    ("agreeTerms", JStr "on") ].

(** An employee of the list. *)
Definition sampleEmployee : EmployeesPage.Employee :=
  {| EmployeesPage.id := "uid0"; EmployeesPage.name := "Bob Builder" |}.

(* ================================================================== *)
(** ** Facts about numbers *)
(* ================================================================== *)

Unset Implicit Arguments.

Example number_examples :
  Number (JStr "15000") = ofN 15000 /\
  Number (JStr " 42.50 ") = Fin (85 # 2) /\
  Number (JStr "-1e3") = Fin (-1000 # 1) /\
  Number (JStr "") = ofN 0 /\
  Number (JStr "abc") = NaN /\
  Number (JStr "0x1F") = ofN 31 /\
  Number (JStr "1,5") = NaN /\
  Number (JStr "12px") = NaN.
Proof. repeat split; vm_compute; reflexivity. Qed.

Example number_more_examples :
  Number (JStr "0x") = NaN /\
  Number (JStr ".5") = Fin (1 # 2) /\
  Number (JStr "5.") = ofN 5 /\
  Number (JStr ".") = NaN /\
  Number (JStr "1e") = NaN /\
  Number (JStr "2.5e-1") = Fin (1 # 4) /\
  Number (JStr "+Infinity") = PInf /\
  Number (JStr "-Infinity") = NInf /\
  Number (JStr "--1") = NaN /\
  Number (JStr "-0x10") = NaN /\
  Number (JStr "0b101") = ofN 5 /\
  Number (JArr [JStr "7"]) = ofN 7 /\
  Number (JArr [JNum (ofN 1); JNum (ofN 2)]) = NaN /\
  decimal 1700000000000 = "1700000000000" /\
  decimal 0 = "0".
Proof. repeat split; vm_compute; reflexivity. Qed.

Lemma ltb_irrefl (a : number) : ltb a a = false.
Proof.
  destruct a; simpl; try reflexivity.
  apply negb_false_iff, Qle_bool_iff, Qle_refl.
Qed.

Lemma ltb_Fin (x y : Q) : ltb (Fin x) (Fin y) = true <-> (x < y)%Q.
Proof.
  simpl. rewrite negb_true_iff. split.
  - intros Hle. apply Qnot_le_lt. intros Hc.
    apply Qle_bool_iff in Hc. congruence.
  - intros Hlt. destruct (Qle_bool y x) eqn:E; [|reflexivity].
    apply Qle_bool_iff in E. exfalso. exact (Qlt_not_le _ _ Hlt E).
Qed.

(* ================================================================== *)
(** ** Facts about objects *)
(* ================================================================== *)

Lemma get_set_same (k : string) (v : jsval) (o : object) :
  get k (set k v o) = v.
Proof.
  induction o as [|[k' v'] o IH]; simpl.
  - now rewrite String.eqb_refl.
  - destruct (String.eqb k k') eqn:E; simpl.
    + now rewrite String.eqb_refl.
    + now rewrite E.
Qed.

Lemma get_set_other (k k' : string) (v : jsval) (o : object) :
  String.eqb k k' = false -> get k (set k' v o) = get k o.
Proof.
  intros Hk. induction o as [|[k2 v2] o IH]; simpl.
  - now rewrite Hk.
  - destruct (String.eqb k' k2) eqn:E; simpl.
    + apply String.eqb_eq in E. subst k2. now rewrite Hk.
    + destruct (String.eqb k k2); [reflexivity | exact IH].
Qed.

Lemma spread_cons (a : object) (k : string) (v : jsval) (b : object) :
  spread a ((k, v) :: b) = spread (set k v a) b.
Proof. reflexivity. Qed.

Lemma spread_nil (a : object) : spread a [] = a.
Proof. reflexivity. Qed.

(* ================================================================== *)
(** ** Facts about the validation combinators *)
(* ================================================================== *)

Module ZodFacts.
Import Zod.


Lemma merge_valid (a b : ParseStatus) :
  merge a b = Valid <-> a = Valid /\ b = Valid.
Proof. destruct a, b; simpl; split; intros; intuition congruence. Qed.

Lemma properties_cons (k : string) (t : ZodType)
      (shape : list (string * ZodType)) (o : object) :
  properties ((k, t) :: shape) o =
  (merge (status (t (get k o))) (statusOf (properties shape o)),
   match value (t (get k o)) with
   | JUndefined =>
       if has k o then (k, JUndefined) :: outputOf (properties shape o)
       else outputOf (properties shape o)
   | x => (k, x) :: outputOf (properties shape o)
   end,
   map (under (Key k)) (issues (t (get k o)))
     ++ issuesOf (properties shape o)).
Proof.
  unfold statusOf, outputOf, issuesOf. simpl.
  destruct (properties shape o) as [[st out] iss]. reflexivity.
Qed.

(** An object is valid only if each of its properties is. *)
Lemma properties_valid (shape : list (string * ZodType)) (o : object) :
  statusOf (properties shape o) = Valid ->
  forall k t, In (k, t) shape -> status (t (get k o)) = Valid.
Proof.
  induction shape as [|[k' t'] shape IH]; intros Hv k t Hin.
  - destruct Hin.
  - rewrite properties_cons in Hv. unfold statusOf in Hv. simpl in Hv.
    apply merge_valid in Hv. destruct Hv as [H1 H2].
    destruct Hin as [Heq | Hin].
    + inversion Heq; subst. exact H1.
    + apply IH; assumption.
Qed.

(** Every issue of a property is an issue of the object, under its key. *)
Lemma properties_issue (shape : list (string * ZodType)) (o : object)
      (k : string) (t : ZodType) (i : ZodIssue) :
  In (k, t) shape -> In i (issues (t (get k o))) ->
  In (under (Key k) i) (issuesOf (properties shape o)).
Proof.
  induction shape as [|[k' t'] shape IH]; intros Hin Hi.
  - destruct Hin.
  - rewrite properties_cons. unfold issuesOf at 1. simpl.
    apply in_or_app. destruct Hin as [Heq | Hin].
    + inversion Heq; subst. left. now apply in_map.
    + right. apply IH; assumption.
Qed.

Lemma object_status (shape : list (string * ZodType)) (o : object) :
  status (object_ shape (JObj o)) = statusOf (properties shape o).
Proof.
  unfold object_, statusOf.
  destruct (properties shape o) as [[st out] iss]. reflexivity.
Qed.

Lemma object_issues (shape : list (string * ZodType)) (o : object) :
  issues (object_ shape (JObj o)) = issuesOf (properties shape o).
Proof.
  unfold object_, issuesOf.
  destruct (properties shape o) as [[st out] iss]. reflexivity.
Qed.

Lemma object_value (shape : list (string * ZodType)) (o : object) :
  value (object_ shape (JObj o)) = JObj (outputOf (properties shape o)).
Proof.
  unfold object_, outputOf.
  destruct (properties shape o) as [[st out] iss]. reflexivity.
Qed.

Lemma properties_all_valid (shape : list (string * ZodType)) (o : object) :
  Forall (fun kt => status (snd kt (get (fst kt) o)) = Valid) shape ->
  statusOf (properties shape o) = Valid.
Proof.
  induction 1 as [|[k t] shape Hk _ IH].
  - reflexivity.
  - rewrite properties_cons. unfold statusOf at 1. simpl in *.
    now rewrite Hk, IH.
Qed.

(** An object whose properties are all valid is accepted. *)
Lemma safeParse_object_valid (shape : list (string * ZodType)) (o : object) :
  Forall (fun kt => status (snd kt (get (fst kt) o)) = Valid) shape ->
  safeParse (object_ shape) (JObj o)
  = Success (JObj (outputOf (properties shape o))).
Proof.
  intros Hall. unfold safeParse.
  rewrite object_status, object_value.
  now rewrite (properties_all_valid shape o Hall).
Qed.

(** A property that is not valid makes [safeParse] fail, and its issues
    are reported. *)
Lemma safeParse_property_invalid (shape : list (string * ZodType))
      (o : object) (k : string) (t : ZodType) :
  In (k, t) shape -> status (t (get k o)) <> Valid ->
  safeParse (object_ shape) (JObj o)
  = Failure (issuesOf (properties shape o)).
Proof.
  intros Hin Hbad. unfold safeParse.
  rewrite object_status, object_issues.
  destruct (statusOf (properties shape o)) eqn:E; try reflexivity.
  exfalso. apply Hbad. eapply properties_valid; eassumption.
Qed.

Lemma elements_cons (t : ZodType) (i : nat) (x : jsval) (l : list jsval) :
  elements t i (x :: l) =
  (merge (status (t x)) (fst (fst (elements t (S i) l))),
   value (t x) :: snd (fst (elements t (S i) l)),
   map (under (Index i)) (issues (t x)) ++ snd (elements t (S i) l)).
Proof.
  simpl. destruct (elements t (S i) l) as [[st vs] iss]. reflexivity.
Qed.

(** An array is valid only if each of its elements is. *)
Lemma elements_valid (t : ZodType) (l : list jsval) :
  forall i, fst (fst (elements t i l)) = Valid ->
            Forall (fun x => status (t x) = Valid) l.
Proof.
  induction l as [|x l IH]; intros i Hv.
  - constructor.
  - rewrite elements_cons in Hv. simpl in Hv.
    apply merge_valid in Hv. destruct Hv as [H1 H2].
    constructor; [exact H1 | eapply IH; exact H2].
Qed.

(** Valid elements give a valid array of their values, without issues. *)
Lemma elements_all_valid (t : ZodType) (l : list jsval) :
  Forall (fun x => status (t x) = Valid /\ issues (t x) = []) l ->
  forall i, elements t i l = (Valid, map (fun x => value (t x)) l, []).
Proof.
  induction 1 as [|x l [Hs Hi] _ IH]; intros i.
  - reflexivity.
  - rewrite elements_cons, IH, Hs, Hi. reflexivity.
Qed.

Lemma messagesOf_addFieldError_same (k m : string) (fe : FieldErrors) :
  messagesOf k (addFieldError k m fe) = messagesOf k fe ++ [m].
Proof.
  induction fe as [|[k' ms] fe IH]; simpl.
  - now rewrite String.eqb_refl.
  - destruct (String.eqb k k') eqn:E; simpl; rewrite E; auto.
Qed.

Lemma messagesOf_addFieldError_other (k k' m : string) (fe : FieldErrors) :
  String.eqb k k' = false ->
  messagesOf k (addFieldError k' m fe) = messagesOf k fe.
Proof.
  intros Hk. induction fe as [|[k2 ms] fe IH]; simpl.
  - now rewrite Hk.
  - destruct (String.eqb k' k2) eqn:E; simpl.
    + apply String.eqb_eq in E. subst k2. now rewrite Hk.
    + destruct (String.eqb k k2); auto.
Qed.


Lemma step_keeps (k m : string) (fe : FieldErrors) (i : ZodIssue) :
  In m (messagesOf k fe) -> In m (messagesOf k (step fe i)).
Proof.
  intros Hin. unfold step. destruct (path i) as [|seg p]; [exact Hin|].
  destruct (String.eqb k (segName seg)) eqn:E.
  - apply String.eqb_eq in E. rewrite <- E.
    rewrite messagesOf_addFieldError_same. apply in_or_app. now left.
  - rewrite messagesOf_addFieldError_other by exact E. exact Hin.
Qed.

Lemma fold_step_keeps (k m : string) (iss : list ZodIssue) :
  forall fe, In m (messagesOf k fe) ->
             In m (messagesOf k (fold_left step iss fe)).
Proof.
  induction iss as [|i iss IH]; intros fe Hin; simpl.
  - exact Hin.
  - apply IH. now apply step_keeps.
Qed.

(** The message of an issue whose path starts at key [k] is among the
    messages reported for [k]. *)
Lemma fieldErrors_reports (k m : string) (p : list PathSeg)
      (iss : list ZodIssue) :
  In {| path := Key k :: p; message := m |} iss ->
  In m (messagesOf k (fieldErrors iss)).
Proof.
  unfold fieldErrors.
  generalize (@nil (string * list string)).
  induction iss as [|i iss IH]; intros fe Hin; [destruct Hin|].
  simpl. destruct Hin as [Heq | Hin].
  - subst i. apply fold_step_keeps. unfold step. simpl.
    rewrite messagesOf_addFieldError_same. apply in_or_app. right. now left.
  - apply IH. exact Hin.
Qed.

End ZodFacts.

Module ZodObjects.
Import Zod ZodFacts.

Lemma output_get_absent (shape : list (string * ZodType)) (o : object)
      (k : string) :
  ~ In k (map fst shape) -> get k (outputOf (properties shape o)) = JUndefined.
Proof.
  induction shape as [|[k' t'] shape IH]; intros Hk.
  - reflexivity.
  - rewrite properties_cons. unfold outputOf at 1. simpl.
    assert (Hne : String.eqb k k' = false).
    { apply String.eqb_neq. intros ->. apply Hk. now left. }
    assert (Hrest : get k (outputOf (properties shape o)) = JUndefined).
    { apply IH. intros Hin. apply Hk. now right. }
    destruct (value (t' (get k' o))); try destruct (has k' o);
      simpl; rewrite ?Hne; exact Hrest.
Qed.

(** The output of an object schema holds, under each key of the shape,
    the value its parser produced. *)
Lemma output_get (shape : list (string * ZodType)) (o : object)
      (k : string) (t : ZodType) :
  NoDup (map fst shape) -> In (k, t) shape ->
  get k (outputOf (properties shape o)) = value (t (get k o)).
Proof.
  induction shape as [|[k' t'] shape IH]; intros Hnd Hin.
  - destruct Hin.
  - simpl in Hnd. inversion Hnd as [|? ? Hnotin Hnd']; subst.
    rewrite properties_cons. unfold outputOf at 1. simpl.
    destruct Hin as [Heq | Hin].
    + inversion Heq; subst k' t'.
      pose proof (output_get_absent shape o k Hnotin) as Habs.
      destruct (value (t (get k o))); try destruct (has k o);
        simpl; rewrite ?String.eqb_refl; auto.
    + assert (Hne : String.eqb k k' = false).
      { apply String.eqb_neq. intros ->. apply Hnotin.
        change k' with (fst (k', t)). now apply in_map. }
      specialize (IH Hnd' Hin).
      destruct (value (t' (get k' o))); try destruct (has k' o);
        simpl; rewrite ?Hne; exact IH.
Qed.

(** What a successful [safeParse] of an object schema tells. *)
Lemma safeParse_object_success (shape : list (string * ZodType))
      (o : object) (v : jsval) :
  safeParse (object_ shape) (JObj o) = Success v ->
  v = JObj (outputOf (properties shape o))
  /\ forall k t, In (k, t) shape -> status (t (get k o)) = Valid.
Proof.
  unfold safeParse. rewrite object_status, object_value.
  destruct (statusOf (properties shape o)) eqn:E; intros Hs;
    inversion Hs; subst.
  split; [reflexivity|]. now apply properties_valid.
Qed.

Lemma string_valid (checks : list (Check string)) (v : jsval) :
  status (string_ checks v) = Valid ->
  exists s, v = JStr s /\ value (string_ checks v) = JStr s
            /\ forall c, In c checks -> test c s = true.
Proof.
  destruct v; simpl; try discriminate.
  intros Hv. exists s. repeat split.
  unfold checked, failing in Hv. simpl in Hv.
  intros c Hc. destruct (test c s) eqn:E; [reflexivity|].
  assert (Hin : In c (filter (fun c => negb (test c s)) checks)).
  { apply filter_In. split; [exact Hc | now rewrite E]. }
  destruct (filter (fun c => negb (test c s)) checks); [destruct Hin|].
  discriminate.
Qed.

Lemma string_accepts (checks : list (Check string)) (s : string) :
  forallb (fun c => test c s) checks = true ->
  string_ checks (JStr s) = OK (JStr s).
Proof.
  intros Hall. simpl. unfold checked, failing.
  assert (Hf : filter (fun c => negb (test c s)) checks = []).
  { induction checks as [|c cs IH]; [reflexivity|].
    simpl in *. apply andb_true_iff in Hall. destruct Hall as [H1 H2].
    rewrite H1. simpl. now apply IH. }
  now rewrite Hf.
Qed.

(** What [z.coerce.number()] with its checks accepts. *)
Lemma coerce_number_valid (checks : list (Check number)) (v : jsval) :
  status (coerce_number checks v) = Valid ->
  isNaN (Number v) = false
  /\ value (coerce_number checks v) = JNum (Number v)
  /\ forall c, In c checks -> test c (Number v) = true.
Proof.
  unfold coerce_number. destruct (isNaN (Number v)) eqn:En.
  - discriminate.
  - intros Hv. repeat split.
    unfold checked, failing in Hv. simpl in Hv.
    intros c Hc. destruct (test c (Number v)) eqn:E; [reflexivity|].
    assert (Hin : In c (filter (fun c => negb (test c (Number v))) checks)).
    { apply filter_In. split; [exact Hc | now rewrite E]. }
    destruct (filter (fun c => negb (test c (Number v))) checks);
      [destruct Hin|].
    discriminate.
Qed.

Lemma coerce_number_accepts (checks : list (Check number)) (v : jsval) :
  isNaN (Number v) = false ->
  forallb (fun c => test c (Number v)) checks = true ->
  coerce_number checks v = OK (JNum (Number v)).
Proof.
  intros Hn Hall. unfold coerce_number. rewrite Hn.
  unfold checked, failing.
  assert (Hf : filter (fun c => negb (test c (Number v))) checks = []).
  { induction checks as [|c cs IH]; [reflexivity|].
    simpl in *. apply andb_true_iff in Hall. destruct Hall as [H1 H2].
    rewrite H1. simpl. now apply IH. }
  now rewrite Hf.
Qed.


(** What a successful [safeParse] of a refined schema tells. *)
Lemma safeParse_refine_success (t : ZodType) (check : jsval -> bool)
      (m : string) (p : list PathSeg) (v x : jsval) :
  safeParse (refine t check m p) v = Success x ->
  status (t v) = Valid /\ x = value (t v) /\ check (value (t v)) = true.
Proof.
  unfold safeParse, refine.
  destruct (status (t v)) eqn:Est; destruct (check (value (t v))) eqn:Ec;
    simpl; rewrite ?Est; try discriminate.
  intros Hs. inversion Hs. auto.
Qed.

End ZodObjects.

(* ================================================================== *)
(** ** Facts about the services *)
(* ================================================================== *)

Lemma failsAt_afterCall (i : nat) (c : Call) (w : World) :
  failsAt i (afterCall c w) = failsAt (S i) w.
Proof.
  unfold failsAt, afterCall. simpl.
  destruct (faults w) as [|b l]; simpl; [now destruct i | reflexivity].
Qed.


Lemma addDoc_ok (c : string) (data : object) (w : World) :
  failsAt 0 w = false ->
  addDoc c data w
  = (Return ("doc" ++ decimal (nextId w))%string, added c data w).
Proof.
  intros Hf. unfold addDoc, bind, service. rewrite Hf. reflexivity.
Qed.

Lemma addDoc_fails (c : string) (data : object) (w : World) :
  failsAt 0 w = true ->
  addDoc c data w = (Throw unavailable, afterCall (AddDoc c data) w).
Proof.
  intros Hf. unfold addDoc, bind, service. rewrite Hf. reflexivity.
Qed.

Lemma store_added_same (c : string) (data : object) (w : World) :
  store (added c data w) c
  = store w c ++ [ {| docId := ("doc" ++ decimal (nextId w))%string;
                      docData := resolved (serverTime w) data |} ].
Proof.
  unfold added, inCollection. simpl. now rewrite String.eqb_refl.
Qed.

Lemma store_added_other (c c' : string) (data : object) (w : World) :
  String.eqb c' c = false -> store (added c data w) c' = store w c'.
Proof.
  intros Hc. unfold added, inCollection. simpl. now rewrite Hc.
Qed.

Lemma failsAt_added (i : nat) (c : string) (data : object) (w : World) :
  failsAt i (added c data w) = failsAt (S i) w.
Proof. exact (failsAt_afterCall i (AddDoc c data) w). Qed.

(* ================================================================== *)
(** ** Daily status reports: the readings of a travelled day *)
(* ================================================================== *)

Section DsrSubmission.

Context `{Platform}.

(** The form's schema holds the rule: a travelled day passes only with both
    readings given and the closing one above the opening one. *)
Lemma form_schema_requires_forward_readings (o : object) (v : jsval) :
  get "hasTravelled" o = JBool true ->
  Zod.safeParse DsrPage.dsrSchema (JObj o) = Zod.Success v ->
  exists a b,
    get "openingKm" (dataOf v) = JNum a /\ get "closingKm" (dataOf v) = JNum b
    /\ gtb b a = true.
Proof.
  intros Hht Hs. unfold DsrPage.dsrSchema in Hs.
  remember [("description", _); ("hasTravelled", _); ("openingKm", _);
            ("closingKm", _)] as shape eqn:Eshape in Hs.
  assert (Hnd : NoDup (map fst shape)).
  { subst shape. simpl. repeat constructor; simpl; intuition discriminate. }
  assert (Hio : In ("openingKm", Zod.optional (Zod.coerce_number [])) shape)
    by (subst shape; simpl; tauto).
  assert (Hic : In ("closingKm", Zod.optional (Zod.coerce_number [])) shape)
    by (subst shape; simpl; tauto).
  assert (Hih : In ("hasTravelled", Zod.default Zod.boolean (JBool false))
                   shape)
    by (subst shape; simpl; tauto).
  clear Eshape.
  apply ZodObjects.safeParse_refine_success in Hs.
  destruct Hs as (Hst & -> & Hcheck).
  rewrite ZodFacts.object_status in Hst.
  rewrite ZodFacts.object_value in *. cbn [dataOf] in *.
  pose proof (ZodFacts.properties_valid shape o Hst) as Hall.
  rewrite (ZodObjects.output_get shape o _ _ Hnd Hih) in Hcheck.
  rewrite (ZodObjects.output_get shape o _ _ Hnd Hio) in *.
  rewrite (ZodObjects.output_get shape o _ _ Hnd Hic) in *.
  rewrite Hht in Hcheck. cbn [Zod.default Zod.boolean Zod.OK Zod.value truthy]
    in Hcheck.
  apply andb_true_iff in Hcheck. destruct Hcheck as [Edef Egt].
  apply andb_true_iff in Edef. destruct Edef as [Eo Ec].
  pose proof (Hall _ _ Hio) as Hvo. pose proof (Hall _ _ Hic) as Hvc.
  destruct (get "openingKm" o) eqn:Eov;
    try (simpl in Eo; discriminate);
    destruct (get "closingKm" o) eqn:Ecv;
    try (simpl in Ec; discriminate);
    unfold Zod.optional in *;
    apply ZodObjects.coerce_number_valid in Hvo;
    apply ZodObjects.coerce_number_valid in Hvc;
    destruct Hvo as (_ & Hvo & _); destruct Hvc as (_ & Hvc & _);
    rewrite Hvo, Hvc in *;
    eexists; eexists; (split; [reflexivity | split; [reflexivity|] ]);
    exact Egt.
Qed.

(** The server action does not hold that rule: whatever the two readings,
    a well-formed submission is written. *)
Lemma submitDsr_ignores_reading_order (d : string) (a b : number) (w : World) :
  (10 <= String.length d)%nat -> isNaN a = false -> isNaN b = false ->
  failsAt 0 w = false ->
  fst (Actions.submitDsr (travelledDsr d (JNum a) (JNum b)) w)
  = Return (result true "DSR submitted successfully.").
Proof.
  intros Hd Ha Hb Hf. unfold Actions.submitDsr, travelledDsr, Actions.dsrSchema.
  rewrite ZodFacts.safeParse_object_valid.
  - unfold tryCatch, bind. rewrite addDoc_ok by exact Hf. reflexivity.
  - repeat constructor;
      cbn [fst snd get String.eqb Ascii.eqb Bool.eqb Zod.default Zod.optional];
      try reflexivity.
    + rewrite ZodObjects.string_accepts; [reflexivity|].
      cbn [forallb Zod.test Zod.min]. rewrite andb_true_r.
      now apply Nat.leb_le.
    + now rewrite ZodObjects.coerce_number_accepts.
    + now rewrite ZodObjects.coerce_number_accepts.
Qed.

End DsrSubmission.

(** C1 -- [submitDsr] evaluated on a travelled day whose closing reading
    (14900) is below the opening one (15000): the form's schema refuses
    these values, but the server action validates them, reports success and
    stores the report, where a validation failure is specified.  With the
    readings in order (15000, 15100) the action succeeds as well. *)
Theorem submitDsr_accepts_closing_below_opening :
  Zod.safeParse DsrPage.dsrSchema
    (travelledForm "Visited two client sites" (num 15000) (num 14900))
  = Zod.Failure
      [ {| Zod.path := [Zod.Key "closingKm"];
           Zod.message := "Closing KM must be greater than Opening KM." |} ]
  /\ fst (Actions.submitDsr
            (travelledDsr "Visited two client sites" (num 15000) (num 14900))
            emptyWorld)
     = Return (result true "DSR submitted successfully.")
  /\ store (snd (Actions.submitDsr
                   (travelledDsr "Visited two client sites" (num 15000)
                      (num 14900))
                   emptyWorld)) "dsr"
     = [ travelledDocument "Visited two client sites" (num 15000) (num 14900) ]
  /\ fst (Actions.submitDsr
            (travelledDsr "Visited two client sites" (num 15000) (num 15100))
            emptyWorld)
     = Return (result true "DSR submitted successfully.").
Proof. repeat split; vm_compute; reflexivity. Qed.

(* ================================================================== *)
(** ** The travel column of the DSR table *)
(* ================================================================== *)

(** With both readings given and different from zero, the cell shows their
    difference. *)
Lemma travelCell_distance (a b : number) :
  truthy (JNum a) = true -> truthy (JNum b) = true ->
  DsrPage.travelCell (dsrLog (JBool true) (JNum a) (JNum b)) = JNum (sub b a).
Proof.
  intros Ha Hb. unfold DsrPage.travelCell, dsrLog, js_and.
  cbn [get String.eqb Ascii.eqb Bool.eqb]. cbn [truthy] in *.
  rewrite Hb. cbn [truthy]. rewrite Ha. reflexivity.
Qed.

(** Without travel, or without one of the readings, the cell is N/A. *)
Lemma travelCell_not_applicable (t a b : jsval) :
  t = JBool false \/ t = JUndefined \/ a = JUndefined \/ b = JUndefined ->
  DsrPage.travelCell (dsrLog t a b) = JStr "N/A".
Proof.
  intros Hc. unfold DsrPage.travelCell, dsrLog, js_and.
  cbn [get String.eqb Ascii.eqb Bool.eqb].
  destruct Hc as [-> | [-> | [-> | ->]]]; try reflexivity.
  - destruct (truthy t) eqn:Et; rewrite ?Et;
      destruct (truthy b) eqn:Eb; rewrite ?Eb, ?Et; reflexivity.
  - destruct (truthy t) eqn:Et; rewrite ?Et; cbn [truthy]; rewrite ?Et;
      reflexivity.
Qed.

(** C9 -- the travel cell evaluated on a stored report of a travelled day
    with both readings present, opening reading 0 and closing reading 120:
    the form's schema accepts these values, yet the cell shows "N/A" where
    the distance 120 is specified, because a reading of 0 counts as
    absent in the cell's condition. *)
Theorem travelCell_opening_reading_zero :
  accepted DsrPage.dsrSchema
    (travelledForm "Visited two client sites" (num 0) (num 120)) = true
  /\ DsrPage.travelCell (dsrLog (JBool true) (num 0) (num 120)) = JStr "N/A"
  /\ js_sub (num 120) (num 0) = num 120.
Proof. repeat split; vm_compute; reflexivity. Qed.

(* ================================================================== *)
(** ** Earnings: the amount of a line item *)
(* ================================================================== *)

Lemma not_positive_below_one (a : number) :
  gtb a (ofN 0) = false -> isNaN a = false -> ltb a (ofN 1) = true.
Proof.
  destruct a; simpl; try discriminate; try reflexivity.
  intros Hle _. apply negb_false_iff, Qle_bool_iff in Hle.
  apply negb_true_iff. destruct (Qle_bool _ q) eqn:E; [|reflexivity].
  apply Qle_bool_iff in E. exfalso.
  assert (Hc : (inject_Z (Z.of_N 1) <= inject_Z (Z.of_N 0))%Q)
    by (eapply Qle_trans; eassumption).
  revert Hc. unfold Qle. simpl. lia.
Qed.

Lemma array_status (t : Zod.ZodType) (n : nat) (m : string) (l : list jsval) :
  Zod.status (Zod.array t n m (JArr l))
  = Zod.merge (if (List.length l <? n)%nat then Zod.Dirty else Zod.Valid)
              (fst (fst (Zod.elements t 0 l))).
Proof.
  unfold Zod.array. destruct (Zod.elements t 0 l) as [[st vs] iss].
  reflexivity.
Qed.

(** An earnings line item is accepted exactly when its description has
    three characters and its amount is a number not below 1. *)
Lemma lineItem_accepted (d : string) (v : jsval) :
  accepted Actions.earningSchema (lineItem d v)
  = (3 <=? String.length d)%nat
    && negb (isNaN (Number v)) && negb (ltb (Number v) (ofN 1)).
Proof.
  unfold accepted, Zod.safeParse, Actions.earningSchema, lineItem.
  rewrite ZodFacts.object_status, !ZodFacts.properties_cons.
  cbn [get String.eqb Ascii.eqb Bool.eqb Zod.statusOf fst snd Zod.properties].
  unfold Zod.string_, Zod.coerce_number, Zod.checked, Zod.failing.
  cbn [filter Zod.test Zod.min Zod.nmin map].
  destruct (3 <=? String.length d)%nat; destruct (isNaN (Number v));
    destruct (ltb (Number v) (ofN 1)); reflexivity.
Qed.

(** A submission with a line item whose amount is not above 0 is rejected
    and nothing is written. *)
Lemma submitEarnings_rejects_amount (o : object) (items : list jsval)
      (fields : object) (w : World) :
  get "earnings" o = JArr items -> In (JObj fields) items ->
  gtb (Number (get "amount" fields)) (ofN 0) = false ->
  exists error,
    Actions.submitEarnings (JObj o) w
    = (Return (invalid "Invalid data." error), w).
Proof.
  intros He Hin Hamt. unfold Actions.submitEarnings, Actions.earningsSchema.
  erewrite ZodFacts.safeParse_property_invalid.
  - eexists. reflexivity.
  - left. reflexivity.
  - rewrite He, array_status. intros Hv.
    apply ZodFacts.merge_valid in Hv. destruct Hv as [_ Hv].
    apply ZodFacts.elements_valid in Hv.
    rewrite Forall_forall in Hv. specialize (Hv _ Hin).
    unfold Actions.earningSchema in Hv.
    rewrite ZodFacts.object_status in Hv.
    pose proof (ZodFacts.properties_valid _ _ Hv "amount"
                  (Zod.coerce_number
                     [Zod.nmin (ofN 1) "Amount must be greater than 0."]))
    as Ha.
    apply ZodObjects.coerce_number_valid in Ha; [| simpl; tauto ].
    destruct Ha as (Hn & _ & Hc).
    specialize (Hc _ (or_introl eq_refl)). simpl in Hc.
    apply negb_true_iff in Hc.
    rewrite (not_positive_below_one _ Hamt Hn) in Hc. discriminate.
Qed.

(** Validation of the amount of a line item: an item with a well-formed
    description is accepted if and only if its amount is a number not
    below 1, and every submission containing a line item whose amount is
    not above 0 is rejected without any write. *)
Lemma amount_accepted_from_one :
  (forall (d : string) (v : jsval),
      accepted Actions.earningSchema (lineItem d v)
      = (3 <=? String.length d)%nat
        && negb (isNaN (Number v)) && negb (ltb (Number v) (ofN 1)))
  /\ (forall (o : object) (items : list jsval) (fields : object) (w : World),
         get "earnings" o = JArr items -> In (JObj fields) items ->
         gtb (Number (get "amount" fields)) (ofN 0) = false ->
         exists error,
           Actions.submitEarnings (JObj o) w
           = (Return (invalid "Invalid data." error), w)).
Proof.
  split.
  - exact lineItem_accepted.
  - exact submitEarnings_rejects_amount.
Qed.

(** C8 -- [submitEarnings] evaluated on a line item whose amount is 1/2: the
    amount is greater than 0, and the submission is refused, nothing being
    written, with the message "Amount must be greater than 0." under the
    amount of the item.  The schema of the earnings form refuses the same
    item with "Amount must be a positive number.". *)
Theorem positive_amount_below_one_is_rejected :
  let half := JNum (Fin (1 # 2)) in
  let item := lineItem "Consulting fee" half in
  js_gt half (num 0) = true
  /\ Zod.safeParse Actions.earningSchema item
     = Zod.Failure
         [ {| Zod.path := [Zod.Key "amount"];
              Zod.message := "Amount must be greater than 0." |} ]
  /\ Actions.submitEarnings (JObj (earningsSubmission [item])) emptyWorld
     = (Return
          (invalid "Invalid data."
             [ {| Zod.path := [Zod.Key "earnings"; Zod.Index 0;
                               Zod.Key "amount"];
                  Zod.message := "Amount must be greater than 0." |} ]),
        emptyWorld)
  /\ Zod.safeParse EarningsPage.earningsSchema
       (JObj [("earnings", JArr [item])])
     = Zod.Failure
         [ {| Zod.path := [Zod.Key "earnings"; Zod.Index 0; Zod.Key "amount"];
              Zod.message := "Amount must be a positive number." |} ].
Proof. repeat split; vm_compute; reflexivity. Qed.

(* ================================================================== *)
(** ** The total of the earnings on the dashboard *)
(* ================================================================== *)

(** One round of the loop adds what the document contributes. *)
Lemma total_step (acc : number) (d : Document) :
  amountIsNumberOrMissing d = true ->
  js_add (JNum acc) (js_or (get "amount" (docData d)) (JNum (ofN 0)))
  = Some (JNum (add acc (amountOf d))).
Proof.
  unfold amountIsNumberOrMissing, amountOf, js_or.
  destruct (get "amount" (docData d)) as [ | | | n | | | | | | ];
    try discriminate; intros _.
  - reflexivity.
  - cbn [truthy]. destruct (isNaN n || isZero n); reflexivity.
Qed.

Lemma total_from (ds : list Document) :
  forallb amountIsNumberOrMissing ds = true ->
  forall acc,
    fold_left
      (fun total doc =>
         match total with
         | Some t =>
             js_add t (js_or (get "amount" (docData doc)) (JNum (ofN 0)))
         | None => None
         end)
      ds (Some (JNum acc))
    = Some (JNum (fold_left (fun total d => add total (amountOf d)) ds acc)).
Proof.
  induction ds as [|d ds IH]; intros Hok acc; [reflexivity|].
  cbn [forallb] in Hok. apply andb_true_iff in Hok. destruct Hok as [Hd Hds].
  cbn [fold_left]. rewrite (total_step acc d Hd). exact (IH Hds _).
Qed.

(** The loop of the dashboard adds the amounts up in the order of the
    snapshot. *)
Lemma earningsTotal_is_sum (ds : list Document) :
  forallb amountIsNumberOrMissing ds = true ->
  Dashboard.earningsTotal ds = Some (JNum (sumOfAmounts ds)).
Proof.
  intros Hok. exact (total_from ds Hok (ofN 0)).
Qed.

Lemma getDocs_ok (c field : string) (v : jsval) (w : World) :
  failsAt 0 w = false ->
  getDocs c field v w
  = (Return (filter (fun d => strictEq (get field (docData d)) v) (store w c)),
     afterCall (GetDocs c field v) w).
Proof.
  intros Hf. unfold getDocs, bind, service. rewrite Hf. reflexivity.
Qed.

Lemma getDocs_throws (c field : string) (v : jsval) (w : World) :
  failsAt 0 w = true ->
  getDocs c field v w = (Throw unavailable, afterCall (GetDocs c field v) w).
Proof.
  intros Hf. unfold getDocs, bind, service. rewrite Hf. reflexivity.
Qed.

Lemma getCount_ok (c : string) (conditions : list (string * jsval))
      (w : World) :
  failsAt 0 w = false ->
  getCountFromServer c conditions w
  = (Return (N.of_nat (List.length (matching c conditions w))),
     afterCall (GetCount c conditions) w).
Proof.
  intros Hf. unfold getCountFromServer, bind, service. rewrite Hf. reflexivity.
Qed.

Lemma getCount_fails (c : string) (conditions : list (string * jsval))
      (w : World) :
  failsAt 0 w = true ->
  getCountFromServer c conditions w
  = (Throw unavailable, afterCall (GetCount c conditions) w).
Proof.
  intros Hf. unfold getCountFromServer, bind, service. rewrite Hf. reflexivity.
Qed.

Lemma store_afterCall (c : Call) (w : World) : store (afterCall c w) = store w.
Proof. reflexivity. Qed.

(** C10 -- [fetchData] with its four queries answered, for an employee whose
    Earning documents each have an amount that is a number or is missing:
    the total it puts in the state is the sum of their amounts, added up
    one after the other from 0 in the order the store lists them, a
    document without amount counting for 0; with no Earning document the
    total is 0.  When one of the queries fails, the state is left as it
    was. *)
Theorem dashboard_total_is_sum_of_amounts
        (user : User) (stats : Dashboard.Stats) (w : World) :
  forallb amountIsNumberOrMissing (documentsOf "earnings" (userUid user) w)
  = true ->
  let run := Dashboard.fetchData user stats w in
  ((forall i, (i < 4)%nat -> failsAt i w = false) ->
   exists after,
     fst run = Return (Some after)
     /\ Dashboard.totalEarnings after
        = JNum (sumOfAmounts (documentsOf "earnings" (userUid user) w))
     /\ (documentsOf "earnings" (userUid user) w = [] ->
         Dashboard.totalEarnings after = num 0))
  /\ ((exists i, (i < 4)%nat /\ failsAt i w = true) ->
      fst run = Return (Some stats)).
Proof.
  intros Hok run. subst run. unfold Dashboard.fetchData, tryCatch, bind.
  set (uid := JStr (userUid user)).
  set (c0 := GetCount "dsr" [("employeeId", uid)]).
  set (c1 := GetCount "callLogs" [("employeeId", uid)]).
  set (c2 := GetDocs "earnings" "employeeId" uid).
  assert (H1 : failsAt 0 (afterCall c0 w) = failsAt 1 w)
    by apply failsAt_afterCall.
  assert (H2 : failsAt 0 (afterCall c1 (afterCall c0 w)) = failsAt 2 w)
    by (now rewrite !failsAt_afterCall).
  assert (H3 : failsAt 0 (afterCall c2 (afterCall c1 (afterCall c0 w)))
               = failsAt 3 w)
    by (now rewrite !failsAt_afterCall).
  split.
  - intros Hf.
    rewrite (getCount_ok _ _ w) by (apply Hf; lia).
    rewrite (getCount_ok _ _ (afterCall c0 w))
      by (rewrite H1; apply Hf; lia).
    rewrite (getDocs_ok _ _ _ (afterCall c1 (afterCall c0 w)))
      by (rewrite H2; apply Hf; lia).
    rewrite (getCount_ok _ _ (afterCall c2 (afterCall c1 (afterCall c0 w))))
      by (rewrite H3; apply Hf; lia).
    rewrite !store_afterCall.
    change (filter (fun d => strictEq (get "employeeId" (docData d)) uid)
                   (store w "earnings"))
      with (documentsOf "earnings" (userUid user) w).
    rewrite (earningsTotal_is_sum _ Hok). cbn [ret fst].
    eexists. split; [reflexivity|]. cbn [Dashboard.totalEarnings].
    split; [reflexivity|]. intros ->. reflexivity.
  - intros (i & Hi & Hfail).
    destruct (failsAt 0 w) eqn:E0.
    { now rewrite (getCount_fails _ _ w E0). }
    rewrite (getCount_ok _ _ w E0).
    destruct (failsAt 1 w) eqn:E1.
    { now rewrite (getCount_fails _ _ (afterCall c0 w)) by now rewrite H1. }
    rewrite (getCount_ok _ _ (afterCall c0 w)) by now rewrite H1.
    destruct (failsAt 2 w) eqn:E2.
    { now rewrite (getDocs_throws _ _ _ (afterCall c1 (afterCall c0 w)))
        by now rewrite H2. }
    rewrite (getDocs_ok _ _ _ (afterCall c1 (afterCall c0 w)))
      by now rewrite H2.
    destruct (failsAt 3 w) eqn:E3.
    { now rewrite (getCount_fails _ _
                     (afterCall c2 (afterCall c1 (afterCall c0 w))))
        by now rewrite H3. }
    exfalso.
    destruct i as [|[|[|[|i]]]]; try congruence. lia.
Qed.

Lemma dashboard_total_is_sum_of_amounts_witness :
  let docs := documentsOf "earnings" (userUid sampleUser) earningsWorld in
  let run :=
    Dashboard.fetchData sampleUser Dashboard.initialStats earningsWorld in
  forallb amountIsNumberOrMissing docs = true
  /\ (forall i, (i < 4)%nat -> failsAt i earningsWorld = false)
  /\ exists after,
      fst run = Return (Some after)
      /\ Dashboard.totalEarnings after = JNum (sumOfAmounts docs)
      /\ (docs = [] -> Dashboard.totalEarnings after = num 0).
Proof.
  assert (Hf : forall i, (i < 4)%nat -> failsAt i earningsWorld = false)
    by (intros [|[|[|[|i]]]] _; reflexivity).
  split; [reflexivity|]. split; [exact Hf|].
  exact (proj1 (dashboard_total_is_sum_of_amounts sampleUser
                  Dashboard.initialStats earningsWorld eq_refl) Hf).
Defined.

(** The dashboard of the sample employee: three Earning documents, one of
    them without amount; and the same when the third query fails. *)
Example dashboard_total_example :
  fst (Dashboard.fetchData sampleUser Dashboard.initialStats earningsWorld)
  = Return (Some {| Dashboard.dsrCount := 0; Dashboard.callCount := 0;
                    Dashboard.totalEarnings := JNum (Fin (100005 # 2));
                    Dashboard.pendingTasks := 0 |})
  /\ fst (Dashboard.fetchData sampleUser Dashboard.initialStats
            (withFaults [false; false; true] earningsWorld))
     = Return (Some Dashboard.initialStats).
Proof. split; vm_compute; reflexivity. Qed.

(* ================================================================== *)
(** ** Strings in numeric fields *)
(* ================================================================== *)

Module NumberFacts.
Import StringToNumber.














End NumberFacts.







(* ================================================================== *)
(** ** Employee registration: the domain of the login identifier *)
(* ================================================================== *)

Section Registration.

Context `{Platform}.

(** The login identifier of a registration is never valid when it does not
    end with the domain, and an issue is raised for it. *)
Lemma userId_outside_domain (v : jsval) :
  endsWith (stringOf v) "@zensolve.in" = false ->
  let r :=
    Zod.refine (Zod.string_ [Zod.min 3 "User ID is required."])
      (fun val => endsWith (stringOf val) "@zensolve.in")
      "User ID must end with @zensolve.in" [] v in
  Zod.status r <> Zod.Valid
  /\ (exists i, In i (Zod.issues r))
  /\ (forall s, v = JStr s ->
        In {| Zod.path := []; Zod.message := "User ID must end with @zensolve.in" |}
           (Zod.issues r)).
Proof.
  intros Hend. destruct v;
    try (cbn; repeat split; [discriminate | eexists; left; reflexivity
                             | intros ? [=] ]).
  unfold Zod.refine. cbn [Zod.string_ Zod.checked Zod.status Zod.value].
  cbn [stringOf] in Hend. cbn [stringOf]. rewrite Hend.
  destruct (Zod.failing [Zod.min 3 "User ID is required."] s) eqn:Ef;
    cbn [Zod.status Zod.issues]; repeat split; try discriminate;
    try (eexists; apply in_or_app; right; left; reflexivity);
    intros s' _; apply in_or_app; right; left; reflexivity.
Qed.

(** C6 -- for every registration whose userId does not end with
    @zensolve.in, [registerEmployee] returns the validation failure with an
    error reported for the userId field (the message about the domain when
    the userId is a string), and leaves the world as it was: no call to the
    identity service or to the store is made, no account is created and no
    Employee document is written. *)
Theorem registration_outside_domain_has_no_effect (o : object) (w : World) :
  endsWith (stringOf (get "userId" o)) "@zensolve.in" = false ->
  exists error,
    Actions.registerEmployee (JObj o) w
    = (Return (invalid "Invalid registration data. Please check all fields."
                 error), w)
    /\ Zod.messagesOf "userId" (Zod.fieldErrors error) <> []
    /\ (forall s, get "userId" o = JStr s ->
          In "User ID must end with @zensolve.in"
             (Zod.messagesOf "userId" (Zod.fieldErrors error))).
Proof.
  intros Hend. pose proof (userId_outside_domain _ Hend) as Hu.
  cbv zeta in Hu. destruct Hu as (Hbad & [i Hi] & Hmsg).
  unfold Actions.registerEmployee, Actions.registrationSchema.
  match goal with
  | |- context [Zod.safeParse (Zod.object_ ?sh) _] => set (shape := sh) in *
  end.
  assert (Hin : In ("userId",
                    Zod.refine (Zod.string_ [Zod.min 3 "User ID is required."])
                      (fun val => endsWith (stringOf val) "@zensolve.in")
                      "User ID must end with @zensolve.in" []) shape).
  { subst shape. simpl. tauto. }
  clearbody shape.
  rewrite (ZodFacts.safeParse_property_invalid shape o _ _ Hin Hbad).
  eexists. split; [reflexivity|]. split.
  - pose proof (ZodFacts.properties_issue shape o _ _ i Hin Hi) as Hrep.
    destruct i as [p m]. apply ZodFacts.fieldErrors_reports in Hrep.
    intros Hnil. rewrite Hnil in Hrep. destruct Hrep.
  - intros s Hs. specialize (Hmsg s Hs).
    pose proof (ZodFacts.properties_issue shape o _ _ _ Hin Hmsg) as Hrep.
    now apply ZodFacts.fieldErrors_reports in Hrep.
Qed.

End Registration.

Lemma registration_outside_domain_has_no_effect_witness :
  endsWith (stringOf (get "userId" (registration "bob@gmail.com")))
           "@zensolve.in" = false
  /\ exists error,
      @Actions.registerEmployee samplePlatform
        (JObj (registration "bob@gmail.com")) emptyWorld
      = (Return (invalid "Invalid registration data. Please check all fields."
                   error), emptyWorld)
      /\ Zod.messagesOf "userId" (Zod.fieldErrors error) <> []
      /\ (forall s, get "userId" (registration "bob@gmail.com") = JStr s ->
            In "User ID must end with @zensolve.in"
               (Zod.messagesOf "userId" (Zod.fieldErrors error))).
Proof.
  split; [reflexivity|].
  apply (@registration_outside_domain_has_no_effect samplePlatform
           (registration "bob@gmail.com") emptyWorld).
  reflexivity.
Defined.

(** The registration of the example, run: the userId is the only field in
    error and no service is called; with the domain, the account and the
    Employee document are created. *)
Example registration_examples :
  @Actions.registerEmployee samplePlatform
    (JObj (registration "bob@gmail.com")) emptyWorld
  = (Return {| success := false;
               message := "Invalid registration data. Please check all fields.";
               errors := Some [("userId", ["User ID must end with @zensolve.in"])];
               details := [] |},
     emptyWorld)
  /\ calls (snd (@Actions.registerEmployee samplePlatform
                   (JObj (registration "bob@zensolve.in")) emptyWorld))
     = [ CreateUser "bob@zensolve.in" "secret1";
         SetDoc "employees" "uid0"
           [ ("name", JStr "Bob Builder");
             ("userId", JStr "bob@zensolve.in");
             ("mobile", JStr "9876543210");
             ("personalEmail", JStr "bob@gmail.com");
             ("district", JStr "Pune");
             ("state", JStr "Maharashtra");
             ("pincode", JStr "411001");
             ("createdAt", JServerTimestamp);
             ("status", JStr "active") ];
         RevalidatePath "/admin/employees" ].
Proof. split; vm_compute; reflexivity. Qed.

(* ================================================================== *)
(** ** Earnings: one document per line item *)
(* ================================================================== *)

Lemma get_resolved_string (time : N) (k s : string) (o : object) :
  get k o = JStr s -> get k (resolved time o) = JStr s.
Proof.
  induction o as [|[k' v] o IH]; simpl; [discriminate|].
  destruct v; simpl; destruct (String.eqb k k'); auto; discriminate.
Qed.

Lemma earningDocument_owner (employeeId employeeName earning : jsval) :
  get "employeeId" (Actions.earningDocument employeeId employeeName earning)
  = employeeId
  /\ get "employeeName"
       (Actions.earningDocument employeeId employeeName earning)
     = employeeName.
Proof.
  unfold Actions.earningDocument. rewrite !spread_cons, spread_nil. split.
  - rewrite !get_set_other by reflexivity. apply get_set_same.
  - rewrite get_set_other by reflexivity. apply get_set_same.
Qed.

Lemma earningDocuments_length (time : N) (e n : jsval) (items : list jsval) :
  forall k, List.length (earningDocuments time e n k items)
            = List.length items.
Proof. induction items as [|x l IH]; intros k; simpl; auto. Qed.

Lemma earningDocuments_owner (time : N) (e n : string) (items : list jsval) :
  forall k d, In d (earningDocuments time (JStr e) (JStr n) k items) ->
              get "employeeId" (docData d) = JStr e
              /\ get "employeeName" (docData d) = JStr n.
Proof.
  induction items as [|x l IH]; intros k d Hd; [destruct Hd|].
  destruct Hd as [<- | Hd]; [| eapply IH; exact Hd]. cbn [docData].
  destruct (earningDocument_owner (JStr e) (JStr n)
              (Zod.value (Actions.earningSchema x))) as [He Hn].
  split; now apply get_resolved_string.
Qed.

Lemma elements_values (t : Zod.ZodType) (l : list jsval) :
  Forall (fun x => Zod.status (t x) = Zod.Valid) l ->
  forall i, fst (fst (Zod.elements t i l)) = Zod.Valid
            /\ snd (fst (Zod.elements t i l))
               = map (fun x => Zod.value (t x)) l.
Proof.
  induction 1 as [|x l Hx _ IH]; intros i.
  - split; reflexivity.
  - rewrite ZodFacts.elements_cons. cbn [fst snd map].
    destruct (IH (S i)) as [Hs Hv]. now rewrite Hx, Hs, Hv.
Qed.

Lemma array_value (t : Zod.ZodType) (n : nat) (m : string) (l : list jsval) :
  Zod.value (Zod.array t n m (JArr l))
  = JArr (snd (fst (Zod.elements t 0 l))).
Proof.
  unfold Zod.array. destruct (Zod.elements t 0 l) as [[st vs] iss].
  reflexivity.
Qed.

Lemma accepted_status (t : Zod.ZodType) (v : jsval) :
  accepted t v = true <-> Zod.status (t v) = Zod.Valid.
Proof.
  unfold accepted, Zod.safeParse.
  destruct (Zod.status (t v)); split; intros; congruence.
Qed.

(** The writes of [Promise.all] over the line items, when none fails. *)
Lemma promiseAll_addDoc (f : jsval -> object) (vs : list jsval) :
  forall w,
    (forall i, (i < List.length vs)%nat -> failsAt i w = false) ->
    exists ids w',
      promiseAll (map (fun v => addDoc "earnings" (f v)) vs) w
      = (Return ids, w')
      /\ store w' "earnings"
         = store w "earnings"
           ++ (fix docs (k : N) (l : list jsval) : list Document :=
                 match l with
                 | [] => []
                 | v :: l' =>
                     {| docId := ("doc" ++ decimal k)%string;
                        docData := resolved (serverTime w) (f v) |}
                       :: docs (N.succ k) l'
                 end) (nextId w) vs
      /\ (forall c, String.eqb c "earnings" = false -> store w' c = store w c)
      /\ accounts w' = accounts w /\ bucket w' = bucket w.
Proof.
  induction vs as [|v vs IH]; intros w Hf.
  - exists [], w. cbn [map promiseAll]. rewrite app_nil_r. auto.
  - cbn [map promiseAll].
    rewrite addDoc_ok by (apply Hf; simpl; lia).
    destruct (IH (added "earnings" (f v) w))
      as (ids & w' & Hrun & Hst & Ho & Ha & Hb).
    { intros i Hi. rewrite failsAt_added. apply Hf. simpl. lia. }
    rewrite Hrun. eexists. exists w'. split; [reflexivity|].
    split; [| split; [| split]].
    + rewrite Hst, store_added_same, <- app_assoc. reflexivity.
    + intros c Hc. rewrite (Ho c Hc). now apply store_added_other.
    + exact Ha.
    + exact Hb.
Qed.

Section EarningsSubmission.

Context `{Platform}.

(** C3 -- an earnings submission with an empty sequence of line items is a
    validation failure that carries the minimum-count message and writes
    nothing; with N >= 1 well-formed line items, and the store accepting
    the writes, the submission succeeds and exactly N Earning documents are
    added, each carrying the employeeId and the employeeName of the
    submission, no other collection being touched. *)
Theorem submitEarnings_one_document_per_item
        (o : object) (items : list jsval) (w : World) :
  get "earnings" o = JArr items ->
  (items = [] ->
   exists error,
     Actions.submitEarnings (JObj o) w
     = (Return (invalid "Invalid data." error), w)
     /\ In "Please add at least one earning."
           (Zod.messagesOf "earnings" (Zod.fieldErrors error)))
  /\ (forall e n : string,
         items <> [] ->
         get "employeeId" o = JStr e -> get "employeeName" o = JStr n ->
         forallb (accepted Actions.earningSchema) items = true ->
         (forall i, (i < List.length items)%nat -> failsAt i w = false) ->
         let written :=
           earningDocuments (serverTime w) (JStr e) (JStr n) (nextId w) items in
         let w' := snd (Actions.submitEarnings (JObj o) w) in
         fst (Actions.submitEarnings (JObj o) w)
         = Return (result true "Earnings submitted successfully.")
         /\ store w' "earnings" = store w "earnings" ++ written
         /\ List.length written = List.length items
         /\ (forall d, In d written ->
               get "employeeId" (docData d) = JStr e
               /\ get "employeeName" (docData d) = JStr n)
         /\ (forall c, String.eqb c "earnings" = false ->
               store w' c = store w c)).
Proof.
  intros He. split.
  - (* no line item *)
    intros ->. unfold Actions.submitEarnings, Actions.earningsSchema.
    match goal with
    | |- context [Zod.safeParse (Zod.object_ ?sh) _] => set (shape := sh)
    end.
    assert (Hin : In ("earnings",
                      Zod.array Actions.earningSchema 1
                        "Please add at least one earning.") shape)
      by (subst shape; simpl; tauto).
    clearbody shape.
    rewrite (ZodFacts.safeParse_property_invalid shape o _ _ Hin)
      by (rewrite He; discriminate).
    eexists. split; [reflexivity|].
    eapply ZodFacts.fieldErrors_reports.
    apply (ZodFacts.properties_issue shape o _ _
             {| Zod.path := []; Zod.message := "Please add at least one earning." |}
             Hin).
    rewrite He. left. reflexivity.
  - (* N >= 1 well-formed line items *)
    intros e n Hne Hid Hname Hok Hf written w'. subst written w'.
    assert (Hvalid : Forall (fun x => Zod.status (Actions.earningSchema x)
                                      = Zod.Valid) items).
    { apply Forall_forall. intros x Hx. apply accepted_status.
      rewrite forallb_forall in Hok. now apply Hok. }
    destruct (elements_values Actions.earningSchema items Hvalid 0)
      as [Hst Hvs].
    unfold Actions.submitEarnings, Actions.earningsSchema.
    match goal with
    | |- context [Zod.safeParse (Zod.object_ ?sh) _] => set (shape := sh)
    end.
    assert (Hnd : NoDup (map fst shape)).
    { subst shape. simpl. repeat constructor; simpl; intuition discriminate. }
    assert (Hie : In ("earnings",
                      Zod.array Actions.earningSchema 1
                        "Please add at least one earning.") shape)
      by (subst shape; simpl; tauto).
    assert (Hii : In ("employeeId", Zod.string_ []) shape)
      by (subst shape; simpl; tauto).
    assert (Hin : In ("employeeName", Zod.string_ []) shape)
      by (subst shape; simpl; tauto).
    assert (Hall : Forall (fun kt => Zod.status (snd kt (get (fst kt) o))
                                     = Zod.Valid) shape).
    { subst shape. repeat constructor; cbn [fst snd].
      - rewrite He, array_status, Hst.
        destruct items; [now elim Hne | reflexivity].
      - now rewrite Hid.
      - now rewrite Hname. }
    clearbody shape.
    rewrite (ZodFacts.safeParse_object_valid shape o Hall). cbn [dataOf].
    rewrite (ZodObjects.output_get shape o _ _ Hnd Hie).
    rewrite (ZodObjects.output_get shape o _ _ Hnd Hii).
    rewrite (ZodObjects.output_get shape o _ _ Hnd Hin).
    rewrite He, Hid, Hname, array_value, Hvs.
    cbn [Zod.string_ Zod.checked Zod.failing filter map Zod.value itemsOf].
    rewrite map_map.
    destruct (promiseAll_addDoc
                (fun x => Actions.earningDocument (JStr e) (JStr n)
                            (Zod.value (Actions.earningSchema x)))
                items w) as (ids & w' & Hrun & Hstore & Hother & _).
    { exact Hf. }
    unfold tryCatch, bind. rewrite Hrun. cbn [fst snd ret].
    split; [reflexivity|]. split; [| split; [| split]].
    + rewrite Hstore. f_equal. clear.
      generalize (nextId w). induction items as [|x l IH]; intros k;
        [reflexivity | cbn [earningDocuments]; now rewrite IH].
    + apply earningDocuments_length.
    + intros d. apply earningDocuments_owner.
    + exact Hother.
Qed.

End EarningsSubmission.

Lemma submitEarnings_one_document_per_item_witness :
  get "earnings" (earningsSubmission twoItems) = JArr twoItems
  /\ fst (Actions.submitEarnings (JObj (earningsSubmission twoItems))
            emptyWorld)
     = Return (result true "Earnings submitted successfully.")
  /\ store (snd (Actions.submitEarnings (JObj (earningsSubmission twoItems))
                   emptyWorld)) "earnings"
     = store emptyWorld "earnings"
       ++ earningDocuments (serverTime emptyWorld) (JStr "emp-1")
            (JStr "Asha") (nextId emptyWorld) twoItems.
Proof.
  split; [reflexivity|].
  destruct (submitEarnings_one_document_per_item
              (earningsSubmission twoItems) twoItems emptyWorld eq_refl)
    as [_ Hwritten].
  destruct (Hwritten "emp-1" "Asha") as (Hr & Hs & _);
    try reflexivity; try discriminate.
  - intros [|[|i]] Hi; reflexivity.
  - split; [exact Hr | exact Hs].
Defined.

(** The same submission, run: two documents, in the order of the items,
    the amount given as a string stored as a number. *)
Example submitEarnings_example :
  store (snd (Actions.submitEarnings (JObj (earningsSubmission twoItems))
                emptyWorld)) "earnings"
  = [ {| docId := "doc0";
         docData := [ ("description", JStr "Booking from client X");
                      ("amount", num 50000);
                      ("employeeId", JStr "emp-1");
                      ("employeeName", JStr "Asha");
                      ("date", JTimestamp 1700000000500) ] |};
      {| docId := "doc1";
         docData := [ ("description", JStr "Consulting fee");
                      ("amount", num 1200);
                      ("employeeId", JStr "emp-1");
                      ("employeeName", JStr "Asha");
                      ("date", JTimestamp 1700000000500) ] |} ]
  /\ Actions.submitEarnings (JObj (earningsSubmission [])) emptyWorld
     = (Return {| success := false; message := "Invalid data.";
                  errors := Some [("earnings",
                                   ["Please add at least one earning."])];
                  details := [] |},
        emptyWorld).
Proof. split; vm_compute; reflexivity. Qed.

(* ================================================================== *)
(** ** Newsletter: subscribing twice *)
(* ================================================================== *)

Lemma failsAt_recorded (i : nat) (c : Call) (w : World) :
  failsAt i (recorded c w) = failsAt i w.
Proof. reflexivity. Qed.

Section Newsletter.

Context `{Platform}.

Lemma newsletter_validated (fd : FormData) (e : string) :
  formGet "email" fd = JStr e -> isEmail e = true ->
  Zod.safeParse Actions.newsletterSchema (JObj [("email", formGet "email" fd)])
  = Zod.Success (JObj [("email", JStr e)]).
Proof.
  intros Hget Hmail. rewrite Hget.
  unfold Zod.safeParse, Actions.newsletterSchema, Zod.object_.
  cbn [Zod.properties get String.eqb Ascii.eqb Bool.eqb].
  rewrite ZodObjects.string_accepts; [reflexivity|].
  cbn [forallb Zod.test Zod.email]. now rewrite Hmail.
Qed.

(** When the address is already there, nothing is inserted. *)
Lemma subscribe_present (p : jsval) (fd : FormData) (e : string) (w : World) :
  formGet "email" fd = JStr e -> isEmail e = true ->
  failsAt 0 w = false -> subscribersWith e w <> [] ->
  Actions.subscribeToNewsletter p fd w
  = (Return (result true "You are already subscribed!"),
     afterCall (GetDocs "newsletterSubscribers" "email" (JStr e)) w).
Proof.
  intros Hget Hmail Hf Hsome. unfold Actions.subscribeToNewsletter.
  rewrite (newsletter_validated fd e Hget Hmail).
  cbn [dataOf get String.eqb Ascii.eqb Bool.eqb].
  unfold tryCatch, bind. rewrite getDocs_ok by exact Hf.
  fold (subscribersWith e w).
  destruct (subscribersWith e w); [now elim Hsome | reflexivity].
Qed.

(** When the address is not there, one document is inserted. *)
Lemma subscribe_absent (p : jsval) (fd : FormData) (e : string) (w : World) :
  formGet "email" fd = JStr e -> isEmail e = true ->
  failsAt 0 w = false -> failsAt 1 w = false -> subscribersWith e w = [] ->
  Actions.subscribeToNewsletter p fd w
  = (Return (result true "Thank you for subscribing!"),
     recorded (RevalidatePath "/admin/newsletter")
       (added "newsletterSubscribers"
          [("email", JStr e); ("subscribedAt", JServerTimestamp)]
          (afterCall (GetDocs "newsletterSubscribers" "email" (JStr e)) w))).
Proof.
  intros Hget Hmail Hf0 Hf1 Hnone. unfold Actions.subscribeToNewsletter.
  rewrite (newsletter_validated fd e Hget Hmail).
  cbn [dataOf get String.eqb Ascii.eqb Bool.eqb].
  unfold tryCatch, bind. rewrite getDocs_ok by exact Hf0.
  fold (subscribersWith e w). rewrite Hnone.
  rewrite addDoc_ok by (now rewrite failsAt_afterCall).
  reflexivity.
Qed.

(** C5 -- for a valid address, with the store answering, subscribing twice
    returns success both times, the second call finds the address and
    inserts nothing, and -- the store holding at most one document with
    the address beforehand -- exactly one document with it exists
    afterwards. *)
Theorem newsletter_subscription_is_idempotent
        (p1 p2 : jsval) (fd : FormData) (e : string) (w : World) :
  formGet "email" fd = JStr e -> isEmail e = true ->
  (forall i, (i < 3)%nat -> failsAt i w = false) ->
  (List.length (subscribersWith e w) <= 1)%nat ->
  let first := Actions.subscribeToNewsletter p1 fd w in
  let second := Actions.subscribeToNewsletter p2 fd (snd first) in
  (exists m, fst first = Return (result true m))
  /\ fst second = Return (result true "You are already subscribed!")
  /\ store (snd second) "newsletterSubscribers"
     = store (snd first) "newsletterSubscribers"
  /\ List.length (subscribersWith e (snd second)) = 1%nat.
Proof.
  intros Hget Hmail Hf Hone first second. subst first second.
  assert (Hf0 : failsAt 0 w = false) by (apply Hf; lia).
  assert (Hf1 : failsAt 1 w = false) by (apply Hf; lia).
  assert (Hf2 : failsAt 2 w = false) by (apply Hf; lia).
  destruct (subscribersWith e w) as [|d l] eqn:Ew.
  - (* first subscription *)
    rewrite (subscribe_absent p1 fd e w Hget Hmail Hf0 Hf1 Ew). cbn [fst snd].
    set (w1 := recorded _ _).
    assert (Hw1 : subscribersWith e w1
                  = [ {| docId := ("doc" ++ decimal (nextId w))%string;
                         docData := [("email", JStr e);
                                     ("subscribedAt",
                                       JTimestamp (serverTime w))] |} ]).
    { unfold subscribersWith. subst w1.
      cbn [store recorded]. rewrite store_added_same.
      rewrite filter_app. cbn [store afterCall recorded withFaults].
      fold (subscribersWith e w). rewrite Ew.
      cbn [filter docData get String.eqb Ascii.eqb Bool.eqb strictEq resolved
           map fst snd app].
      now rewrite String.eqb_refl. }
    rewrite (subscribe_present p2 fd e w1 Hget Hmail);
      [| subst w1; rewrite failsAt_recorded, failsAt_added, failsAt_afterCall;
         exact Hf2
       | rewrite Hw1; discriminate ].
    cbn [fst snd]. split; [eexists; reflexivity|].
    split; [reflexivity|]. split; [reflexivity|].
    change (List.length (subscribersWith e w1) = 1%nat).
    now rewrite Hw1.
  - (* already subscribed *)
    assert (Hl : l = []) by (destruct l; [reflexivity | simpl in Hone; lia]).
    subst l.
    rewrite (subscribe_present p1 fd e w Hget Hmail Hf0)
      by (rewrite Ew; discriminate).
    cbn [fst snd]. set (w1 := afterCall _ w).
    assert (Hw1 : subscribersWith e w1 = [d]) by exact Ew.
    rewrite (subscribe_present p2 fd e w1 Hget Hmail);
      [| subst w1; rewrite failsAt_afterCall; exact Hf1
       | rewrite Hw1; discriminate ].
    cbn [fst snd]. split; [eexists; reflexivity|].
    split; [reflexivity|]. split; [reflexivity|].
    change (List.length (subscribersWith e w1) = 1%nat).
    now rewrite Hw1.
Qed.

End Newsletter.

Lemma newsletter_subscription_is_idempotent_witness :
  formGet "email" (newsletterForm "reader@example.org")
  = JStr "reader@example.org"
  /\ @isEmail samplePlatform "reader@example.org" = true
  /\ (forall i, (i < 3)%nat -> failsAt i emptyWorld = false)
  /\ (List.length (subscribersWith "reader@example.org" emptyWorld) <= 1)%nat
  /\ let first :=
       @Actions.subscribeToNewsletter samplePlatform JNull
         (newsletterForm "reader@example.org") emptyWorld in
     let second :=
       @Actions.subscribeToNewsletter samplePlatform JNull
         (newsletterForm "reader@example.org") (snd first) in
     (exists m, fst first = Return (result true m))
     /\ fst second = Return (result true "You are already subscribed!")
     /\ store (snd second) "newsletterSubscribers"
        = store (snd first) "newsletterSubscribers"
     /\ List.length (subscribersWith "reader@example.org" (snd second))
        = 1%nat.
Proof.
  assert (Hf : forall i, (i < 3)%nat -> failsAt i emptyWorld = false)
    by (intros [|[|[|i]]] _; reflexivity).
  split; [reflexivity|]. split; [reflexivity|]. split; [exact Hf|].
  split; [simpl; lia|].
  apply (@newsletter_subscription_is_idempotent samplePlatform JNull JNull
           (newsletterForm "reader@example.org") "reader@example.org"
           emptyWorld);
    [reflexivity | reflexivity | exact Hf | simpl; lia].
Defined.

(* ================================================================== *)
(** ** Membership verification, twice *)
(* ================================================================== *)

Lemma inCollection_same (c : string) (f : list Document -> list Document)
      (s : string -> list Document) :
  inCollection c f s c = f (s c).
Proof. unfold inCollection. now rewrite String.eqb_refl. Qed.

Lemma updateDoc_ok (c id : string) (data : object) (w : World) :
  failsAt 0 w = false -> existsb (hasId id) (store w c) = true ->
  updateDoc c id data w = (Return tt, updated c id data w).
Proof.
  intros Hf Hex. unfold updateDoc, bind, service. rewrite Hf.
  cbn [store afterCall recorded withFaults]. rewrite Hex. reflexivity.
Qed.

Lemma hasId_marked (id : string) (data : object) (x : Document) :
  hasId id (if hasId id x
            then {| docId := id; docData := spread (docData x) data |}
            else x)
  = hasId id x.
Proof.
  destruct (hasId id x) eqn:E; [|exact E].
  unfold hasId. cbn [docId]. apply String.eqb_refl.
Qed.

Lemma marked_exists (id : string) (l : list Document) :
  existsb (hasId id)
    (map (fun x =>
            if hasId id x
            then {| docId := id; docData := spread (docData x) verifiedMark |}
            else x) l)
  = existsb (hasId id) l.
Proof.
  induction l as [|x l IH]; [reflexivity|].
  cbn [map existsb]. now rewrite hasId_marked, IH.
Qed.

Lemma marked_verified (id : string) (l : list Document) :
  forallb (fun d => strictEq (get "status" (docData d)) (JStr "verified"))
    (filter (hasId id)
       (map (fun x =>
               if hasId id x
               then {| docId := id;
                       docData := spread (docData x) verifiedMark |}
               else x) l))
  = true.
Proof.
  induction l as [|x l IH]; [reflexivity|].
  cbn [map filter]. rewrite hasId_marked.
  destruct (hasId id x) eqn:Ex; [|exact IH].
  cbn [forallb docData]. unfold verifiedMark at 1.
  rewrite spread_cons, spread_nil, get_set_same. exact IH.
Qed.

Lemma membershipVerified_updated (id : string) (w : World) :
  existsb (hasId id) (store w "memberships") = true ->
  membershipVerified id (updated "memberships" id verifiedMark w) = true.
Proof.
  intros Hex. unfold membershipVerified, updated.
  cbn [store withStore afterCall recorded withFaults].
  rewrite inCollection_same.
  change (resolved (serverTime w) verifiedMark) with verifiedMark.
  now rewrite marked_exists, marked_verified, Hex.
Qed.

Section MembershipVerification.

Context `{Platform}.

Lemma verification_validated (id e p : string) :
  isEmail e = true ->
  Zod.safeParse Actions.verifyMembershipSchema (verification id e p)
  = Zod.Success (verification id e p).
Proof.
  intros Hmail.
  unfold Zod.safeParse, Actions.verifyMembershipSchema, Zod.object_,
    verification.
  cbn [Zod.properties get String.eqb Ascii.eqb Bool.eqb].
  rewrite (ZodObjects.string_accepts [Zod.email "Invalid email"] e)
    by (cbn [forallb Zod.test Zod.email]; now rewrite Hmail).
  reflexivity.
Qed.

Lemma createUser_existing (e p : string) (w : World) :
  failsAt 0 w = false -> authAcceptsEmail e = true -> hasAccount e w = true ->
  createUserWithEmailAndPassword e p w
  = (Throw {| code := "auth/email-already-in-use";
              errorMessage := "The email address is already in use." |},
     afterCall (CreateUser e p) w).
Proof.
  intros Hf Hok Hex. unfold createUserWithEmailAndPassword, bind, service.
  rewrite Hf, Hok. cbn [negb accounts afterCall recorded withFaults].
  unfold hasAccount in Hex. now rewrite Hex.
Qed.

Lemma createUser_fresh (e p : string) (w : World) :
  failsAt 0 w = false -> authAcceptsEmail e = true -> hasAccount e w = false ->
  (6 <= String.length p)%nat ->
  createUserWithEmailAndPassword e p w
  = (Return ("uid" ++ decimal (nextId w))%string, registered e p w).
Proof.
  intros Hf Hok Hex Hlen. unfold createUserWithEmailAndPassword, bind, service.
  rewrite Hf, Hok. cbn [negb accounts afterCall recorded withFaults].
  unfold hasAccount in Hex. rewrite Hex.
  assert (Hp : (String.length p <? 6)%nat = false) by (apply Nat.ltb_ge; lia).
  rewrite Hp. reflexivity.
Qed.

(** The identity exists already: the membership is marked all the same. *)
Lemma verify_existing (id e p : string) (w : World) :
  isEmail e = true -> authAcceptsEmail e = true ->
  failsAt 0 w = false -> failsAt 1 w = false ->
  existsb (hasId id) (store w "memberships") = true ->
  hasAccount e w = true ->
  Actions.verifyMembership (verification id e p) w
  = (Return (result true
               "User already exists. Membership marked as verified."),
     recorded (RevalidatePath "/admin/memberships")
       (updated "memberships" id verifiedMark
          (afterCall (CreateUser e p) w))).
Proof.
  intros Hmail Hok Hf0 Hf1 Hm Ha. unfold Actions.verifyMembership.
  rewrite (verification_validated id e p Hmail).
  cbn [verification dataOf get String.eqb Ascii.eqb Bool.eqb stringOf].
  unfold tryCatch. unfold bind at 1.
  rewrite (createUser_existing e p w Hf0 Hok Ha).
  cbn [code String.eqb Ascii.eqb Bool.eqb]. unfold bind.
  rewrite updateDoc_ok;
    [reflexivity | now rewrite failsAt_afterCall | exact Hm].
Qed.

(** The identity does not exist yet: it is created, then the membership is
    marked. *)
Lemma verify_fresh (id e p : string) (w : World) :
  isEmail e = true -> authAcceptsEmail e = true ->
  failsAt 0 w = false -> failsAt 1 w = false ->
  existsb (hasId id) (store w "memberships") = true ->
  hasAccount e w = false -> (6 <= String.length p)%nat ->
  Actions.verifyMembership (verification id e p) w
  = (Return (result true "Membership verified and user created."),
     recorded (RevalidatePath "/admin/memberships")
       (updated "memberships" id verifiedMark (registered e p w))).
Proof.
  intros Hmail Hok Hf0 Hf1 Hm Ha Hlen. unfold Actions.verifyMembership.
  rewrite (verification_validated id e p Hmail).
  cbn [verification dataOf get String.eqb Ascii.eqb Bool.eqb stringOf].
  unfold tryCatch, bind.
  rewrite (createUser_fresh e p w Hf0 Hok Ha Hlen).
  rewrite updateDoc_ok; [reflexivity | | exact Hm].
  change (failsAt 0 (afterCall (CreateUser e p) w) = false).
  now rewrite failsAt_afterCall.
Qed.

(** C2 -- for a membership held by the store, an address and a password
    the identity service accepts, and services that answer, calling
    [verifyMembership] twice with the same membershipId, email and password
    returns success both times (the second time through the
    already-exists branch), leaves the membership with status "verified"
    after each call, and the second call creates no account: the identity
    service holding at most one account for the address beforehand, it
    holds exactly one afterwards. *)
Theorem verifyMembership_twice (id e p : string) (w : World) :
  existsb (hasId id) (store w "memberships") = true ->
  isEmail e = true -> authAcceptsEmail e = true ->
  (6 <= String.length p)%nat ->
  (forall i, (i < 4)%nat -> failsAt i w = false) ->
  let first := Actions.verifyMembership (verification id e p) w in
  let second := Actions.verifyMembership (verification id e p) (snd first) in
  (exists m, fst first = Return (result true m))
  /\ fst second
     = Return (result true
                 "User already exists. Membership marked as verified.")
  /\ membershipVerified id (snd first) = true
  /\ membershipVerified id (snd second) = true
  /\ accounts (snd second) = accounts (snd first)
  /\ ((List.length (accountsWith e w) <= 1)%nat ->
      List.length (accountsWith e (snd second)) = 1%nat).
Proof.
  intros Hm Hmail Hok Hlen Hf first second. subst first second.
  assert (Hf0 : failsAt 0 w = false) by (apply Hf; lia).
  assert (Hf1 : failsAt 1 w = false) by (apply Hf; lia).
  assert (Hf2 : failsAt 2 w = false) by (apply Hf; lia).
  assert (Hf3 : failsAt 3 w = false) by (apply Hf; lia).
  assert (Hkeep : forall u : World,
             existsb (hasId id) (store u "memberships") = true ->
             existsb (hasId id)
               (store (updated "memberships" id verifiedMark u) "memberships")
             = true).
  { intros u Hu. pose proof (membershipVerified_updated id u Hu) as Hv.
    unfold membershipVerified in Hv. now apply andb_true_iff in Hv. }
  destruct (hasAccount e w) eqn:Ha.
  - (* the identity exists before the first call *)
    rewrite (verify_existing id e p w Hmail Hok Hf0 Hf1 Hm Ha). cbn [fst snd].
    set (w1 := recorded _ _).
    assert (Hm1 : existsb (hasId id) (store w1 "memberships") = true)
      by (subst w1; apply Hkeep; exact Hm).
    rewrite (verify_existing id e p w1 Hmail Hok);
      [ | subst w1; rewrite failsAt_recorded;
          change (failsAt 0 (afterCall (UpdateDoc "memberships" id verifiedMark)
                               (afterCall (CreateUser e p) w)) = false);
          now rewrite !failsAt_afterCall
        | subst w1; rewrite failsAt_recorded;
          change (failsAt 1 (afterCall (UpdateDoc "memberships" id verifiedMark)
                               (afterCall (CreateUser e p) w)) = false);
          now rewrite !failsAt_afterCall
        | exact Hm1
        | exact Ha ].
    cbn [fst snd]. split; [eexists; reflexivity|].
    split; [reflexivity|].
    split; [subst w1; now apply membershipVerified_updated|].
    split; [now apply membershipVerified_updated|].
    split; [reflexivity|].
    intros Hone. change (List.length (accountsWith e w) = 1%nat).
    unfold hasAccount in Ha. unfold accountsWith in *.
    destruct (filter _ (accounts w)) as [|a [|b l]] eqn:Efil;
      [ | reflexivity | simpl in Hone; lia ].
    exfalso. apply existsb_exists in Ha. destruct Ha as (a & Hin & Hea).
    assert (Hin' : In a (filter (fun a => String.eqb (accountEmail a) e)
                           (accounts w)))
      by (apply filter_In; split; assumption).
    rewrite Efil in Hin'. destruct Hin'.
  - (* the first call creates the identity *)
    rewrite (verify_fresh id e p w Hmail Hok Hf0 Hf1 Hm Ha Hlen). cbn [fst snd].
    set (w1 := recorded _ _).
    assert (Hm1 : existsb (hasId id) (store w1 "memberships") = true)
      by (subst w1; apply Hkeep; exact Hm).
    assert (Hacc1 : accounts w1
                    = accounts w
                      ++ [ {| uid := ("uid" ++ decimal (nextId w))%string;
                              accountEmail := e; accountPassword := p |} ])
      by reflexivity.
    assert (Ha1 : hasAccount e w1 = true).
    { unfold hasAccount. rewrite Hacc1, existsb_app. cbn [existsb accountEmail].
      now rewrite String.eqb_refl, orb_true_r. }
    rewrite (verify_existing id e p w1 Hmail Hok);
      [ | subst w1; rewrite failsAt_recorded;
          change (failsAt 0 (afterCall (UpdateDoc "memberships" id verifiedMark)
                               (afterCall (CreateUser e p) w)) = false);
          now rewrite !failsAt_afterCall
        | subst w1; rewrite failsAt_recorded;
          change (failsAt 1 (afterCall (UpdateDoc "memberships" id verifiedMark)
                               (afterCall (CreateUser e p) w)) = false);
          now rewrite !failsAt_afterCall
        | exact Hm1
        | exact Ha1 ].
    cbn [fst snd]. split; [eexists; reflexivity|].
    split; [reflexivity|].
    split; [subst w1; now apply membershipVerified_updated|].
    split; [now apply membershipVerified_updated|].
    split; [reflexivity|].
    intros _. change (List.length (accountsWith e w1) = 1%nat).
    unfold accountsWith. rewrite Hacc1, filter_app.
    cbn [filter accountEmail]. rewrite String.eqb_refl.
    unfold hasAccount in Ha.
    assert (Hnone : filter (fun a => String.eqb (accountEmail a) e)
                      (accounts w) = []).
    { clear -Ha. induction (accounts w) as [|a l IH]; [reflexivity|].
      cbn [existsb] in Ha. apply orb_false_iff in Ha. destruct Ha as [Ha Hl].
      cbn [filter]. rewrite Ha. now apply IH. }
    now rewrite Hnone.
Qed.

End MembershipVerification.

Lemma verifyMembership_twice_witness :
  existsb (hasId "m-1") (store membershipWorld "memberships") = true
  /\ @isEmail samplePlatform "ravi@example.org" = true
  /\ @authAcceptsEmail samplePlatform "ravi@example.org" = true
  /\ (6 <= String.length "9876543210")%nat
  /\ (forall i, (i < 4)%nat -> failsAt i membershipWorld = false)
  /\ let first :=
       @Actions.verifyMembership samplePlatform
         (verification "m-1" "ravi@example.org" "9876543210")
         membershipWorld in
     let second :=
       @Actions.verifyMembership samplePlatform
         (verification "m-1" "ravi@example.org" "9876543210") (snd first) in
     (exists m, fst first = Return (result true m))
     /\ fst second
        = Return (result true
                    "User already exists. Membership marked as verified.")
     /\ membershipVerified "m-1" (snd first) = true
     /\ membershipVerified "m-1" (snd second) = true
     /\ accounts (snd second) = accounts (snd first)
     /\ ((List.length (accountsWith "ravi@example.org" membershipWorld)
          <= 1)%nat ->
         List.length (accountsWith "ravi@example.org" (snd second)) = 1%nat).
Proof.
  assert (Hf : forall i, (i < 4)%nat -> failsAt i membershipWorld = false)
    by (intros [|[|[|[|i]]]] _; reflexivity).
  split; [reflexivity|]. split; [reflexivity|]. split; [reflexivity|].
  split; [simpl; lia|]. split; [exact Hf|].
  apply (@verifyMembership_twice samplePlatform "m-1" "ravi@example.org"
           "9876543210" membershipWorld);
    [reflexivity | reflexivity | reflexivity | simpl; lia | exact Hf].
Defined.

(** The button of the admin console sends the identifier of the membership
    with its address, and its phone number as the password. *)
Example handleVerify_example :
  @MembershipsPage.handleVerify samplePlatform pendingMembership
  = @Actions.verifyMembership samplePlatform
      (verification "m-1" "ravi@example.org" "9876543210")
  /\ map (fun d => get "status" (docData d))
       (store (snd (@MembershipsPage.handleVerify samplePlatform
                      pendingMembership membershipWorld)) "memberships")
     = [JStr "verified"].
Proof. split; [reflexivity | vm_compute; reflexivity]. Qed.

(* ================================================================== *)
(** ** Job applications: the resume goes first *)
(* ================================================================== *)

Lemma uploadBytes_ok (path name : string) (size : N) (w : World) :
  failsAt 0 w = false ->
  uploadBytes path name size w = (Return path, uploaded path name size w).
Proof.
  intros Hf. unfold uploadBytes, bind, service. now rewrite Hf.
Qed.

Lemma uploadBytes_fails (path name : string) (size : N) (w : World) :
  failsAt 0 w = true ->
  uploadBytes path name size w
  = (Throw unavailable, afterCall (UploadBytes path name size) w).
Proof.
  intros Hf. unfold uploadBytes, bind, service. now rewrite Hf.
Qed.

(** The first property of an object schema, when it is a string. *)
Lemma first_property (k : string) (checks : list (Zod.Check string))
      (shape : list (string * Zod.ZodType)) (o : object) (v : jsval) :
  Zod.safeParse (Zod.object_ ((k, Zod.string_ checks) :: shape)) (JObj o)
  = Zod.Success v ->
  exists s, get k o = JStr s /\ get k (dataOf v) = JStr s.
Proof.
  intros Hs.
  apply ZodObjects.safeParse_object_success in Hs. destruct Hs as [-> Hall].
  specialize (Hall k (Zod.string_ checks) (or_introl eq_refl)).
  apply ZodObjects.string_valid in Hall.
  destruct Hall as (s & Hs & Hv & _). exists s. split; [exact Hs|].
  cbn [dataOf]. rewrite ZodFacts.properties_cons.
  unfold Zod.outputOf at 1. cbn [fst snd]. rewrite Hv.
  cbn [get]. now rewrite String.eqb_refl.
Qed.

Section JobApplication.

Context `{Platform}.

Lemma getDownloadURL_ok (path : string) (w : World) :
  failsAt 0 w = false ->
  getDownloadURL path w
  = (Return (downloadURL path), afterCall (GetDownloadURL path) w).
Proof.
  intros Hf. unfold getDownloadURL, bind, service. now rewrite Hf.
Qed.

Lemma getDownloadURL_fails (path : string) (w : World) :
  failsAt 0 w = true ->
  getDownloadURL path w
  = (Throw unavailable, afterCall (GetDownloadURL path) w).
Proof.
  intros Hf. unfold getDownloadURL, bind, service. now rewrite Hf.
Qed.

(** The check boxes and the number aside, the input of the schema is the
    form. *)
Lemma applicationInput_jobId (fd : FormData) :
  get "jobId" (Actions.applicationInput fd) = get "jobId" (fromEntries fd).
Proof.
  unfold Actions.applicationInput. cbv zeta.
  rewrite !spread_cons, spread_nil.
  now rewrite !get_set_other by reflexivity.
Qed.

(** A validated application carries the job identifier of the form. *)
Lemma application_jobId (fd : FormData) (validated : jsval) :
  Zod.safeParse Actions.applicationSchema (JObj (Actions.applicationInput fd))
  = Zod.Success validated ->
  exists jobId,
    get "jobId" (fromEntries fd) = JStr jobId
    /\ get "jobId" (dataOf validated) = JStr jobId.
Proof.
  intros Hs. apply first_property in Hs. destruct Hs as (j & Hj & Hv).
  exists j. split; [|exact Hv]. rewrite <- Hj. symmetry.
  apply applicationInput_jobId.
Qed.

(** C4 -- for every job application that validates and carries a non-empty
    resume, [applyForJob] first uploads the file under
    resumes/{jobId}/{Date.now()}-{file name}, then asks for its retrieval
    URL, and hands to the store a document whose resumeUrl is that URL, the
    calls being made in this order, whatever the store then answers; when
    the upload (or the retrieval of the URL) fails, the action returns
    failure, no write of an Application document is attempted and the
    collection is unchanged.  When the store takes the document, which
    has no undefined property, the action succeeds and the document
    stored carries the URL. *)
Theorem applyForJob_uploads_resume_first
        (prev : jsval) (fd : FormData) (validated : jsval)
        (name : string) (size : N) (w : World) :
  Zod.safeParse Actions.applicationSchema (JObj (Actions.applicationInput fd))
  = Zod.Success validated ->
  formGet "resume" fd = JFile name size -> (0 < size)%N ->
  exists jobId,
    get "jobId" (fromEntries fd) = JStr jobId
    /\ let path :=
         ("resumes/" ++ jobId ++ "/" ++ decimal (dateNow w) ++ "-"
            ++ name)%string in
       let document :=
         spread (set "resumeUrl" (JStr (downloadURL path)) (dataOf validated))
                [("submittedAt", JServerTimestamp)] in
       let run := Actions.applyForJob prev fd w in
       let failure :=
         Return (result false
                   "Failed to submit application. Please try again.") in
       get "resumeUrl" document = JStr (downloadURL path)
       /\ (failsAt 0 w = true ->
           fst run = failure
           /\ store (snd run) "applications" = store w "applications"
           /\ calls (snd run) = calls w ++ [UploadBytes path name size])
       /\ (failsAt 0 w = false -> failsAt 1 w = true ->
           fst run = failure
           /\ store (snd run) "applications" = store w "applications"
           /\ calls (snd run)
              = calls w ++ [UploadBytes path name size; GetDownloadURL path])
       /\ (failsAt 0 w = false -> failsAt 1 w = false ->
           calls (snd run)
           = calls w ++ [ UploadBytes path name size; GetDownloadURL path;
                          AddDoc "applications" document ]
           /\ In {| filePath := path; fileName := name; fileSize := size |}
                 (bucket (snd run))
           /\ (definedFields document = true -> failsAt 2 w = false ->
               fst run
               = Return (result true
                           "Application submitted successfully! We will get back to you soon.")
               /\ store (snd run) "applications"
                  = store w "applications"
                    ++ [ {| docId := ("doc" ++ decimal (nextId w))%string;
                            docData := resolved (serverTime w) document |} ])).
Proof.
  intros Hs Hfile Hsize.
  destruct (application_jobId fd validated Hs) as (jobId & Hraw & Hjob).
  exists jobId. split; [exact Hraw|]. cbv zeta.
  assert (Hpos : (0 <? size)%N = true) by now apply N.ltb_lt.
  unfold Actions.applyForJob. cbv zeta. rewrite Hs, Hfile, Hpos, Hjob.
  cbn [stringOf]. unfold tryCatch, bind, Date_now, ret.
  unfold Actions.resumePath.
  set (path := ("resumes/" ++ jobId ++ "/" ++ decimal (dateNow w) ++ "-"
                  ++ name)%string).
  split.
  { rewrite spread_cons, spread_nil.
    rewrite get_set_other by reflexivity. apply get_set_same. }
  split; [| split].
  - intros Hf0. rewrite uploadBytes_fails by exact Hf0. cbn [fst snd].
    repeat split; reflexivity.
  - intros Hf0 Hf1. rewrite uploadBytes_ok by exact Hf0.
    rewrite getDownloadURL_fails
      by (change (failsAt 0 (afterCall (UploadBytes path name size) w) = true);
          now rewrite failsAt_afterCall).
    cbn [fst snd]. repeat split; try reflexivity.
    cbn [calls afterCall recorded withFaults uploaded withBucket].
    now rewrite <- app_assoc.
  - intros Hf0 Hf1. rewrite uploadBytes_ok by exact Hf0.
    rewrite getDownloadURL_ok
      by (change (failsAt 0 (afterCall (UploadBytes path name size) w) = false);
          now rewrite failsAt_afterCall).
    set (document := spread (set "resumeUrl" _ _) _).
    set (w2 := afterCall (GetDownloadURL path) (uploaded path name size w)).
    assert (Hf2 : failsAt 0 w2 = failsAt 2 w).
    { subst w2. rewrite failsAt_afterCall.
      change (failsAt 1 (afterCall (UploadBytes path name size) w)
              = failsAt 2 w).
      now rewrite failsAt_afterCall. }
    assert (Hcalls : calls w2
                     = calls w ++ [UploadBytes path name size;
                                   GetDownloadURL path]).
    { subst w2.
      cbn [calls afterCall recorded withFaults uploaded withBucket].
      now rewrite <- app_assoc. }
    assert (Hbucket : In {| filePath := path; fileName := name;
                            fileSize := size |} (bucket w2)).
    { subst w2.
      cbn [bucket afterCall recorded withFaults uploaded withBucket].
      apply in_or_app. right. now left. }
    destruct (failsAt 0 w2) eqn:E2.
    + rewrite addDoc_fails by exact E2. cbn [fst snd].
      split; [| split].
      * cbn [calls afterCall recorded withFaults]. rewrite Hcalls.
        now rewrite <- app_assoc.
      * exact Hbucket.
      * intros _ Hc. rewrite <- Hf2 in Hc. discriminate.
    + rewrite addDoc_ok by exact E2. cbn [fst snd].
      split; [| split].
      * unfold added.
        cbn [calls withStore withNextId afterCall recorded withFaults].
        rewrite Hcalls. now rewrite <- app_assoc.
      * exact Hbucket.
      * intros _ _. split; [reflexivity|]. now rewrite store_added_same.
Qed.

End JobApplication.

Lemma applyForJob_uploads_resume_first_witness :
  let path := "resumes/job-42/1700000000000-cv.pdf" in
  let document :=
    spread (set "resumeUrl" (JStr (@downloadURL samplePlatform path))
              (dataOf applicationValidated))
           [("submittedAt", JServerTimestamp)] in
  let run :=
    @Actions.applyForJob samplePlatform JNull applicationForm emptyWorld in
  @Zod.safeParse (@Actions.applicationSchema samplePlatform)
    (JObj (Actions.applicationInput applicationForm))
  = Zod.Success applicationValidated
  /\ formGet "resume" applicationForm = JFile "cv.pdf" 48213
  /\ (0 < 48213)%N
  /\ definedFields document = true
  /\ (forall i, failsAt i emptyWorld = false)
  /\ get "jobId" (fromEntries applicationForm) = JStr "job-42"
  /\ decimal (dateNow emptyWorld) = "1700000000000"
  /\ get "resumeUrl" document = JStr (@downloadURL samplePlatform path)
  /\ calls (snd run)
     = calls emptyWorld
       ++ [ UploadBytes path "cv.pdf" 48213; GetDownloadURL path;
            AddDoc "applications" document ]
  /\ In {| filePath := path; fileName := "cv.pdf"; fileSize := 48213 |}
        (bucket (snd run))
  /\ fst run
     = Return (result true
                 "Application submitted successfully! We will get back to you soon.")
  /\ store (snd run) "applications"
     = store emptyWorld "applications"
       ++ [ {| docId := ("doc" ++ decimal (nextId emptyWorld))%string;
               docData := resolved (serverTime emptyWorld) document |} ].
Proof.
  assert (Hs : @Zod.safeParse (@Actions.applicationSchema samplePlatform)
                 (JObj (Actions.applicationInput applicationForm))
               = Zod.Success applicationValidated)
    by (vm_compute; reflexivity).
  assert (Hf : forall i, failsAt i emptyWorld = false)
    by (intros [|[|i]]; reflexivity).
  destruct (@applyForJob_uploads_resume_first samplePlatform JNull
              applicationForm applicationValidated "cv.pdf" 48213 emptyWorld
              Hs eq_refl eq_refl)
    as (jobId & Hjob & Hurl & _ & _ & Hrun).
  assert (Ej : jobId = "job-42") by (vm_compute in Hjob; congruence).
  subst jobId.
  destruct (Hrun (Hf 0%nat) (Hf 1%nat)) as (Hcalls & Hbucket & Hok).
  destruct (Hok eq_refl (Hf 2%nat)) as (Hres & Hstore).
  cbv zeta.
  split; [exact Hs|]. split; [reflexivity|]. split; [reflexivity|].
  split; [reflexivity|]. split; [exact Hf|]. split; [reflexivity|].
  split; [reflexivity|]. split; [exact Hurl|]. split; [exact Hcalls|].
  split; [exact Hbucket|]. split; [exact Hres | exact Hstore].
Defined.

(** The same application when the storage is down, and when it answers. *)
Example applyForJob_examples :
  (let run := @Actions.applyForJob samplePlatform JNull applicationForm
                (withFaults [true] emptyWorld) in
   fst run = Return (result false
                       "Failed to submit application. Please try again.")
   /\ store (snd run) "applications" = []
   /\ calls (snd run)
      = [UploadBytes "resumes/job-42/1700000000000-cv.pdf" "cv.pdf" 48213])
  /\ (let run := @Actions.applyForJob samplePlatform JNull applicationForm
                   emptyWorld in
      map (fun d => get "resumeUrl" (docData d))
          (store (snd run) "applications")
      = [JStr "https://storage.example/resumes/job-42/1700000000000-cv.pdf"]).
Proof. repeat split; vm_compute; reflexivity. Qed.

(* ================================================================== *)
(** ** From the submissions to the views *)
(* ================================================================== *)

(** What validation makes of an accepted line item. *)
Lemma accepted_lineItem_value (item : jsval) :
  accepted Actions.earningSchema item = true ->
  exists d a,
    Zod.value (Actions.earningSchema item)
    = JObj [("description", JStr d); ("amount", JNum a)]
    /\ isNaN a = false /\ ltb a (ofN 1) = false.
Proof.
  intros Hacc. apply accepted_status in Hacc.
  destruct item as [ | | | | | | fields | | | ]; try discriminate.
  unfold Actions.earningSchema in *.
  rewrite ZodFacts.object_status in Hacc.
  pose proof (ZodFacts.properties_valid _ _ Hacc) as Hall.
  pose proof (Hall "description" _ (or_introl eq_refl)) as Hd.
  pose proof (Hall "amount" _ (or_intror (or_introl eq_refl))) as Ha.
  apply ZodObjects.string_valid in Hd. destruct Hd as (d & _ & Hdv & _).
  apply ZodObjects.coerce_number_valid in Ha. destruct Ha as (Hn & Hav & Hc).
  specialize (Hc _ (or_introl eq_refl)). cbn [Zod.test Zod.nmin] in Hc.
  apply negb_true_iff in Hc.
  exists d, (Number (get "amount" fields)).
  split; [| split; assumption].
  rewrite ZodFacts.object_value, !ZodFacts.properties_cons.
  unfold Zod.outputOf. cbn [fst snd Zod.properties]. now rewrite Hdv, Hav.
Qed.

(** The documents [submitEarnings] writes carry a numeric amount: the
    collection it fills is one the dashboard can total. *)
Lemma written_earnings_have_amounts (time : N) (e n : jsval) (k : N)
      (items : list jsval) :
  forallb (accepted Actions.earningSchema) items = true ->
  forallb amountIsNumberOrMissing (earningDocuments time e n k items) = true.
Proof.
  revert k. induction items as [|x l IH]; intros k Hok; [reflexivity|].
  cbn [forallb] in Hok. apply andb_true_iff in Hok. destruct Hok as [Hx Hl].
  cbn [earningDocuments forallb]. rewrite (IH (N.succ k) Hl), andb_true_r.
  destruct (accepted_lineItem_value x Hx) as (d & a & Hv & Hn & _).
  rewrite Hv. unfold amountIsNumberOrMissing. cbn [docData].
  unfold Actions.earningDocument.
  cbn [dataOf spread fold_left set fst snd String.eqb Ascii.eqb Bool.eqb
       resolved map get].
  now rewrite Hn.
Qed.

(** A day's run: the form refuses readings that go backwards before any
    call to the server; two earnings submitted, then totalled. *)
Example submissions_then_views :
  DsrPage.handleSubmit (Some sampleUser)
    (travelledForm "Visited two client sites" (num 15000) (num 14900))
    emptyWorld
  = (Return None, emptyWorld)
  /\ fst (Dashboard.fetchData sampleUser Dashboard.initialStats
            (snd (Actions.submitEarnings (JObj (earningsSubmission twoItems))
                    emptyWorld)))
     = Return (Some {| Dashboard.dsrCount := 0; Dashboard.callCount := 0;
                       Dashboard.totalEarnings := num 51200;
                       Dashboard.pendingTasks := 0 |}).
Proof. split; vm_compute; reflexivity. Qed.

(* ================================================================== *)
(** ** Handlers that validate and write one document *)
(* ================================================================== *)

Lemma get_resolved (time : N) (k : string) (o : object) :
  get k (resolved time o)
  = match get k o with
    | JServerTimestamp => JTimestamp time
    | v => v
    end.
Proof.
  induction o as [|[k' v] o IH]; [reflexivity|].
  cbn [resolved map get fst snd].
  destruct v; cbn [fst snd get]; destruct (String.eqb k k'); auto.
Qed.

Lemma get_spread_one (k k' : string) (v : jsval) (a : object) :
  get k (spread a [(k', v)]) = if String.eqb k k' then v else get k a.
Proof.
  rewrite spread_cons, spread_nil.
  destruct (String.eqb k k') eqn:E.
  - apply String.eqb_eq in E. subst. apply get_set_same.
  - now apply get_set_other.
Qed.

Lemma accepted_success (t : Zod.ZodType) (v : jsval) :
  accepted t v = true ->
  Zod.safeParse t v = Zod.Success (Zod.value (t v)).
Proof.
  unfold accepted, Zod.safeParse.
  destruct (Zod.status (t v)); [reflexivity | discriminate | discriminate].
Qed.

Lemma accepted_failure (t : Zod.ZodType) (v : jsval) :
  accepted t v = false ->
  Zod.safeParse t v = Zod.Failure (Zod.issues (t v)).
Proof.
  unfold accepted, Zod.safeParse.
  destruct (Zod.status (t v)); [discriminate | reflexivity | reflexivity].
Qed.

(** [try { await addDoc(c, doc); return ok } catch { return ko }] when the
    store rejects the write. *)
Lemma write_rejected (c : string) (doc : object) (ok ko : ActionResult)
      (w : World) :
  failsAt 0 w = true ->
  tryCatch (addDoc c doc ;; ret ok) (fun _ => ret ko) w
  = (Return ko, afterCall (AddDoc c doc) w).
Proof.
  intros Hf. unfold tryCatch, bind. now rewrite (addDoc_fails c doc w Hf).
Qed.

(** ... and when it takes it. *)
Lemma write_accepted (c : string) (doc : object) (ok ko : ActionResult)
      (w : World) :
  failsAt 0 w = false ->
  tryCatch (addDoc c doc ;; ret ok) (fun _ => ret ko) w
  = (Return ok, added c doc w).
Proof.
  intros Hf. unfold tryCatch, bind. now rewrite (addDoc_ok c doc w Hf).
Qed.

Section SingleWrite.

Context `{Platform}.

(** X1 -- when the store rejects the write, each handler that stores one
    document reports its own failure message; the attempted write is the
    only call it made, and nothing is stored. *)
Theorem rejected_write_is_reported (w : World) :
  failsAt 0 w = true ->
  (forall data, accepted Actions.dsrSchema data = true ->
     reported w (Actions.submitDsr data w) "Failed to submit DSR." "dsr")
  /\ (forall data, accepted Actions.callLogSchema data = true ->
        reported w (Actions.logCall data w) "Failed to log call." "callLogs")
  /\ (forall data, accepted Actions.attendanceSchema data = true ->
        reported w (Actions.markAttendance data w)
          "Failed to mark attendance." "attendance")
  /\ (forall data, accepted Actions.membershipApplicationSchema data = true ->
        reported w (Actions.applyForMembership data w)
          "Failed to submit application. Please try again." "memberships")
  /\ (forall data, accepted Actions.jobSchema data = true ->
        reported w (Actions.addJob data w)
          "Failed to add job. Please try again." "jobs").
Proof.
  intros Hf. unfold reported.
  split; [| split; [| split; [| split]]];
    intros data Hacc; apply accepted_success in Hacc.
  - unfold Actions.submitDsr. rewrite Hacc, (write_rejected _ _ _ _ w Hf).
    repeat split. eexists. reflexivity.
  - unfold Actions.logCall. rewrite Hacc, (write_rejected _ _ _ _ w Hf).
    repeat split. eexists. reflexivity.
  - unfold Actions.markAttendance.
    rewrite Hacc, (write_rejected _ _ _ _ w Hf).
    repeat split. eexists. reflexivity.
  - unfold Actions.applyForMembership. rewrite Hacc.
    unfold tryCatch, bind. rewrite (addDoc_fails _ _ w Hf).
    repeat split. eexists. reflexivity.
  - unfold Actions.addJob. rewrite Hacc.
    unfold tryCatch, bind. rewrite (addDoc_fails _ _ w Hf).
    repeat split. eexists. reflexivity.
Qed.

End SingleWrite.

Lemma rejected_write_is_reported_witness :
  let w := withFaults [true] emptyWorld in
  failsAt 0 w = true
  /\ reported w
       (Actions.submitDsr
          (travelledDsr "Visited two client sites" (num 15000) (num 15100)) w)
       "Failed to submit DSR." "dsr"
  /\ reported w
       (Actions.logCall
          (JObj (callLog "Ravi Kumar" "9876543210" "Renewal" (JStr "15"))) w)
       "Failed to log call." "callLogs"
  /\ reported w
       (Actions.markAttendance (JObj (attendance (JStr "leave"))) w)
       "Failed to mark attendance." "attendance"
  /\ reported w
       (@Actions.applyForMembership samplePlatform
          (JObj (membershipForm "UTR1234567890")) w)
       "Failed to submit application. Please try again." "memberships"
  /\ reported w
       (Actions.addJob (JObj (sampleJob (JStr "20000") (JStr "sales"))) w)
       "Failed to add job. Please try again." "jobs".
Proof.
  split; [reflexivity|].
  destruct (@rejected_write_is_reported samplePlatform
              (withFaults [true] emptyWorld) eq_refl)
    as (Hd & Hc & Ha & Hm & Hj).
  split; [apply Hd; vm_compute; reflexivity|].
  split; [apply Hc; vm_compute; reflexivity|].
  split; [apply Ha; vm_compute; reflexivity|].
  split; [apply Hm; vm_compute; reflexivity|].
  apply Hj; vm_compute; reflexivity.
Defined.

(** A property that is not valid makes the object invalid, and its
    messages are reported under its key. *)
Lemma object_rejects (shape : list (string * Zod.ZodType)) (o : object)
      (k : string) (t : Zod.ZodType) (m : string) :
  In (k, t) shape -> Zod.status (t (get k o)) <> Zod.Valid ->
  In {| Zod.path := []; Zod.message := m |} (Zod.issues (t (get k o))) ->
  Zod.safeParse (Zod.object_ shape) (JObj o)
  = Zod.Failure (Zod.issuesOf (Zod.properties shape o))
  /\ In m (Zod.messagesOf k
             (Zod.fieldErrors (Zod.issuesOf (Zod.properties shape o)))).
Proof.
  intros Hin Hbad Hm. split.
  - exact (ZodFacts.safeParse_property_invalid shape o k t Hin Hbad).
  - pose proof (ZodFacts.properties_issue shape o k t _ Hin Hm) as Hrep.
    exact (ZodFacts.fieldErrors_reports k m [] _ Hrep).
Qed.

(** A number below the minimum of a coerced field. *)
Lemma coerce_number_below (k : number) (m : string) (v : jsval) :
  ltb (Number v) k = true ->
  Zod.status (Zod.coerce_number [Zod.nmin k m] v) <> Zod.Valid
  /\ In {| Zod.path := []; Zod.message := m |}
        (Zod.issues (Zod.coerce_number [Zod.nmin k m] v)).
Proof.
  intros Hlt. unfold Zod.coerce_number.
  destruct (isNaN (Number v)) eqn:En.
  - destruct (Number v); discriminate.
  - unfold Zod.checked, Zod.failing.
    cbn [filter Zod.test Zod.nmin]. rewrite Hlt.
    cbn [negb map Zod.msg Zod.status Zod.issues].
    split; [discriminate | left; reflexivity].
Qed.

(** X2 -- [logCall] refuses a duration below one minute: the result carries the
    message under [duration], and nothing is written nor called. *)
Theorem logCall_refuses_duration_below_one (o : object) (w : World) :
  ltb (Number (get "duration" o)) (ofN 1) = true ->
  exists error,
    Actions.logCall (JObj o) w = (Return (invalid "Invalid data." error), w)
    /\ In "Duration must be at least 1 minute."
          (Zod.messagesOf "duration" (Zod.fieldErrors error)).
Proof.
  intros Hlt.
  destruct (coerce_number_below (ofN 1) "Duration must be at least 1 minute."
              (get "duration" o) Hlt) as [Hbad Hm].
  unfold Actions.logCall, Actions.callLogSchema.
  match goal with
  | |- context [Zod.safeParse (Zod.object_ ?sh) _] => set (shape := sh) in *
  end.
  assert (Hin : In ("duration",
                    Zod.coerce_number
                      [Zod.nmin (ofN 1) "Duration must be at least 1 minute."])
                   shape) by (subst shape; simpl; tauto).
  clearbody shape.
  destruct (object_rejects shape o _ _ _ Hin Hbad Hm) as [Hp Hrep].
  rewrite Hp. eexists. split; [reflexivity | exact Hrep].
Qed.

Lemma logCall_refuses_duration_below_one_witness :
  ltb (Number (get "duration"
                 (callLog "Ravi Kumar" "9876543210" "Renewal" (JStr "0.5"))))
      (ofN 1) = true
  /\ exists error,
      Actions.logCall
        (JObj (callLog "Ravi Kumar" "9876543210" "Renewal" (JStr "0.5")))
        emptyWorld
      = (Return (invalid "Invalid data." error), emptyWorld)
      /\ In "Duration must be at least 1 minute."
            (Zod.messagesOf "duration" (Zod.fieldErrors error)).
Proof.
  split; [vm_compute; reflexivity|].
  apply (logCall_refuses_duration_below_one
           (callLog "Ravi Kumar" "9876543210" "Renewal" (JStr "0.5"))
           emptyWorld).
  vm_compute; reflexivity.
Defined.


Lemma output_flat_map (shape : list (string * Zod.ZodType)) (o : object) :
  Zod.outputOf (Zod.properties shape o) = flat_map (outputs o) shape.
Proof.
  induction shape as [|[k t] shape IH]; [reflexivity|].
  rewrite ZodFacts.properties_cons. unfold Zod.outputOf at 1.
  cbn [fst snd flat_map]. rewrite <- IH. unfold outputs. cbn [fst snd].
  destruct (Zod.value (t (get k o))); try reflexivity.
  destruct (has k o); reflexivity.
Qed.

Lemma min_accepts (n : nat) (m s : string) :
  (n <= String.length s)%nat ->
  Zod.string_ [Zod.min n m] (JStr s) = Zod.OK (JStr s).
Proof.
  intros Hl. apply ZodObjects.string_accepts.
  cbn [forallb Zod.test Zod.min]. rewrite andb_true_r. now apply Nat.leb_le.
Qed.

Lemma nmin_accepts (k : number) (m : string) (v : jsval) :
  isNaN (Number v) = false -> ltb (Number v) k = false ->
  Zod.coerce_number [Zod.nmin k m] v = Zod.OK (JNum (Number v)).
Proof.
  intros Hn Hl. apply (ZodObjects.coerce_number_accepts _ _ Hn).
  cbn [forallb Zod.test Zod.nmin]. now rewrite Hl.
Qed.

Lemma callLog_validated (o : object) (n m t e en : string) :
  get "clientName" o = JStr n -> (2 <= String.length n)%nat ->
  get "clientMobile" o = JStr m -> (10 <= String.length m)%nat ->
  get "topic" o = JStr t -> (5 <= String.length t)%nat ->
  isNaN (Number (get "duration" o)) = false ->
  ltb (Number (get "duration" o)) (ofN 1) = false ->
  get "employeeId" o = JStr e -> get "employeeName" o = JStr en ->
  Zod.safeParse Actions.callLogSchema (JObj o)
  = Zod.Success
      (JObj [ ("clientName", JStr n); ("clientMobile", JStr m);
              ("topic", JStr t);
              ("duration", JNum (Number (get "duration" o)));
              ("employeeId", JStr e); ("employeeName", JStr en) ]).
Proof.
  intros Hn Ln Hm Lm Ht Lt Hd Ld He Hen.
  unfold Actions.callLogSchema.
  match goal with
  | |- context [Zod.safeParse (Zod.object_ ?sh) _] => set (shape := sh)
  end.
  assert (Hall : Forall (fun kt => Zod.status (snd kt (get (fst kt) o))
                                   = Zod.Valid) shape).
  { subst shape. repeat constructor; cbn [fst snd].
    - now rewrite Hn, (min_accepts _ _ _ Ln).
    - now rewrite Hm, (min_accepts _ _ _ Lm).
    - now rewrite Ht, (min_accepts _ _ _ Lt).
    - now rewrite (nmin_accepts _ _ _ Hd Ld).
    - now rewrite He.
    - now rewrite Hen. }
  assert (Hout : flat_map (outputs o) shape
                 = [ ("clientName", JStr n); ("clientMobile", JStr m);
                     ("topic", JStr t);
                     ("duration", JNum (Number (get "duration" o)));
                     ("employeeId", JStr e); ("employeeName", JStr en) ]).
  { subst shape. unfold outputs. cbn [flat_map fst snd].
    rewrite Hn, Hm, Ht, He, Hen.
    now rewrite (min_accepts _ _ _ Ln), (min_accepts _ _ _ Lm),
      (min_accepts _ _ _ Lt), (nmin_accepts _ _ _ Hd Ld). }
  clearbody shape.
  rewrite (ZodFacts.safeParse_object_valid shape o Hall).
  now rewrite output_flat_map, Hout.
Qed.

Lemma logCall_run (o : object) (n m t e en : string) (w : World) :
  get "clientName" o = JStr n -> (2 <= String.length n)%nat ->
  get "clientMobile" o = JStr m -> (10 <= String.length m)%nat ->
  get "topic" o = JStr t -> (5 <= String.length t)%nat ->
  isNaN (Number (get "duration" o)) = false ->
  ltb (Number (get "duration" o)) (ofN 1) = false ->
  get "employeeId" o = JStr e -> get "employeeName" o = JStr en ->
  failsAt 0 w = false ->
  Actions.logCall (JObj o) w
  = (Return (result true "Call logged successfully."),
     added "callLogs"
       [ ("clientName", JStr n); ("clientMobile", JStr m); ("topic", JStr t);
         ("duration", JNum (Number (get "duration" o)));
         ("employeeId", JStr e); ("employeeName", JStr en);
         ("date", JServerTimestamp) ] w).
Proof.
  intros Hn Ln Hm Lm Ht Lt Hd Ld He Hen Hf. unfold Actions.logCall.
  rewrite (callLog_validated o n m t e en Hn Ln Hm Lm Ht Lt Hd Ld He Hen).
  cbn [dataOf]. rewrite (write_accepted _ _ _ _ w Hf). reflexivity.
Qed.

(** X3 -- a call with well-formed fields and a duration of at least one minute
    is stored as one document of [callLogs]: the six validated fields, the
    duration as a number whatever form it was given in, and the date of the
    store; the other collections are left alone. *)
Theorem logCall_stores_the_call
        (o : object) (n m t e en : string) (w : World) :
  get "clientName" o = JStr n -> (2 <= String.length n)%nat ->
  get "clientMobile" o = JStr m -> (10 <= String.length m)%nat ->
  get "topic" o = JStr t -> (5 <= String.length t)%nat ->
  isNaN (Number (get "duration" o)) = false ->
  ltb (Number (get "duration" o)) (ofN 1) = false ->
  get "employeeId" o = JStr e -> get "employeeName" o = JStr en ->
  failsAt 0 w = false ->
  let run := Actions.logCall (JObj o) w in
  fst run = Return (result true "Call logged successfully.")
  /\ store (snd run) "callLogs"
     = store w "callLogs"
       ++ [ {| docId := ("doc" ++ decimal (nextId w))%string;
               docData :=
                 [ ("clientName", JStr n); ("clientMobile", JStr m);
                   ("topic", JStr t);
                   ("duration", JNum (Number (get "duration" o)));
                   ("employeeId", JStr e); ("employeeName", JStr en);
                   ("date", JTimestamp (serverTime w)) ] |} ]
  /\ (forall c, String.eqb c "callLogs" = false ->
        store (snd run) c = store w c).
Proof.
  intros Hn Ln Hm Lm Ht Lt Hd Ld He Hen Hf run. subst run.
  rewrite (logCall_run o n m t e en w Hn Ln Hm Lm Ht Lt Hd Ld He Hen Hf).
  cbn [fst snd]. split; [reflexivity|]. split.
  - now rewrite store_added_same.
  - intros c Hc. now apply store_added_other.
Qed.

Lemma logCall_stores_the_call_witness :
  let o := callLog "Ravi Kumar" "9876543210" "Renewal" (JStr "15") in
  let run := Actions.logCall (JObj o) emptyWorld in
  fst run = Return (result true "Call logged successfully.")
  /\ store (snd run) "callLogs"
     = store emptyWorld "callLogs"
       ++ [ {| docId := ("doc" ++ decimal (nextId emptyWorld))%string;
               docData :=
                 [ ("clientName", JStr "Ravi Kumar");
                   ("clientMobile", JStr "9876543210");
                   ("topic", JStr "Renewal");
                   ("duration", JNum (Number (get "duration" o)));
                   ("employeeId", JStr "emp-1"); ("employeeName", JStr "Asha");
                   ("date", JTimestamp (serverTime emptyWorld)) ] |} ]
  /\ (forall c, String.eqb c "callLogs" = false ->
        store (snd run) c = store emptyWorld c).
Proof.
  apply (logCall_stores_the_call
           (callLog "Ravi Kumar" "9876543210" "Renewal" (JStr "15"))
           "Ravi Kumar" "9876543210" "Renewal" "emp-1" "Asha" emptyWorld);
    try reflexivity; try (simpl; lia); vm_compute; reflexivity.
Defined.

(* ================================================================== *)
(** ** What the schemas accept *)
(* ================================================================== *)

(** An object is accepted exactly when each property of the shape is. *)
Lemma accepted_object (shape : list (string * Zod.ZodType)) (o : object) :
  accepted (Zod.object_ shape) (JObj o)
  = forallb (fun kt => accepted (snd kt) (get (fst kt) o)) shape.
Proof.
  destruct (forallb (fun kt => accepted (snd kt) (get (fst kt) o)) shape)
    eqn:E.
  - apply accepted_status. rewrite ZodFacts.object_status.
    apply ZodFacts.properties_all_valid. apply Forall_forall.
    intros kt Hkt. apply accepted_status.
    rewrite forallb_forall in E. now apply E.
  - destruct (accepted (Zod.object_ shape) (JObj o)) eqn:A; [|reflexivity].
    apply accepted_status in A. rewrite ZodFacts.object_status in A.
    pose proof (ZodFacts.properties_valid shape o A) as Hall.
    assert (forallb (fun kt => accepted (snd kt) (get (fst kt) o)) shape
            = true); [|congruence].
    apply forallb_forall. intros [k t] Hkt. apply accepted_status.
    exact (Hall k t Hkt).
Qed.

Lemma accepted_string (checks : list (Zod.Check string)) (s : string) :
  accepted (Zod.string_ checks) (JStr s)
  = forallb (fun c => Zod.test c s) checks.
Proof.
  unfold accepted, Zod.safeParse, Zod.string_, Zod.checked, Zod.failing.
  cbn [Zod.status].
  induction checks as [|c checks IH]; [reflexivity|].
  cbn [filter forallb]. destruct (Zod.test c s); cbn [negb andb map].
  - exact IH.
  - reflexivity.
Qed.

Lemma accepted_not_string (checks : list (Zod.Check string)) (v : jsval) :
  (forall s, v <> JStr s) -> accepted (Zod.string_ checks) v = false.
Proof.
  intros Hv. destruct v; try reflexivity. now elim (Hv s).
Qed.

Section ContactForm.

Context `{Platform}.

(** X4 -- the contact form stores nothing and calls no service, whatever it is
    sent; it answers with success exactly when the schema accepts the
    message, that is, for four strings, when the name has at least 2
    characters, the address is an e-mail address, the subject has at least
    5 characters and the message at least 10. *)
Theorem submitContactForm_has_no_effect :
  (forall (data : jsval) (w : World),
      snd (Actions.submitContactForm data w) = w
      /\ exists r,
          fst (Actions.submitContactForm data w) = Return r
          /\ success r = accepted Actions.contactFormSchema data)
  /\ (forall (o : object) (n e s m : string),
         get "name" o = JStr n -> get "email" o = JStr e ->
         get "subject" o = JStr s -> get "message" o = JStr m ->
         accepted Actions.contactFormSchema (JObj o)
         = (2 <=? String.length n)%nat && isEmail e
           && (5 <=? String.length s)%nat && (10 <=? String.length m)%nat).
Proof.
  split.
  - intros data w. unfold Actions.submitContactForm, accepted.
    destruct (Zod.safeParse Actions.contactFormSchema data);
      (split; [reflexivity | eexists; split; reflexivity]).
  - intros o n e s m Hn He Hs Hm. unfold Actions.contactFormSchema.
    rewrite accepted_object. cbn [forallb fst snd].
    rewrite Hn, He, Hs, Hm, !accepted_string.
    cbn [forallb Zod.test Zod.min Zod.email].
    now rewrite !andb_true_r, !andb_assoc.
Qed.

End ContactForm.

(** A message that is taken, and one with too short a subject. *)
Example submitContactForm_examples :
  @Actions.submitContactForm samplePlatform
    (JObj [ ("name", JStr "Meera"); ("email", JStr "meera@example.org");
            ("subject", JStr "Opening hours");
            ("message", JStr "When is the office open?") ])
    emptyWorld
  = (Return (result true
               "Thank you for your message! We will get back to you soon."),
     emptyWorld)
  /\ @Actions.submitContactForm samplePlatform
       (JObj [ ("name", JStr "Meera"); ("email", JStr "meera@example.org");
               ("subject", JStr "Hi");
               ("message", JStr "When is the office open?") ])
       emptyWorld
     = (Return {| success := false; message := "Invalid form data.";
                  errors := Some [("subject",
                                   ["Subject must be at least 5 characters."])];
                  details := [] |},
        emptyWorld).
Proof. split; vm_compute; reflexivity. Qed.

(** X5 -- [markAttendance] takes the two statuses only: with any other status
    it answers "Invalid data.", with no field errors, and neither writes
    nor calls anything. *)
Theorem markAttendance_refuses_other_statuses (o : object) (w : World) :
  get "status" o <> JStr "working" -> get "status" o <> JStr "leave" ->
  Actions.markAttendance (JObj o) w
  = (Return {| success := false; message := "Invalid data.";
               errors := None; details := [] |}, w).
Proof.
  intros Hw Hl. unfold Actions.markAttendance.
  assert (Hacc : accepted Actions.attendanceSchema (JObj o) = false).
  { unfold Actions.attendanceSchema. rewrite accepted_object.
    cbn [forallb fst snd].
    assert (Hs : accepted (Zod.enum ["working"; "leave"]) (get "status" o)
                 = false).
    { destruct (get "status" o) as [ | | | | s | | | | | ]; try reflexivity.
      unfold accepted, Zod.safeParse, Zod.enum. cbn [existsb].
      destruct (String.eqb s "working") eqn:E1.
      - apply String.eqb_eq in E1. subst. now elim Hw.
      - destruct (String.eqb s "leave") eqn:E2; [|reflexivity].
        apply String.eqb_eq in E2. subst. now elim Hl. }
    now rewrite Hs. }
  now rewrite (accepted_failure _ _ Hacc).
Qed.

Lemma markAttendance_refuses_other_statuses_witness :
  get "status" (attendance (JStr "sick")) <> JStr "working"
  /\ get "status" (attendance (JStr "sick")) <> JStr "leave"
  /\ Actions.markAttendance (JObj (attendance (JStr "sick"))) emptyWorld
     = (Return {| success := false; message := "Invalid data.";
                  errors := None; details := [] |}, emptyWorld).
Proof.
  split; [discriminate|]. split; [discriminate|].
  apply (markAttendance_refuses_other_statuses (attendance (JStr "sick"))
           emptyWorld); discriminate.
Defined.

(** Reading a field of the document a handler writes from validated data
    and the date of the store. *)
Lemma get_dated (time : N) (k : string) (data : object) :
  get k (resolved time (spread data [("date", JServerTimestamp)]))
  = if String.eqb k "date" then JTimestamp time
    else match get k data with
         | JServerTimestamp => JTimestamp time
         | v => v
         end.
Proof.
  rewrite get_resolved, get_spread_one.
  destruct (String.eqb k "date"); reflexivity.
Qed.

Lemma accepted_value_object (shape : list (string * Zod.ZodType))
      (o : object) :
  accepted (Zod.object_ shape) (JObj o) = true ->
  Zod.safeParse (Zod.object_ shape) (JObj o)
  = Zod.Success (JObj (Zod.outputOf (Zod.properties shape o))).
Proof.
  intros Hacc. rewrite (accepted_success _ _ Hacc).
  now rewrite ZodFacts.object_value.
Qed.

(** X6 -- an attendance record of one of the two statuses, with its tasks given
    as text or left out, is stored as one document of [attendance] that
    carries the status, the tasks, the employee and the date of the
    store. *)
Theorem markAttendance_stores_the_day
        (o : object) (s e en : string) (w : World) :
  get "status" o = JStr s -> s = "working" \/ s = "leave" ->
  get "tasks" o = JUndefined \/ (exists t, get "tasks" o = JStr t) ->
  get "employeeId" o = JStr e -> get "employeeName" o = JStr en ->
  failsAt 0 w = false ->
  let run := Actions.markAttendance (JObj o) w in
  fst run = Return (result true "Attendance marked successfully.")
  /\ exists doc,
      store (snd run) "attendance"
      = store w "attendance"
        ++ [ {| docId := ("doc" ++ decimal (nextId w))%string;
                docData := doc |} ]
      /\ get "status" doc = JStr s
      /\ get "tasks" doc = get "tasks" o
      /\ get "employeeId" doc = JStr e
      /\ get "employeeName" doc = JStr en
      /\ get "date" doc = JTimestamp (serverTime w).
Proof.
  intros Hs Hws Ht He Hen Hf run. subst run.
  unfold Actions.markAttendance, Actions.attendanceSchema.
  match goal with
  | |- context [Zod.safeParse (Zod.object_ ?sh) _] => set (shape := sh)
  end.
  assert (Hnd : NoDup (map fst shape)).
  { subst shape. simpl. repeat constructor; simpl; intuition discriminate. }
  assert (H1 : In ("status", Zod.enum ["working"; "leave"]) shape)
    by (subst shape; simpl; tauto).
  assert (H2 : In ("tasks", Zod.optional (Zod.string_ [])) shape)
    by (subst shape; simpl; tauto).
  assert (H3 : In ("employeeId", Zod.string_ []) shape)
    by (subst shape; simpl; tauto).
  assert (H4 : In ("employeeName", Zod.string_ []) shape)
    by (subst shape; simpl; tauto).
  assert (Hacc : accepted (Zod.object_ shape) (JObj o) = true).
  { rewrite accepted_object. subst shape. cbn [forallb fst snd].
    rewrite Hs, He, Hen.
    destruct Hws as [-> | ->], Ht as [-> | [t ->]]; reflexivity. }
  clearbody shape.
  rewrite (accepted_value_object shape o Hacc). cbn [dataOf].
  rewrite (write_accepted _ _ _ _ w Hf). cbn [fst snd].
  split; [reflexivity|]. eexists. split; [apply store_added_same|].
  rewrite !get_dated. cbn [String.eqb Ascii.eqb Bool.eqb].
  rewrite (ZodObjects.output_get shape o _ _ Hnd H1),
    (ZodObjects.output_get shape o _ _ Hnd H2),
    (ZodObjects.output_get shape o _ _ Hnd H3),
    (ZodObjects.output_get shape o _ _ Hnd H4).
  rewrite Hs, He, Hen.
  repeat split.
  - destruct Hws as [-> | ->]; reflexivity.
  - destruct Ht as [-> | [t ->]]; reflexivity.
Qed.

Lemma markAttendance_stores_the_day_witness :
  let run :=
    Actions.markAttendance (JObj (attendance (JStr "working"))) emptyWorld in
  fst run = Return (result true "Attendance marked successfully.")
  /\ exists doc,
      store (snd run) "attendance"
      = store emptyWorld "attendance"
        ++ [ {| docId := ("doc" ++ decimal (nextId emptyWorld))%string;
                docData := doc |} ]
      /\ get "status" doc = JStr "working"
      /\ get "tasks" doc = get "tasks" (attendance (JStr "working"))
      /\ get "employeeId" doc = JStr "emp-1"
      /\ get "employeeName" doc = JStr "Asha"
      /\ get "date" doc = JTimestamp (serverTime emptyWorld).
Proof.
  apply (markAttendance_stores_the_day (attendance (JStr "working"))
           "working" "emp-1" "Asha" emptyWorld);
    try reflexivity; [left; reflexivity | right; eexists; reflexivity].
Defined.

(* ================================================================== *)
(** ** Posting a job *)
(* ================================================================== *)

Lemma faithful_string (checks : list (Zod.Check string)) :
  faithful (Zod.string_ checks).
Proof.
  intros v Hv. destruct v; try discriminate. reflexivity.
Qed.

Lemma faithful_optional (t : Zod.ZodType) :
  faithful t -> faithful (Zod.optional t).
Proof. intros Ht v Hv. destruct v; try reflexivity; now apply Ht. Qed.

Lemma faithful_refine (t : Zod.ZodType) (check : jsval -> bool)
      (m : string) (p : list Zod.PathSeg) :
  faithful t -> faithful (Zod.refine t check m p).
Proof.
  intros Ht v. unfold Zod.refine.
  destruct (Zod.status (t v)) eqn:Es.
  - destruct (check (Zod.value (t v)));
      [intros _; now apply Ht | discriminate].
  - destruct (check (Zod.value (t v))); [congruence | discriminate].
  - congruence.
Qed.

Lemma faithful_enum (values : list string) : faithful (Zod.enum values).
Proof.
  intros v. destruct v; try discriminate. unfold Zod.enum.
  destruct (existsb (String.eqb s) values); [reflexivity | discriminate].
Qed.

(** In the output of an accepted object, a property whose schema is
    faithful reads as in the input. *)
Lemma accepted_get (shape : list (string * Zod.ZodType)) (o : object)
      (k : string) (t : Zod.ZodType) :
  NoDup (map fst shape) -> In (k, t) shape -> faithful t ->
  accepted (Zod.object_ shape) (JObj o) = true ->
  get k (Zod.outputOf (Zod.properties shape o)) = get k o.
Proof.
  intros Hnd Hin Hft Hacc.
  rewrite (ZodObjects.output_get shape o k t Hnd Hin). apply Hft.
  apply accepted_status in Hacc. rewrite ZodFacts.object_status in Hacc.
  exact (ZodFacts.properties_valid shape o Hacc k t Hin).
Qed.

Lemma calls_added (c : string) (data : object) (w : World) :
  calls (added c data w) = calls w ++ [AddDoc c data].
Proof. reflexivity. Qed.

Lemma jobSchema_keys :
  NoDup [ "title"; "company"; "location"; "type"; "workMode";
          "experienceMin"; "experienceMax"; "salaryMin"; "salaryMax";
          "department"; "companyType"; "roleCategory"; "education";
          "industry"; "description"; "tags" ].
Proof.
  repeat constructor; cbn [In]; intuition discriminate.
Qed.

Lemma optional_below (k : number) (m : string) (v : jsval) :
  ltb (Number v) k = true ->
  Zod.status (Zod.optional (Zod.coerce_number [Zod.nmin k m]) v) <> Zod.Valid
  /\ In {| Zod.path := []; Zod.message := m |}
        (Zod.issues (Zod.optional (Zod.coerce_number [Zod.nmin k m]) v)).
Proof.
  intros Hlt. destruct v; try exact (coerce_number_below k m _ Hlt).
  destruct k; discriminate.
Qed.

(** X8 -- a job with a negative lower or upper bound of experience or salary is
    refused: the result carries the library's message under the field, and
    nothing is written nor called. *)
Theorem addJob_refuses_negative_bounds (o : object) (k : string) (w : World) :
  In k ["experienceMin"; "experienceMax"; "salaryMin"; "salaryMax"] ->
  ltb (Number (get k o)) (ofN 0) = true ->
  exists error,
    Actions.addJob (JObj o) w
    = (Return (invalid "Invalid job data. Please check all fields." error), w)
    /\ In "Number must be greater than or equal to 0"
          (Zod.messagesOf k (Zod.fieldErrors error)).
Proof.
  intros Hk Hlt.
  destruct (optional_below (ofN 0) "Number must be greater than or equal to 0"
              (get k o) Hlt) as [Hbad Hm].
  unfold Actions.addJob, Actions.jobSchema.
  match goal with
  | |- context [Zod.safeParse (Zod.object_ ?sh) _] => set (shape := sh) in *
  end.
  assert (Hin : In (k, Actions.notNegative) shape).
  { subst shape. cbn [In] in *.
    destruct Hk as [<- | [<- | [<- | [<- | []]]]]; tauto. }
  clearbody shape.
  destruct (object_rejects shape o _ _ _ Hin Hbad Hm) as [Hp Hrep].
  rewrite Hp. eexists. split; [reflexivity | exact Hrep].
Qed.

Lemma addJob_refuses_negative_bounds_witness :
  In "salaryMin" ["experienceMin"; "experienceMax"; "salaryMin"; "salaryMax"]
  /\ ltb (Number (get "salaryMin" (sampleJob (JStr "-1") JUndefined))) (ofN 0)
     = true
  /\ exists error,
      Actions.addJob (JObj (sampleJob (JStr "-1") JUndefined)) emptyWorld
      = (Return (invalid "Invalid job data. Please check all fields." error),
         emptyWorld)
      /\ In "Number must be greater than or equal to 0"
            (Zod.messagesOf "salaryMin" (Zod.fieldErrors error)).
Proof.
  split; [simpl; tauto|]. split; [vm_compute; reflexivity|].
  apply (addJob_refuses_negative_bounds (sampleJob (JStr "-1") JUndefined)
           "salaryMin" emptyWorld);
    [simpl; tauto | vm_compute; reflexivity].
Defined.

(* ================================================================== *)
(** ** The tags of a job *)
(* ================================================================== *)

Lemma split_not_nil (c : ascii) (s : string) : split c s <> [].
Proof.
  destruct s as [|x s]; cbn [split]; [discriminate|].
  destruct (Ascii.eqb x c); [discriminate|].
  destruct (split c s); discriminate.
Qed.

Lemma split_length (c : ascii) (s : string) :
  List.length (split c s) = S (occurrences c s).
Proof.
  induction s as [|x s IH]; [reflexivity|].
  cbn [split occurrences]. destruct (Ascii.eqb x c).
  - cbn [List.length]. now rewrite IH.
  - destruct (split c s) as [|p ps] eqn:E; [now elim (split_not_nil c s)|].
    cbn [List.length] in *. exact IH.
Qed.

Lemma split_pieces (c : ascii) (s : string) :
  Forall (fun piece => occurrences c piece = 0%nat) (split c s).
Proof.
  induction s as [|x s IH]; cbn [split].
  - repeat constructor.
  - destruct (Ascii.eqb x c) eqn:E.
    + constructor; [reflexivity | exact IH].
    + destruct (split c s) as [|p ps]; inversion IH; subst;
        constructor; cbn [occurrences]; try rewrite E; auto.
Qed.

(** Joining the pieces with the separator gives the string back. *)
Lemma split_concat (c : ascii) (s : string) :
  String.concat (String c "") (split c s) = s.
Proof.
  induction s as [|x s IH]; [reflexivity|].
  cbn [split].
  destruct (split c s) as [|p ps] eqn:Es; [now elim (split_not_nil c s)|].
  destruct (Ascii.eqb x c) eqn:E.
  - apply Ascii.eqb_eq in E. subst x.
    change (String.concat (String c "") ("" :: p :: ps))
      with (String c (String.concat (String c "") (p :: ps))).
    now rewrite IH.
  - destruct ps as [|q qs].
    + cbn [String.concat] in *. now rewrite IH.
    + change (String.concat (String c "") (String x p :: q :: qs))
        with (String x (String.concat (String c "") (p :: q :: qs))).
      now rewrite IH.
Qed.

Lemma dropWhile_suffix (p : ascii -> bool) (l : list ascii) :
  exists pre, l = pre ++ StringToNumber.dropWhile p l.
Proof.
  induction l as [|c l [pre IH]]; [now exists []|].
  cbn [StringToNumber.dropWhile]. destruct (p c).
  - exists (c :: pre). cbn [app]. now f_equal.
  - now exists [].
Qed.

Lemma dropWhile_head (p : ascii -> bool) (l : list ascii) (c : ascii)
      (r : list ascii) :
  StringToNumber.dropWhile p l = c :: r -> p c = false.
Proof.
  induction l as [|x l IH]; [discriminate|].
  cbn [StringToNumber.dropWhile]. destruct (p x) eqn:E; [exact IH|].
  intros [= -> _]. exact E.
Qed.

Lemma last_app_one (l : list ascii) (x d : ascii) : last (l ++ [x]) d = x.
Proof.
  induction l as [|y l IH]; [reflexivity|].
  cbn [app]. destruct (l ++ [x]) eqn:E.
  - destruct l; discriminate.
  - cbn [last]. cbn [last] in IH. exact IH.
Qed.

(** A trimmed sequence neither starts nor ends with white space. *)
Lemma trim_edges (l : list ascii) (c : ascii) (r : list ascii) :
  StringToNumber.trim l = c :: r ->
  StringToNumber.isWhiteSpace c = false
  /\ StringToNumber.isWhiteSpace (last r c) = false.
Proof.
  unfold StringToNumber.trim. intros Ht.
  set (l1 := StringToNumber.dropWhile StringToNumber.isWhiteSpace l) in *.
  destruct (dropWhile_suffix StringToNumber.isWhiteSpace (rev l1))
    as [pre Hpre].
  set (y := StringToNumber.dropWhile StringToNumber.isWhiteSpace (rev l1))
    in *.
  assert (Hl1 : l1 = rev y ++ rev pre).
  { rewrite <- rev_app_distr, <- Hpre. now rewrite rev_involutive. }
  split.
  - rewrite Ht in Hl1. cbn [app] in Hl1.
    exact (dropWhile_head _ l _ _ Hl1).
  - destruct y as [|a y'] eqn:Ey; [discriminate|].
    pose proof (dropWhile_head _ (rev l1) a y' Ey) as Ha.
    cbn [rev] in Ht.
    destruct (rev y') as [|b y2] eqn:Er.
    + cbn [app] in Ht. injection Ht as <- <-. exact Ha.
    + cbn [app] in Ht. injection Ht as <- <-.
      now rewrite last_app_one.
Qed.

Lemma trim_sublist (l : list ascii) (c : ascii) :
  In c (StringToNumber.trim l) -> In c l.
Proof.
  unfold StringToNumber.trim. intros Hin.
  apply in_rev in Hin.
  destruct (dropWhile_suffix StringToNumber.isWhiteSpace
              (rev (StringToNumber.dropWhile StringToNumber.isWhiteSpace l)))
    as [pre Hpre].
  assert (In c (rev (StringToNumber.dropWhile StringToNumber.isWhiteSpace l))).
  { rewrite Hpre. apply in_or_app. now right. }
  apply in_rev in H.
  destruct (dropWhile_suffix StringToNumber.isWhiteSpace l) as [pre' Hpre'].
  rewrite Hpre'. apply in_or_app. now right.
Qed.

Lemma occurrences_zero (c : ascii) (s : string) :
  occurrences c s = 0%nat <-> ~ In c (StringToNumber.chars s).
Proof.
  induction s as [|x s IH]; cbn [occurrences StringToNumber.chars
                                  list_ascii_of_string In].
  - tauto.
  - unfold StringToNumber.chars in IH. destruct (Ascii.eqb x c) eqn:E.
    + apply Ascii.eqb_eq in E. subst. split; [discriminate | tauto].
    + apply Ascii.eqb_neq in E. cbn [Nat.add]. tauto.
Qed.

Lemma edgeSpace_trim (s : string) : edgeSpace (js_trim s) = false.
Proof.
  unfold edgeSpace, js_trim, StringToNumber.chars.
  rewrite list_ascii_of_string_of_list_ascii.
  destruct (StringToNumber.trim (list_ascii_of_string s)) as [|c r] eqn:E;
    [reflexivity|].
  destruct (trim_edges _ _ _ E) as [H1 H2]. now rewrite H1, H2.
Qed.

Lemma occurrences_trim (c : ascii) (s : string) :
  occurrences c s = 0%nat -> occurrences c (js_trim s) = 0%nat.
Proof.
  rewrite !occurrences_zero. intros Hs Hin. apply Hs.
  unfold js_trim, StringToNumber.chars in Hin.
  rewrite list_ascii_of_string_of_list_ascii in Hin.
  exact (trim_sublist _ _ Hin).
Qed.

(** X9 -- the tags stored for a job: none when the tags text is missing or
    empty; otherwise one tag more than the text has commas, the empty ones
    included, and no tag contains a comma or starts or ends with white
    space. *)
Theorem tagsArray_are_trimmed_pieces :
  Actions.tagsArray JUndefined = []
  /\ Actions.tagsArray (JStr "") = []
  /\ forall s : string,
      s <> "" ->
      List.length (Actions.tagsArray (JStr s)) = S (occurrences "," s)
      /\ Forall (fun tag => occurrences "," tag = 0%nat /\ edgeSpace tag = false)
                (Actions.tagsArray (JStr s)).
Proof.
  split; [reflexivity|]. split; [reflexivity|].
  intros s Hs. unfold Actions.tagsArray. cbn [truthy stringOf].
  assert (E : String.eqb s "" = false) by now apply String.eqb_neq.
  rewrite E. cbn [negb]. split.
  - now rewrite length_map, split_length.
  - apply Forall_forall. intros tag Hin. apply in_map_iff in Hin.
    destruct Hin as (piece & <- & Hp). split.
    + apply occurrences_trim.
      pose proof (split_pieces "," s) as Hall.
      rewrite Forall_forall in Hall. now apply Hall.
    + apply edgeSpace_trim.
Qed.

Example tagsArray_examples :
  Actions.tagsArray (JStr " react , node,, ts ") = ["react"; "node"; ""; "ts"]
  /\ Actions.tagsArray (JStr "sales") = ["sales"]
  /\ Actions.tagsArray (JStr ",") = [""; ""].
Proof. repeat split. Qed.

Lemma dropWhile_split (p : ascii -> bool) (l : list ascii) :
  exists pre, l = pre ++ StringToNumber.dropWhile p l /\ forallb p pre = true.
Proof.
  induction l as [|c l (pre & IH & Hp)]; [now exists []|].
  cbn [StringToNumber.dropWhile]. destruct (p c) eqn:E.
  - exists (c :: pre). cbn [app forallb]. rewrite E, Hp. split; [|reflexivity].
    now f_equal.
  - now exists [].
Qed.

(** A sequence is its trimmed part between two runs of white space. *)
Lemma trim_between (l : list ascii) :
  exists pre post,
    l = pre ++ StringToNumber.trim l ++ post
    /\ forallb StringToNumber.isWhiteSpace pre = true
    /\ forallb StringToNumber.isWhiteSpace post = true.
Proof.
  unfold StringToNumber.trim.
  destruct (dropWhile_split StringToNumber.isWhiteSpace l)
    as (pre & Hl & Hpre).
  set (l1 := StringToNumber.dropWhile StringToNumber.isWhiteSpace l) in *.
  destruct (dropWhile_split StringToNumber.isWhiteSpace (rev l1))
    as (post & Hr & Hpost).
  set (y := StringToNumber.dropWhile StringToNumber.isWhiteSpace (rev l1))
    in *.
  exists pre, (rev post). split; [| split].
  - rewrite <- rev_app_distr, <- Hr, rev_involutive. exact Hl.
  - exact Hpre.
  - apply forallb_forall. intros c Hc. apply in_rev in Hc.
    rewrite forallb_forall in Hpost. now apply Hpost.
Qed.

Lemma string_of_list_ascii_append (l1 l2 : list ascii) :
  string_of_list_ascii (l1 ++ l2)
  = (string_of_list_ascii l1 ++ string_of_list_ascii l2)%string.
Proof.
  induction l1 as [|c l1 IH]; [reflexivity|].
  cbn [app string_of_list_ascii String.append]. now rewrite IH.
Qed.

(** [s.trim()] is [s] without the white space at its two ends. *)
Lemma js_trim_trimmedOf (s : string) : trimmedOf s (js_trim s).
Proof.
  split; [apply edgeSpace_trim|].
  destruct (trim_between (StringToNumber.chars s))
    as (pre & post & Hs & Hpre & Hpost).
  exists (string_of_list_ascii pre), (string_of_list_ascii post).
  split; [| split].
  - unfold js_trim. rewrite <- !string_of_list_ascii_append, <- Hs.
    unfold StringToNumber.chars. symmetry.
    apply string_of_list_ascii_of_string.
  - unfold blank, StringToNumber.chars.
    now rewrite list_ascii_of_string_of_list_ascii.
  - unfold blank, StringToNumber.chars.
    now rewrite list_ascii_of_string_of_list_ascii.
Qed.

Lemma trimmed_pieces (pieces : list string) :
  Forall2 trimmedOf pieces (map js_trim pieces).
Proof.
  induction pieces as [|p ps IH]; cbn [map]; constructor;
    [apply js_trim_trimmedOf | exact IH].
Qed.

(** X7 -- a job the schema accepts is stored once, with the date of the store
    and with its tags: none when the tags text is missing or empty, and
    otherwise the pieces of the text between its commas, each without the
    white space at its two ends; the two listings are then revalidated,
    in this order. *)
Theorem addJob_stores_the_job (o : object) (w : World) :
  accepted Actions.jobSchema (JObj o) = true ->
  failsAt 0 w = false ->
  let run := Actions.addJob (JObj o) w in
  fst run = Return (result true "Job added successfully!")
  /\ exists (doc written : object) (tags : list string),
      store (snd run) "jobs"
      = store w "jobs"
        ++ [ {| docId := ("doc" ++ decimal (nextId w))%string;
                docData := doc |} ]
      /\ get "tags" doc = JArr (map JStr tags)
      /\ (get "tags" o = JUndefined \/ get "tags" o = JStr "" -> tags = [])
      /\ (forall s : string,
             get "tags" o = JStr s -> s <> "" ->
             exists pieces : list string,
               String.concat "," pieces = s
               /\ Forall (fun piece => occurrences "," piece = 0%nat) pieces
               /\ Forall2 trimmedOf pieces tags)
      /\ get "postedAt" doc = JTimestamp (serverTime w)
      /\ calls (snd run)
         = calls w ++ [ AddDoc "jobs" written; RevalidatePath "/jobs";
                        RevalidatePath "/admin" ].
Proof.
  intros Hacc Hf run. subst run.
  unfold Actions.addJob. unfold Actions.jobSchema in *.
  match goal with
  | |- context [Zod.safeParse (Zod.object_ ?sh) _] => set (shape := sh) in *
  end.
  assert (Hnd : NoDup (map fst shape)) by exact jobSchema_keys.
  assert (Hin : In ("tags", Zod.optional (Zod.string_ [])) shape).
  { subst shape. cbn [In]. repeat (first [left; reflexivity | right]). }
  pose proof (accepted_get shape o _ _ Hnd Hin
                (faithful_optional _ (faithful_string [])) Hacc) as Htags.
  clearbody shape.
  rewrite (accepted_value_object shape o Hacc). cbn [dataOf].
  unfold tryCatch, bind. rewrite (addDoc_ok _ _ w Hf).
  cbn [revalidatePath ret fst snd].
  split; [reflexivity|].
  eexists. eexists. exists (Actions.tagsArray (get "tags" o)).
  split; [apply store_added_same|].
  unfold Actions.jobDocument. rewrite Htags, !get_resolved.
  split; [| split; [| split; [| split]]].
  - rewrite spread_cons, get_spread_one. cbn [String.eqb Ascii.eqb Bool.eqb].
    now rewrite get_set_same.
  - intros [-> | ->]; reflexivity.
  - intros s -> Hs. unfold Actions.tagsArray. cbn [truthy stringOf].
    assert (E : String.eqb s "" = false) by now apply String.eqb_neq.
    rewrite E. cbn [negb]. exists (split "," s).
    split; [apply split_concat|]. split; [apply split_pieces|].
    apply trimmed_pieces.
  - rewrite spread_cons, get_spread_one. now rewrite String.eqb_refl.
  - cbn [calls recorded]. rewrite calls_added, <- !app_assoc. reflexivity.
Qed.

Lemma addJob_stores_the_job_witness :
  let o := sampleJob (JStr "") (JStr "sales, field ,renewals") in
  let run := Actions.addJob (JObj o) emptyWorld in
  fst run = Return (result true "Job added successfully!")
  /\ exists (doc written : object) (tags : list string),
      store (snd run) "jobs"
      = store emptyWorld "jobs"
        ++ [ {| docId := ("doc" ++ decimal (nextId emptyWorld))%string;
                docData := doc |} ]
      /\ get "tags" doc = JArr (map JStr tags)
      /\ (get "tags" o = JUndefined \/ get "tags" o = JStr "" -> tags = [])
      /\ (forall s : string,
             get "tags" o = JStr s -> s <> "" ->
             exists pieces : list string,
               String.concat "," pieces = s
               /\ Forall (fun piece => occurrences "," piece = 0%nat) pieces
               /\ Forall2 trimmedOf pieces tags)
      /\ get "postedAt" doc = JTimestamp (serverTime emptyWorld)
      /\ calls (snd run)
         = calls emptyWorld ++ [ AddDoc "jobs" written; RevalidatePath "/jobs";
                                 RevalidatePath "/admin" ].
Proof.
  apply (addJob_stores_the_job
           (sampleJob (JStr "") (JStr "sales, field ,renewals")) emptyWorld);
    vm_compute; reflexivity.
Defined.

(** The tags of the sample job, as stored. *)
Example addJob_tags_example :
  map (fun d => get "tags" (docData d))
      (store (snd (Actions.addJob
                     (JObj (sampleJob (JStr "")
                              (JStr "sales, field ,renewals")))
                     emptyWorld)) "jobs")
  = [JArr [JStr "sales"; JStr "field"; JStr "renewals"]].
Proof. vm_compute. reflexivity. Qed.

(* ================================================================== *)
(** ** Registering an employee *)
(* ================================================================== *)

Lemma setDoc_ok (c id : string) (data : object) (w : World) :
  failsAt 0 w = false ->
  setDoc c id data w = (Return tt, stored c id data w).
Proof.
  intros Hf. unfold setDoc, bind, service. now rewrite Hf.
Qed.

Lemma setDoc_fails (c id : string) (data : object) (w : World) :
  failsAt 0 w = true ->
  setDoc c id data w = (Throw unavailable, afterCall (SetDoc c id data) w).
Proof.
  intros Hf. unfold setDoc, bind, service. now rewrite Hf.
Qed.

(** After [setDoc] the collection holds the document under its
    identifier. *)
Lemma stored_in (c id : string) (data : object) (w : World) :
  In {| docId := id; docData := resolved (serverTime w) data |}
     (store (stored c id data w) c).
Proof.
  unfold stored. cbn [store withStore afterCall withFaults recorded].
  rewrite inCollection_same.
  destruct (existsb (hasId id) (store w c)) eqn:E.
  - apply existsb_exists in E. destruct E as (x & Hx & Hid).
    apply in_map_iff. exists x. now rewrite Hid.
  - apply in_or_app. right. now left.
Qed.

Lemma stored_other (c c' id : string) (data : object) (w : World) :
  String.eqb c' c = false -> store (stored c id data w) c' = store w c'.
Proof.
  intros Hc. unfold stored, inCollection.
  cbn [store withStore afterCall withFaults recorded]. now rewrite Hc.
Qed.

Section EmployeeRegistration.

Context `{Platform}.

Lemma registrationSchema_keys : NoDup registrationFields.
Proof. repeat constructor; cbn [In]; intuition discriminate. Qed.

(** What validation makes of an accepted registration: every field reads
    as it was sent, the identifier ends with the domain and the password
    has at least 6 characters. *)
Lemma registration_validated (o : object) (id p : string) :
  accepted Actions.registrationSchema (JObj o) = true ->
  get "userId" o = JStr id -> get "password" o = JStr p ->
  exists out,
    Zod.safeParse Actions.registrationSchema (JObj o) = Zod.Success (JObj out)
    /\ (forall k, In k registrationFields -> get k out = get k o)
    /\ (6 <= String.length p)%nat.
Proof.
  intros Hacc Hid Hp. unfold Actions.registrationSchema in *.
  match goal with
  | |- context [Zod.safeParse (Zod.object_ ?sh) _] => set (shape := sh) in *
  end.
  assert (Hnd : NoDup (map fst shape)) by exact registrationSchema_keys.
  assert (Hall : forall k, In k registrationFields ->
                           exists t, In (k, t) shape /\ faithful t).
  { subst shape. intros k Hk. cbn [registrationFields In] in Hk.
    repeat (destruct Hk as [<- | Hk];
            [eexists; split;
             [cbn [In]; repeat (first [left; reflexivity | right])
             | first [apply faithful_string
                     | apply faithful_refine, faithful_string]] |]).
    destruct Hk. }
  assert (Hpw : In ("password",
                    Zod.string_
                      [Zod.min 6 "Password must be at least 6 characters."])
                   shape).
  { subst shape. cbn [In]. repeat (first [left; reflexivity | right]). }
  clearbody shape.
  exists (Zod.outputOf (Zod.properties shape o)).
  split; [exact (accepted_value_object shape o Hacc)|]. split.
  - intros k Hk. destruct (Hall k Hk) as (t & Hin & Hft).
    exact (accepted_get shape o k t Hnd Hin Hft Hacc).
  - apply accepted_status in Hacc. rewrite ZodFacts.object_status in Hacc.
    pose proof (ZodFacts.properties_valid shape o Hacc _ _ Hpw) as Hv.
    rewrite Hp in Hv. apply ZodObjects.string_valid in Hv.
    destruct Hv as (s & [= <-] & _ & Hc).
    specialize (Hc _ (or_introl eq_refl)). cbn [Zod.test Zod.min] in Hc.
    now apply Nat.leb_le.
Qed.

(** The run of [registerEmployee] on an accepted registration, up to the
    call to the identity service. *)
Lemma registerEmployee_validated (o : object) (id p : string) :
  accepted Actions.registrationSchema (JObj o) = true ->
  get "userId" o = JStr id -> get "password" o = JStr p ->
  (6 <= String.length p)%nat
  /\ Actions.registerEmployee (JObj o)
     = tryCatch
         (user <- createUserWithEmailAndPassword id p ;;
          setDoc "employees" user (employeeRecord o) ;;
          revalidatePath "/admin/employees" ;;
          ret {| success := true;
                 message := "Employee registered successfully!";
                 errors := None;
                 details := [("userId", JStr id); ("password", JStr p)] |})
         (fun error =>
            ret (result false
                   (if String.eqb (code error) "auth/email-already-in-use"
                    then "This User ID is already taken. Please try with a different User ID."
                    else if String.eqb (code error) "auth/weak-password"
                    then "The password is too weak. It must be at least 6 characters long."
                    else "Failed to register employee. Please try again."))).
Proof.
  intros Hacc Hid Hp.
  destruct (registration_validated o id p Hacc Hid Hp) as (out & Hs & Hg & Hl).
  split; [exact Hl|]. unfold Actions.registerEmployee. rewrite Hs.
  cbn [dataOf]. unfold registrationFields in Hg.
  rewrite !Hg by (cbn [In]; tauto). unfold employeeRecord.
  rewrite Hid, Hp. reflexivity.
Qed.

End EmployeeRegistration.
Lemma failsAt_registered (i : nat) (e p : string) (w : World) :
  failsAt i (registered e p w) = failsAt (S i) w.
Proof. exact (failsAt_afterCall i (CreateUser e p) w). Qed.

Lemma hasAccount_registered (e p : string) (w : World) :
  hasAccount e (registered e p w) = true.
Proof.
  unfold hasAccount, registered.
  cbn [accounts withAccounts withNextId afterCall withFaults recorded].
  rewrite existsb_app. cbn [existsb accountEmail].
  now rewrite String.eqb_refl, orb_true_r.
Qed.

Section EmployeeRegistered.

Context `{Platform}.

(** X10 -- an accepted registration whose identifier the identity service takes
    and does not know yet creates one account with the identifier and the
    password, and writes the employee's document under the identifier of
    that account, with status "active" and without the password; the
    result hands the credentials back. *)
Theorem registerEmployee_creates_account_and_record
        (o : object) (id p : string) (w : World) :
  accepted Actions.registrationSchema (JObj o) = true ->
  get "userId" o = JStr id -> get "password" o = JStr p ->
  authAcceptsEmail id = true -> hasAccount id w = false ->
  failsAt 0 w = false -> failsAt 1 w = false ->
  let run := Actions.registerEmployee (JObj o) w in
  let user := ("uid" ++ decimal (nextId w))%string in
  fst run
  = Return {| success := true;
              message := "Employee registered successfully!";
              errors := None;
              details := [("userId", JStr id); ("password", JStr p)] |}
  /\ accounts (snd run)
     = accounts w ++ [ {| uid := user; accountEmail := id;
                          accountPassword := p |} ]
  /\ (exists doc,
         In {| docId := user; docData := doc |} (store (snd run) "employees")
         /\ get "userId" doc = JStr id
         /\ get "status" doc = JStr "active"
         /\ get "createdAt" doc = JTimestamp (serverTime w)
         /\ get "password" doc = JUndefined)
  /\ (forall c, String.eqb c "employees" = false ->
        store (snd run) c = store w c).
Proof.
  intros Hacc Hid Hp Hauth Hnew Hf0 Hf1 run user. subst run user.
  destruct (registerEmployee_validated o id p Hacc Hid Hp) as [Hl ->].
  unfold tryCatch, bind.
  rewrite (createUser_fresh id p w Hf0 Hauth Hnew Hl).
  rewrite setDoc_ok by (now rewrite failsAt_registered).
  cbn [revalidatePath ret fst snd].
  split; [reflexivity|]. split; [reflexivity|]. split.
  - eexists. split.
    + cbn [store recorded]. apply stored_in.
    + rewrite !get_resolved. unfold employeeRecord. rewrite Hid.
      repeat split.
  - intros c Hc. cbn [store recorded]. now rewrite stored_other.
Qed.

(** X11 -- when the identifier already has an account, the registration is
    refused with the message made for this case; no account is added and
    nothing is written. *)
Theorem registerEmployee_refuses_taken_identifier
        (o : object) (id p : string) (w : World) :
  accepted Actions.registrationSchema (JObj o) = true ->
  get "userId" o = JStr id -> get "password" o = JStr p ->
  authAcceptsEmail id = true -> hasAccount id w = true ->
  failsAt 0 w = false ->
  let run := Actions.registerEmployee (JObj o) w in
  fst run
  = Return (result false
              "This User ID is already taken. Please try with a different User ID.")
  /\ accounts (snd run) = accounts w
  /\ store (snd run) = store w
  /\ calls (snd run) = calls w ++ [CreateUser id p].
Proof.
  intros Hacc Hid Hp Hauth Hold Hf0 run. subst run.
  destruct (registerEmployee_validated o id p Hacc Hid Hp) as [Hl ->].
  unfold tryCatch, bind.
  rewrite (createUser_existing id p w Hf0 Hauth Hold).
  repeat split.
Qed.

(** X12 -- the account is not taken back when the employee's document cannot be
    written: the registration reports the general failure, the account
    stays, and the same registration sent again is refused as taken. *)
Theorem registerEmployee_keeps_account_on_failed_write
        (o : object) (id p : string) (w : World) :
  accepted Actions.registrationSchema (JObj o) = true ->
  get "userId" o = JStr id -> get "password" o = JStr p ->
  authAcceptsEmail id = true -> hasAccount id w = false ->
  failsAt 0 w = false -> failsAt 1 w = true -> failsAt 2 w = false ->
  let first := Actions.registerEmployee (JObj o) w in
  let second := Actions.registerEmployee (JObj o) (snd first) in
  fst first
  = Return (result false "Failed to register employee. Please try again.")
  /\ hasAccount id (snd first) = true
  /\ store (snd first) = store w
  /\ fst second
     = Return (result false
                 "This User ID is already taken. Please try with a different User ID.")
  /\ store (snd second) = store w.
Proof.
  intros Hacc Hid Hp Hauth Hnew Hf0 Hf1 Hf2 first second.
  subst second first.
  destruct (registerEmployee_validated o id p Hacc Hid Hp) as [Hl ->].
  unfold tryCatch, bind.
  rewrite (createUser_fresh id p w Hf0 Hauth Hnew Hl).
  rewrite setDoc_fails by (now rewrite failsAt_registered).
  cbn [ret fst snd code unavailable String.eqb Ascii.eqb Bool.eqb].
  rewrite createUser_existing.
  - cbn [fst snd code]. repeat split.
    apply hasAccount_registered.
  - now rewrite failsAt_afterCall, failsAt_registered.
  - exact Hauth.
  - unfold hasAccount.
    cbn [accounts afterCall withFaults recorded].
    apply hasAccount_registered.
Qed.

End EmployeeRegistered.

Lemma registerEmployee_creates_account_and_record_witness :
  let o := registration "bob@zensolve.in" in
  let run := @Actions.registerEmployee samplePlatform (JObj o) emptyWorld in
  let user := ("uid" ++ decimal (nextId emptyWorld))%string in
  fst run
  = Return {| success := true;
              message := "Employee registered successfully!";
              errors := None;
              details := [ ("userId", JStr "bob@zensolve.in");
                           ("password", JStr "secret1") ] |}
  /\ accounts (snd run)
     = accounts emptyWorld
       ++ [ {| uid := user; accountEmail := "bob@zensolve.in";
               accountPassword := "secret1" |} ]
  /\ (exists doc,
         In {| docId := user; docData := doc |} (store (snd run) "employees")
         /\ get "userId" doc = JStr "bob@zensolve.in"
         /\ get "status" doc = JStr "active"
         /\ get "createdAt" doc = JTimestamp (serverTime emptyWorld)
         /\ get "password" doc = JUndefined)
  /\ (forall c, String.eqb c "employees" = false ->
        store (snd run) c = store emptyWorld c).
Proof.
  apply (@registerEmployee_creates_account_and_record samplePlatform
           (registration "bob@zensolve.in") "bob@zensolve.in" "secret1"
           emptyWorld); vm_compute; reflexivity.
Defined.

Lemma registerEmployee_refuses_taken_identifier_witness :
  let o := registration "bob@zensolve.in" in
  let run := @Actions.registerEmployee samplePlatform (JObj o) staffWorld in
  fst run
  = Return (result false
              "This User ID is already taken. Please try with a different User ID.")
  /\ accounts (snd run) = accounts staffWorld
  /\ store (snd run) = store staffWorld
  /\ calls (snd run)
     = calls staffWorld ++ [CreateUser "bob@zensolve.in" "secret1"].
Proof.
  apply (@registerEmployee_refuses_taken_identifier samplePlatform
           (registration "bob@zensolve.in") "bob@zensolve.in" "secret1"
           staffWorld); vm_compute; reflexivity.
Defined.

Lemma registerEmployee_keeps_account_on_failed_write_witness :
  let o := registration "bob@zensolve.in" in
  let w := withFaults [false; true] emptyWorld in
  let first := @Actions.registerEmployee samplePlatform (JObj o) w in
  let second :=
    @Actions.registerEmployee samplePlatform (JObj o) (snd first) in
  fst first
  = Return (result false "Failed to register employee. Please try again.")
  /\ hasAccount "bob@zensolve.in" (snd first) = true
  /\ store (snd first) = store w
  /\ fst second
     = Return (result false
                 "This User ID is already taken. Please try with a different User ID.")
  /\ store (snd second) = store w.
Proof.
  apply (@registerEmployee_keeps_account_on_failed_write samplePlatform
           (registration "bob@zensolve.in") "bob@zensolve.in" "secret1"
           (withFaults [false; true] emptyWorld)); vm_compute; reflexivity.
Defined.
(* ================================================================== *)
(** ** A membership, from the application to the verification *)
(* ================================================================== *)

(** A text field of an accepted object is a string that passes the checks
    of its schema. *)
Lemma accepted_string_field (shape : list (string * Zod.ZodType)) (o : object)
      (k : string) (checks : list (Zod.Check string)) :
  In (k, Zod.string_ checks) shape ->
  accepted (Zod.object_ shape) (JObj o) = true ->
  exists s, get k o = JStr s /\ forall c, In c checks -> Zod.test c s = true.
Proof.
  intros Hin Hacc. apply accepted_status in Hacc.
  rewrite ZodFacts.object_status in Hacc.
  pose proof (ZodFacts.properties_valid shape o Hacc _ _ Hin) as Hv.
  apply ZodObjects.string_valid in Hv. destruct Hv as (s & Hs & _ & Hc).
  now exists s.
Qed.

Lemma get_spread_two (k k1 k2 : string) (v1 v2 : jsval) (a : object) :
  get k (spread a [(k1, v1); (k2, v2)])
  = if String.eqb k k2 then v2
    else if String.eqb k k1 then v1 else get k a.
Proof.
  rewrite spread_cons, get_spread_one.
  destruct (String.eqb k k2); [reflexivity|].
  destruct (String.eqb k k1) eqn:E.
  - apply String.eqb_eq in E. subst. apply get_set_same.
  - now apply get_set_other.
Qed.

Lemma store_registered (e p : string) (w : World) :
  store (registered e p w) = store w.
Proof. reflexivity. Qed.

Lemma membershipVerified_recorded (id : string) (c : Call) (w : World) :
  membershipVerified id (recorded c w) = membershipVerified id w.
Proof. reflexivity. Qed.

Lemma hasAccount_marked (e c id : string) (data : object) (k : Call)
      (w : World) :
  hasAccount e (recorded k (updated c id data w)) = hasAccount e w.
Proof. reflexivity. Qed.

Lemma accounts_marked (c id : string) (data : object) (k : Call) (w : World) :
  accounts (recorded k (updated c id data w)) = accounts w.
Proof. reflexivity. Qed.

Section MembershipApplication.

Context `{Platform}.

Lemma membershipSchema_keys :
  NoDup ["name"; "email"; "phone"; "district"; "state"; "utr"].
Proof. repeat constructor; cbn [In]; intuition discriminate. Qed.

Lemma membership_validated (o : object) (e ph : string) :
  accepted Actions.membershipApplicationSchema (JObj o) = true ->
  get "email" o = JStr e -> get "phone" o = JStr ph ->
  exists out,
    Zod.safeParse Actions.membershipApplicationSchema (JObj o)
    = Zod.Success (JObj out)
    /\ get "email" out = JStr e /\ get "phone" out = JStr ph
    /\ isEmail e = true /\ (10 <= String.length ph)%nat.
Proof.
  intros Hacc He Hp. unfold Actions.membershipApplicationSchema in *.
  match goal with
  | |- context [Zod.safeParse (Zod.object_ ?sh) _] => set (shape := sh) in *
  end.
  assert (Hnd : NoDup (map fst shape)) by exact membershipSchema_keys.
  assert (Hie : In ("email",
                    Zod.string_ [Zod.email "A valid email is required."])
                   shape) by (subst shape; cbn [In]; tauto).
  assert (Hip : In ("phone",
                    Zod.string_
                      [Zod.min 10 "A valid 10-digit phone number is required."])
                   shape) by (subst shape; cbn [In]; tauto).
  clearbody shape.
  exists (Zod.outputOf (Zod.properties shape o)).
  split; [exact (accepted_value_object shape o Hacc)|].
  rewrite (accepted_get shape o _ _ Hnd Hie (faithful_string _) Hacc),
    (accepted_get shape o _ _ Hnd Hip (faithful_string _) Hacc).
  split; [exact He|]. split; [exact Hp|].
  destruct (accepted_string_field shape o _ _ Hie Hacc) as (s & Hs & Hc).
  destruct (accepted_string_field shape o _ _ Hip Hacc) as (s' & Hs' & Hc').
  rewrite He in Hs. rewrite Hp in Hs'. injection Hs as <-. injection Hs' as <-.
  split.
  - exact (Hc _ (or_introl eq_refl)).
  - apply Nat.leb_le. exact (Hc' _ (or_introl eq_refl)).
Qed.

(** X13 -- an accepted application is stored as a pending membership, and the
    result carries the identifier of that document; no account is made at
    this point.  When the admin console then verifies the stored
    membership, the membership becomes verified and the applicant has an
    account under the address of the application -- with the phone number
    as its password when the account is new. *)
Theorem membership_is_pending_until_verified
        (o : object) (e ph : string) (w : World) :
  accepted Actions.membershipApplicationSchema (JObj o) = true ->
  get "email" o = JStr e -> get "phone" o = JStr ph ->
  authAcceptsEmail e = true ->
  (forall i, (i < 3)%nat -> failsAt i w = false) ->
  let applied := Actions.applyForMembership (JObj o) w in
  let id := ("doc" ++ decimal (nextId w))%string in
  fst applied
  = Return {| success := true;
              message := "Application submitted successfully!";
              errors := None;
              details := [("membershipId", JStr id)] |}
  /\ accounts (snd applied) = accounts w
  /\ exists membership,
      store (snd applied) "memberships"
      = store w "memberships" ++ [membership]
      /\ docId membership = id
      /\ get "status" (docData membership) = JStr "pending"
      /\ get "submittedAt" (docData membership) = JTimestamp (serverTime w)
      /\ let verified :=
           MembershipsPage.handleVerify membership (snd applied) in
         (exists m, fst verified = Return (result true m))
         /\ membershipVerified id (snd verified) = true
         /\ hasAccount e (snd verified) = true
         /\ (hasAccount e w = false ->
             accounts (snd verified)
             = accounts w
               ++ [ {| uid := ("uid" ++ decimal (N.succ (nextId w)))%string;
                       accountEmail := e; accountPassword := ph |} ]).
Proof.
  intros Hacc He Hp Hauth Hf applied id. subst applied id.
  assert (Hf0 : failsAt 0 w = false) by (apply Hf; lia).
  assert (Hf1 : failsAt 1 w = false) by (apply Hf; lia).
  assert (Hf2 : failsAt 2 w = false) by (apply Hf; lia).
  destruct (membership_validated o e ph Hacc He Hp)
    as (out & Hs & Hoe & Hop & Hmail & Hlen).
  unfold Actions.applyForMembership. rewrite Hs. cbn [dataOf].
  unfold tryCatch, bind. rewrite (addDoc_ok _ _ w Hf0). cbn [ret fst snd].
  split; [reflexivity|]. split; [reflexivity|].
  eexists. split; [apply store_added_same|]. cbn [docId docData].
  split; [reflexivity|].
  rewrite !get_resolved, !get_spread_two.
  cbn [String.eqb Ascii.eqb Bool.eqb].
  split; [reflexivity|]. split; [reflexivity|].
  unfold MembershipsPage.handleVerify. cbn [docId docData].
  rewrite !get_resolved, !get_spread_two.
  cbn [String.eqb Ascii.eqb Bool.eqb]. rewrite Hoe, Hop.
  change (JObj [ ("membershipId", JStr ("doc" ++ decimal (nextId w))%string);
                 ("email", JStr e); ("password", JStr ph) ])
    with (verification ("doc" ++ decimal (nextId w))%string e ph).
  set (id := ("doc" ++ decimal (nextId w))%string).
  set (data := spread out _).
  assert (Hm : existsb (hasId id) (store (added "memberships" data w)
                                     "memberships") = true).
  { rewrite store_added_same, existsb_app. cbn [existsb]. unfold hasId at 2.
    cbn [docId]. fold id. now rewrite String.eqb_refl, orb_true_r. }
  assert (Hg0 : failsAt 0 (added "memberships" data w) = false)
    by now rewrite failsAt_added.
  assert (Hg1 : failsAt 1 (added "memberships" data w) = false)
    by now rewrite failsAt_added.
  assert (Hl6 : (6 <= String.length ph)%nat) by lia.
  assert (Hcases : hasAccount e w = true \/ hasAccount e w = false)
    by (destruct (hasAccount e w); auto).
  destruct Hcases as [Ha | Ha].
  - rewrite (verify_existing id e ph _ Hmail Hauth Hg0 Hg1 Hm Ha).
    cbn [fst snd]. split; [eexists; reflexivity|].
    rewrite membershipVerified_recorded, hasAccount_marked.
    split.
    { apply (membershipVerified_updated id
               (afterCall (CreateUser e ph) (added "memberships" data w))).
      rewrite store_afterCall. exact Hm. }
    split; [exact Ha | congruence].
  - rewrite (verify_fresh id e ph _ Hmail Hauth Hg0 Hg1 Hm Ha Hl6).
    cbn [fst snd]. split; [eexists; reflexivity|].
    rewrite membershipVerified_recorded, hasAccount_marked, accounts_marked.
    split.
    { apply (membershipVerified_updated id
               (registered e ph (added "memberships" data w))).
      rewrite store_registered. exact Hm. }
    split; [| intros _; reflexivity].
    exact (hasAccount_registered e ph (added "memberships" data w)).
Qed.

End MembershipApplication.

Lemma membership_is_pending_until_verified_witness :
  let o := membershipForm "UTR1234567890" in
  let applied := @Actions.applyForMembership samplePlatform (JObj o)
                   emptyWorld in
  let id := ("doc" ++ decimal (nextId emptyWorld))%string in
  fst applied
  = Return {| success := true;
              message := "Application submitted successfully!";
              errors := None;
              details := [("membershipId", JStr id)] |}
  /\ accounts (snd applied) = accounts emptyWorld
  /\ exists membership,
      store (snd applied) "memberships"
      = store emptyWorld "memberships" ++ [membership]
      /\ docId membership = id
      /\ get "status" (docData membership) = JStr "pending"
      /\ get "submittedAt" (docData membership)
         = JTimestamp (serverTime emptyWorld)
      /\ let verified :=
           @MembershipsPage.handleVerify samplePlatform membership
             (snd applied) in
         (exists m, fst verified = Return (result true m))
         /\ membershipVerified id (snd verified) = true
         /\ hasAccount "ravi@example.org" (snd verified) = true
         /\ (hasAccount "ravi@example.org" emptyWorld = false ->
             accounts (snd verified)
             = accounts emptyWorld
               ++ [ {| uid := ("uid" ++ decimal (N.succ (nextId emptyWorld)))
                              %string;
                       accountEmail := "ravi@example.org";
                       accountPassword := "9876543210" |} ]).
Proof.
  apply (@membership_is_pending_until_verified samplePlatform
           (membershipForm "UTR1234567890") "ravi@example.org" "9876543210"
           emptyWorld); try reflexivity.
  intros [|[|[|i]]] Hi; [reflexivity | reflexivity | reflexivity | lia].
Defined.
(* ================================================================== *)
(** ** The newsletter box: refusals and failures *)
(* ================================================================== *)

Lemma getDocs_fails (c field : string) (v : jsval) (w : World) :
  failsAt 0 w = true ->
  getDocs c field v w = (Throw unavailable, afterCall (GetDocs c field v) w).
Proof. intros Hf. unfold getDocs, bind, service. now rewrite Hf. Qed.

Section NewsletterFailures.

Context `{Platform}.

(** X14 -- a form without an address, or with something that is not an e-mail
    address, is refused with "Invalid email address." and no field
    errors; no service is called. *)
Theorem newsletter_refuses_without_calling
        (p : jsval) (fd : FormData) (w : World) :
  (forall e, formGet "email" fd = JStr e -> isEmail e = false) ->
  Actions.subscribeToNewsletter p fd w
  = (Return {| success := false; message := "Invalid email address.";
               errors := None; details := [] |}, w).
Proof.
  intros Hbad. unfold Actions.subscribeToNewsletter.
  assert (Hacc : accepted Actions.newsletterSchema
                   (JObj [("email", formGet "email" fd)]) = false).
  { unfold Actions.newsletterSchema. rewrite accepted_object.
    cbn [forallb fst snd get String.eqb Ascii.eqb Bool.eqb].
    destruct (formGet "email" fd) as [ | | | | e | | | | | ]; try reflexivity.
    rewrite accepted_string. cbn [forallb Zod.test Zod.email].
    now rewrite (Hbad e eq_refl). }
  now rewrite (accepted_failure _ _ Hacc).
Qed.

(** X15 -- when the lookup of the address fails, or the lookup finds nothing and
    the write fails, the answer is the general failure and no subscriber
    is added. *)
Theorem newsletter_failure_adds_no_subscriber
        (p : jsval) (fd : FormData) (e : string) (w : World) :
  formGet "email" fd = JStr e -> isEmail e = true ->
  failsAt 0 w = true
  \/ (failsAt 0 w = false /\ failsAt 1 w = true /\ subscribersWith e w = []) ->
  let run := Actions.subscribeToNewsletter p fd w in
  fst run
  = Return (result false "Something went wrong. Please try again later.")
  /\ store (snd run) = store w.
Proof.
  intros Hget Hmail Hcase run. subst run.
  unfold Actions.subscribeToNewsletter.
  rewrite (newsletter_validated fd e Hget Hmail).
  cbn [dataOf get String.eqb Ascii.eqb Bool.eqb].
  unfold tryCatch, bind.
  destruct Hcase as [Hf0 | (Hf0 & Hf1 & Hnone)].
  - rewrite (getDocs_fails _ _ _ w Hf0). split; reflexivity.
  - rewrite (getDocs_ok _ _ _ w Hf0).
    fold (subscribersWith e w). rewrite Hnone.
    rewrite addDoc_fails by (now rewrite failsAt_afterCall).
    split; reflexivity.
Qed.

End NewsletterFailures.

Lemma newsletter_refuses_without_calling_witness :
  @Actions.subscribeToNewsletter samplePlatform JNull
    (newsletterForm "not an address") emptyWorld
  = (Return {| success := false; message := "Invalid email address.";
               errors := None; details := [] |}, emptyWorld).
Proof.
  apply (@newsletter_refuses_without_calling samplePlatform JNull
           (newsletterForm "not an address") emptyWorld).
  intros e [= <-]. reflexivity.
Defined.

Lemma newsletter_failure_adds_no_subscriber_witness :
  let w := withFaults [false; true] emptyWorld in
  let run :=
    @Actions.subscribeToNewsletter samplePlatform JNull
      (newsletterForm "reader@example.org") w in
  fst run
  = Return (result false "Something went wrong. Please try again later.")
  /\ store (snd run) = store w.
Proof.
  apply (@newsletter_failure_adds_no_subscriber samplePlatform JNull
           (newsletterForm "reader@example.org") "reader@example.org"
           (withFaults [false; true] emptyWorld));
    [reflexivity | reflexivity |].
  right. repeat split.
Defined.
(* ================================================================== *)
(** ** Job applications: the check boxes, and applications without a file *)
(* ================================================================== *)

Lemma has_set (k k' : string) (v : jsval) (o : object) :
  has k (set k' v o) = String.eqb k k' || has k o.
Proof.
  induction o as [|[k2 v2] o IH]; cbn [set has].
  - now rewrite orb_false_r.
  - destruct (String.eqb k' k2) eqn:E; cbn [has].
    + apply String.eqb_eq in E. subst k2.
      destruct (String.eqb k k'); reflexivity.
    + rewrite IH. destruct (String.eqb k k'), (String.eqb k k2); reflexivity.
Qed.

Lemma In_set_other (k k' : string) (x v : jsval) (o : object) :
  k <> k' -> In (k, x) o -> In (k, x) (set k' v o).
Proof.
  intros Hk. induction o as [|[k2 v2] o IH]; cbn [set In]; [tauto|].
  intros [E | Hin].
  - inversion E; subst k2 v2.
    destruct (String.eqb k' k) eqn:Ek.
    + apply String.eqb_eq in Ek. congruence.
    + now left.
  - destruct (String.eqb k' k2); [right; exact Hin | right; now apply IH].
Qed.

(** A property given as [undefined] stays in what an object schema
    returns. *)
Lemma output_keeps_undefined (shape : list (string * Zod.ZodType))
      (o : object) (k : string) (t : Zod.ZodType) :
  In (k, t) shape -> has k o = true ->
  Zod.value (t (get k o)) = JUndefined ->
  In (k, JUndefined) (Zod.outputOf (Zod.properties shape o)).
Proof.
  intros Hin Hhas Hv. rewrite output_flat_map. apply in_flat_map.
  exists (k, t). split; [exact Hin|].
  unfold outputs. cbn [fst snd]. rewrite Hv, Hhas. now left.
Qed.

Lemma undefined_field (data : object) (k : string) :
  In (k, JUndefined) data -> definedFields data = false.
Proof.
  intros Hin. unfold definedFields.
  destruct (forallb _ data) eqn:E; [|reflexivity].
  rewrite forallb_forall in E. specialize (E _ Hin). discriminate.
Qed.

Section JobApplicationEdges.

Context `{Platform}.

(** The years of experience handed to the schema: the number [Number]
    reads in the entry of the form, and [undefined] when the entry is
    empty or missing. *)
Lemma applicationInput_years (fd : FormData) :
  get "yearsOfExperience" (Actions.applicationInput fd)
  = if truthy (get "yearsOfExperience" (fromEntries fd))
    then JNum (Number (get "yearsOfExperience" (fromEntries fd)))
    else JUndefined.
Proof.
  unfold Actions.applicationInput. cbv zeta.
  rewrite !spread_cons, spread_nil.
  rewrite !get_set_other by reflexivity. apply get_set_same.
Qed.

Lemma applicationInput_has_years (fd : FormData) :
  has "yearsOfExperience" (Actions.applicationInput fd) = true.
Proof.
  unfold Actions.applicationInput. cbv zeta.
  rewrite !spread_cons, spread_nil. rewrite !has_set. reflexivity.
Qed.

Lemma applicationInput_boxes (fd : FormData) :
  get "confirmInfo" (Actions.applicationInput fd)
  = JBool (strictEq (get "confirmInfo" (fromEntries fd)) (JStr "on"))
  /\ get "agreeTerms" (Actions.applicationInput fd)
     = JBool (strictEq (get "agreeTerms" (fromEntries fd)) (JStr "on")).
Proof.
  unfold Actions.applicationInput. cbv zeta.
  rewrite !spread_cons, spread_nil. split.
  - rewrite get_set_other by reflexivity. apply get_set_same.
  - apply get_set_same.
Qed.

(** A check box of the application that is not ticked. *)
Lemma box_not_ticked (m : string) :
  let t := Zod.refine Zod.boolean (fun val => strictEq val (JBool true)) m [] in
  Zod.status (t (JBool false)) <> Zod.Valid
  /\ In {| Zod.path := []; Zod.message := m |} (Zod.issues (t (JBool false))).
Proof. cbv zeta. split; [discriminate | left; reflexivity]. Qed.

(** X16 -- an application whose form does not carry both check boxes as ticked
    ("on") is refused, with the message of the missing confirmation under
    its field; nothing is uploaded, written or called, whether or not a
    resume is attached. *)
Theorem applyForJob_requires_both_boxes
        (prev : jsval) (fd : FormData) (w : World) :
  let confirmed := strictEq (get "confirmInfo" (fromEntries fd)) (JStr "on") in
  let agreed := strictEq (get "agreeTerms" (fromEntries fd)) (JStr "on") in
  confirmed && agreed = false ->
  exists error,
    Actions.applyForJob prev fd w
    = (Return (invalid "Invalid application data. Please check all fields."
                 error), w)
    /\ (confirmed = false ->
        In "You must confirm the information is true."
           (Zod.messagesOf "confirmInfo" (Zod.fieldErrors error)))
    /\ (agreed = false ->
        In "You must agree to the terms."
           (Zod.messagesOf "agreeTerms" (Zod.fieldErrors error))).
Proof.
  intros confirmed agreed Hboxes.
  destruct (applicationInput_boxes fd) as [Hc Ha].
  fold confirmed in Hc. fold agreed in Ha.
  unfold Actions.applyForJob, Actions.applicationSchema. cbv zeta.
  match goal with
  | |- context [Zod.safeParse (Zod.object_ ?sh) _] => set (shape := sh) in *
  end.
  assert (Hic : In ("confirmInfo",
                    Zod.refine Zod.boolean
                      (fun val => strictEq val (JBool true))
                      "You must confirm the information is true." []) shape).
  { subst shape. cbn [In]. repeat (first [left; reflexivity | right]). }
  assert (Hia : In ("agreeTerms",
                    Zod.refine Zod.boolean
                      (fun val => strictEq val (JBool true))
                      "You must agree to the terms." []) shape).
  { subst shape. cbn [In]. repeat (first [left; reflexivity | right]). }
  clearbody shape.
  set (o := Actions.applicationInput fd) in *.
  assert (Hfail : Zod.safeParse (Zod.object_ shape) (JObj o)
                  = Zod.Failure (Zod.issuesOf (Zod.properties shape o))).
  { destruct confirmed eqn:Ec.
    - destruct agreed eqn:Ea; [discriminate|].
      apply (ZodFacts.safeParse_property_invalid shape o _ _ Hia).
      rewrite Ha. apply box_not_ticked.
    - apply (ZodFacts.safeParse_property_invalid shape o _ _ Hic).
      rewrite Hc. apply box_not_ticked. }
  rewrite Hfail. eexists. split; [reflexivity|]. split.
  - intros Ec. rewrite Ec in Hc.
    refine (proj2 (object_rejects shape o _ _ _ Hic _ _));
      rewrite Hc; apply box_not_ticked.
  - intros Ea. rewrite Ea in Ha.
    refine (proj2 (object_rejects shape o _ _ _ Hia _ _));
      rewrite Ha; apply box_not_ticked.
Qed.

(** X17 -- an accepted application with no file in the [resume] entry, or with
    an empty file, uploads nothing: its only call, whatever the store
    answers, is the write of the validated fields and the date of the
    store.  When the entry for the years of experience is empty or
    missing, the document handed to the store has [yearsOfExperience] set
    to [undefined].  When the store takes the document, which has no
    undefined property, the action succeeds and the document is added to
    [applications]. *)
Theorem applyForJob_without_resume
        (prev : jsval) (fd : FormData) (validated : jsval) (w : World) :
  Zod.safeParse Actions.applicationSchema (JObj (Actions.applicationInput fd))
  = Zod.Success validated ->
  (forall name size, formGet "resume" fd = JFile name size -> size = 0%N) ->
  let document :=
    spread (dataOf validated) [("submittedAt", JServerTimestamp)] in
  let run := Actions.applyForJob prev fd w in
  calls (snd run) = calls w ++ [AddDoc "applications" document]
  /\ bucket (snd run) = bucket w
  /\ (truthy (get "yearsOfExperience" (fromEntries fd)) = false ->
      In ("yearsOfExperience", JUndefined) document
      /\ definedFields document = false)
  /\ (definedFields document = true -> failsAt 0 w = false ->
      fst run
      = Return (result true
                  "Application submitted successfully! We will get back to you soon.")
      /\ store (snd run) "applications"
         = store w "applications"
           ++ [ {| docId := ("doc" ++ decimal (nextId w))%string;
                   docData := resolved (serverTime w) document |} ]).
Proof.
  intros Hs Hfile document run. subst run.
  assert (Hyears : truthy (get "yearsOfExperience" (fromEntries fd)) = false ->
                   In ("yearsOfExperience", JUndefined) document).
  { intros Hy. subst document. rewrite spread_cons, spread_nil.
    apply In_set_other; [discriminate|].
    unfold Actions.applicationSchema in Hs.
    apply ZodObjects.safeParse_object_success in Hs. destruct Hs as [-> _].
    cbn [dataOf].
    apply output_keeps_undefined
      with (t := Zod.optional (Zod.coerce_number [])).
    - cbn [In]. repeat (first [left; reflexivity | right]).
    - apply applicationInput_has_years.
    - rewrite applicationInput_years, Hy. reflexivity. }
  unfold Actions.applyForJob. cbv zeta. rewrite Hs.
  assert (Hrun : forall k : object -> Async ActionResult,
             bind (match formGet "resume" fd with
                   | JFile name size =>
                       if (0 <? size)%N then
                         bind Date_now (fun now =>
                           bind (uploadBytes
                                   (Actions.resumePath
                                      (stringOf (get "jobId" (dataOf validated)))
                                      now name) name size)
                             (fun snapshot =>
                                bind (getDownloadURL snapshot)
                                  (fun downloadURL =>
                                     ret (set "resumeUrl" (JStr downloadURL)
                                            (dataOf validated)))))
                       else ret (dataOf validated)
                   | _ => ret (dataOf validated)
                   end) k w
             = k (dataOf validated) w).
  { intros k. destruct (formGet "resume" fd) eqn:E; try reflexivity.
    rewrite (Hfile _ _ eq_refl). reflexivity. }
  unfold tryCatch. rewrite Hrun. unfold bind. fold document.
  destruct (failsAt 0 w) eqn:Hf.
  - rewrite (addDoc_fails _ _ w Hf). cbn [fst snd ret].
    split; [reflexivity|]. split; [reflexivity|]. split.
    + intros Hy. split; [now apply Hyears|].
      eapply undefined_field. now apply Hyears.
    + discriminate.
  - rewrite (addDoc_ok _ _ w Hf). cbn [fst snd ret].
    split; [reflexivity|]. split; [reflexivity|]. split.
    + intros Hy. split; [now apply Hyears|].
      eapply undefined_field. now apply Hyears.
    + intros _ _. split; [reflexivity|]. apply store_added_same.
Qed.

End JobApplicationEdges.

Lemma applyForJob_requires_both_boxes_witness :
  let fd := applicationUnconfirmed in
  let confirmed := strictEq (get "confirmInfo" (fromEntries fd)) (JStr "on") in
  let agreed := strictEq (get "agreeTerms" (fromEntries fd)) (JStr "on") in
  confirmed && agreed = false
  /\ exists error,
      @Actions.applyForJob samplePlatform JNull fd emptyWorld
      = (Return (invalid "Invalid application data. Please check all fields."
                   error), emptyWorld)
      /\ (confirmed = false ->
          In "You must confirm the information is true."
             (Zod.messagesOf "confirmInfo" (Zod.fieldErrors error)))
      /\ (agreed = false ->
          In "You must agree to the terms."
             (Zod.messagesOf "agreeTerms" (Zod.fieldErrors error))).
Proof.
  split; [reflexivity|].
  apply (@applyForJob_requires_both_boxes samplePlatform JNull
           applicationUnconfirmed emptyWorld).
  reflexivity.
Defined.

Lemma applyForJob_without_resume_witness :
  let document :=
    spread (dataOf applicationValidated) [("submittedAt", JServerTimestamp)] in
  let run :=
    @Actions.applyForJob samplePlatform JNull applicationWithoutFile
      emptyWorld in
  definedFields document = true
  /\ failsAt 0 emptyWorld = false
  /\ calls (snd run) = calls emptyWorld ++ [AddDoc "applications" document]
  /\ bucket (snd run) = bucket emptyWorld
  /\ fst run
     = Return (result true
                 "Application submitted successfully! We will get back to you soon.")
  /\ store (snd run) "applications"
     = store emptyWorld "applications"
       ++ [ {| docId := ("doc" ++ decimal (nextId emptyWorld))%string;
               docData := resolved (serverTime emptyWorld) document |} ].
Proof.
  assert (Hfile : forall name size,
             formGet "resume" applicationWithoutFile = JFile name size ->
             size = 0%N)
    by (intros name size [= _ <-]; reflexivity).
  assert (Hs : @Zod.safeParse (@Actions.applicationSchema samplePlatform)
                 (JObj (Actions.applicationInput applicationWithoutFile))
               = Zod.Success applicationValidated)
    by (vm_compute; reflexivity).
  destruct (@applyForJob_without_resume samplePlatform JNull
              applicationWithoutFile applicationValidated emptyWorld Hs Hfile)
    as (Hcalls & Hbucket & _ & Hok).
  split; [reflexivity|]. split; [reflexivity|].
  split; [exact Hcalls|]. split; [exact Hbucket|].
  exact (Hok eq_refl eq_refl).
Defined.

(** The same application with the years of experience left empty: the
    document handed to the store has the field, undefined. *)
Example applyForJob_blank_years :
  calls (snd (@Actions.applyForJob samplePlatform JNull
                (applicationWithYears "") emptyWorld))
  = [ AddDoc "applications"
        [ ("jobId", JStr "job-42");
          ("fullName", JStr "Meera Nair");
          ("mobile", JStr "9876543210");
          ("email", JStr "meera@example.org");
          ("hasExperience", JStr "yes");
          ("yearsOfExperience", JUndefined);
          ("languages", JArr []);
          ("readyToRelocate", JStr "yes");
          ("confirmInfo", JBool true);
          ("agreeTerms", JBool true);
          ("submittedAt", JServerTimestamp) ] ].
Proof. vm_compute. reflexivity. Qed.

(* ================================================================== *)
(** ** Earnings: a submission whose writes do not all go through *)
(* ================================================================== *)

Lemma goingThrough_S (n : nat) (c : Call) (w : World) :
  goingThrough (S n) w
  = ((if failsAt 0 w then 0 else 1) + goingThrough n (afterCall c w))%nat.
Proof.
  unfold goingThrough. cbn [seq filter].
  assert (E : filter (fun i => negb (failsAt i w)) (seq 1 n)
              = map S (filter (fun i => negb (failsAt i (afterCall c w)))
                         (seq 0 n))).
  { rewrite <- seq_shift, filter_map_swap. f_equal.
    apply filter_ext. intros i. now rewrite failsAt_afterCall. }
  rewrite E. destruct (failsAt 0 w); cbn [negb List.length Nat.add];
    now rewrite length_map.
Qed.

Lemma goingThrough_added (n : nat) (c : string) (data : object) (w : World) :
  goingThrough n (added c data w)
  = goingThrough n (afterCall (AddDoc c data) w).
Proof. reflexivity. Qed.

(** The writes of [Promise.all] that the store takes are kept, whatever
    happens to the others; the join fails as soon as one of them fails. *)
Lemma promiseAll_addDoc_some (f : jsval -> object) (vs : list jsval) :
  forall w,
    let run := promiseAll (map (fun v => addDoc "earnings" (f v)) vs) w in
    List.length (store (snd run) "earnings")
    = (List.length (store w "earnings") + goingThrough (List.length vs) w)%nat
    /\ ((exists i, (i < List.length vs)%nat /\ failsAt i w = true) ->
        exists e, fst run = Throw e)
    /\ (forall c, String.eqb c "earnings" = false ->
          store (snd run) c = store w c).
Proof.
  induction vs as [|v vs IH]; intros w run; subst run.
  - cbn [map promiseAll fst snd List.length]. unfold goingThrough.
    cbn [seq filter List.length]. split; [lia|]. split; [|reflexivity].
    intros (i & Hi & _). inversion Hi.
  - cbn [map promiseAll List.length].
    rewrite (goingThrough_S _ (AddDoc "earnings" (f v)) w).
    destruct (failsAt 0 w) eqn:Hf.
    + rewrite (addDoc_fails _ _ w Hf).
      specialize (IH (afterCall (AddDoc "earnings" (f v)) w)).
      cbv zeta in IH. destruct IH as (Hlen & _ & Hother).
      destruct (promiseAll _ (afterCall _ w)) as [rs w2] eqn:Er.
      cbn [fst snd] in *. split; [rewrite Hlen; reflexivity|].
      split; [intros _; eexists; reflexivity | exact Hother].
    + rewrite (addDoc_ok _ _ w Hf).
      specialize (IH (added "earnings" (f v) w)).
      cbv zeta in IH. destruct IH as (Hlen & Hthrow & Hother).
      destruct (promiseAll _ (added _ _ w)) as [rs w2] eqn:Er.
      cbn [fst snd] in *. split; [| split].
      * rewrite Hlen, store_added_same, length_app, goingThrough_added.
        cbn [List.length]. lia.
      * intros (i & Hi & Hfi). destruct i as [|i]; [congruence|].
        destruct Hthrow as [e He].
        { exists i. split; [lia|]. now rewrite failsAt_added. }
        rewrite He. now exists e.
      * intros c Hc. rewrite (Hother c Hc). now apply store_added_other.
Qed.

(** The run of [submitEarnings] on well-formed line items, once validated. *)
Lemma submitEarnings_validated (o : object) (items : list jsval)
      (e n : string) :
  get "earnings" o = JArr items -> items <> [] ->
  get "employeeId" o = JStr e -> get "employeeName" o = JStr n ->
  forallb (accepted Actions.earningSchema) items = true ->
  Actions.submitEarnings (JObj o)
  = tryCatch
      (promiseAll
         (map (fun x =>
                 addDoc "earnings"
                   (Actions.earningDocument (JStr e) (JStr n)
                      (Zod.value (Actions.earningSchema x))))
              items) ;;
       ret (result true "Earnings submitted successfully."))
      (fun _ => ret (result false "Failed to submit earnings.")).
Proof.
  intros He Hne Hid Hname Hok.
  assert (Hvalid : Forall (fun x => Zod.status (Actions.earningSchema x)
                                    = Zod.Valid) items).
  { apply Forall_forall. intros x Hx. apply accepted_status.
    rewrite forallb_forall in Hok. now apply Hok. }
  destruct (elements_values Actions.earningSchema items Hvalid 0)
    as [Hst Hvs].
  unfold Actions.submitEarnings, Actions.earningsSchema.
  match goal with
  | |- context [Zod.safeParse (Zod.object_ ?sh) _] => set (shape := sh)
  end.
  assert (Hnd : NoDup (map fst shape)).
  { subst shape. simpl. repeat constructor; simpl; intuition discriminate. }
  assert (Hie : In ("earnings",
                    Zod.array Actions.earningSchema 1
                      "Please add at least one earning.") shape)
    by (subst shape; simpl; tauto).
  assert (Hii : In ("employeeId", Zod.string_ []) shape)
    by (subst shape; simpl; tauto).
  assert (Hin : In ("employeeName", Zod.string_ []) shape)
    by (subst shape; simpl; tauto).
  assert (Hall : Forall (fun kt => Zod.status (snd kt (get (fst kt) o))
                                   = Zod.Valid) shape).
  { subst shape. repeat constructor; cbn [fst snd].
    - rewrite He, array_status, Hst.
      destruct items; [now elim Hne | reflexivity].
    - now rewrite Hid.
    - now rewrite Hname. }
  clearbody shape.
  rewrite (ZodFacts.safeParse_object_valid shape o Hall). cbn [dataOf].
  rewrite (ZodObjects.output_get shape o _ _ Hnd Hie).
  rewrite (ZodObjects.output_get shape o _ _ Hnd Hii).
  rewrite (ZodObjects.output_get shape o _ _ Hnd Hin).
  rewrite He, Hid, Hname, array_value, Hvs.
  cbn [Zod.string_ Zod.checked Zod.failing filter map Zod.value itemsOf].
  now rewrite map_map.
Qed.

(** X18 -- a submission of well-formed line items one of whose writes fails is
    reported as failed, but the writes that went through are not undone:
    the collection grows by as many documents as writes went through. *)
Theorem submitEarnings_failure_keeps_written_items
        (o : object) (items : list jsval) (e n : string) (w : World) :
  get "earnings" o = JArr items ->
  get "employeeId" o = JStr e -> get "employeeName" o = JStr n ->
  forallb (accepted Actions.earningSchema) items = true ->
  (exists i, (i < List.length items)%nat /\ failsAt i w = true) ->
  let run := Actions.submitEarnings (JObj o) w in
  fst run = Return (result false "Failed to submit earnings.")
  /\ List.length (store (snd run) "earnings")
     = (List.length (store w "earnings")
        + goingThrough (List.length items) w)%nat
  /\ (forall c, String.eqb c "earnings" = false ->
        store (snd run) c = store w c).
Proof.
  intros He Hid Hname Hok Hfail run. subst run.
  assert (Hne : items <> []).
  { intros ->. destruct Hfail as (i & Hi & _). inversion Hi. }
  rewrite (submitEarnings_validated o items e n He Hne Hid Hname Hok).
  pose proof (promiseAll_addDoc_some
                (fun x => Actions.earningDocument (JStr e) (JStr n)
                            (Zod.value (Actions.earningSchema x)))
                items w) as Hrun.
  cbv zeta in Hrun. destruct Hrun as (Hlen & Hthrow & Hother).
  destruct (Hthrow Hfail) as [err Herr].
  unfold tryCatch, bind.
  destruct (promiseAll _ w) as [rs w2] eqn:Er. cbn [fst snd] in *.
  subst rs. cbn [fst snd ret]. split; [reflexivity|].
  split; [exact Hlen | exact Hother].
Qed.

Lemma submitEarnings_failure_keeps_written_items_witness :
  let w := withFaults [true; false] emptyWorld in
  let run := Actions.submitEarnings (JObj (earningsSubmission twoItems)) w in
  (exists i, (i < List.length twoItems)%nat /\ failsAt i w = true)
  /\ goingThrough (List.length twoItems) w = 1%nat
  /\ fst run = Return (result false "Failed to submit earnings.")
  /\ List.length (store (snd run) "earnings")
     = (List.length (store w "earnings")
        + goingThrough (List.length twoItems) w)%nat
  /\ (forall c, String.eqb c "earnings" = false ->
        store (snd run) c = store w c).
Proof.
  assert (Hfail : exists i, (i < List.length twoItems)%nat
                            /\ failsAt i (withFaults [true; false] emptyWorld)
                               = true).
  { exists 0%nat. split; [simpl; lia | reflexivity]. }
  split; [exact Hfail|]. split; [reflexivity|].
  apply (submitEarnings_failure_keeps_written_items
           (earningsSubmission twoItems) twoItems "emp-1" "Asha"
           (withFaults [true; false] emptyWorld));
    try reflexivity. exact Hfail.
Defined.

(* ================================================================== *)
(** ** From the forms of the pages to the store *)
(* ================================================================== *)

(** [user.displayName || user.email || "Unknown"] is a name that is not
    empty. *)
Lemma employeeName_is_text (u : User) :
  nameGiven (displayName u) = true -> nameGiven (userEmail u) = true ->
  exists s,
    js_or (js_or (displayName u) (userEmail u)) (JStr "Unknown") = JStr s
    /\ s <> "".
Proof.
  intros Hd He. unfold js_or.
  destruct (displayName u) as [ | | | | d | | | | | ]; try discriminate;
    destruct (userEmail u) as [ | | | | e | | | | | ]; try discriminate;
    cbn [truthy]; try (exists "Unknown"; split; [reflexivity | discriminate]).
  - destruct (String.eqb e "") eqn:E; cbn [negb].
    + exists "Unknown". split; [reflexivity | discriminate].
    + exists e. split; [reflexivity | now apply String.eqb_neq].
  - destruct (String.eqb e "") eqn:E; cbn [negb].
    + exists "Unknown". split; [reflexivity | discriminate].
    + exists e. split; [reflexivity | now apply String.eqb_neq].
  - destruct (String.eqb d "") eqn:E; cbn [negb truthy].
    + exists "Unknown". split; [reflexivity | discriminate].
    + rewrite E. exists d. split; [reflexivity | now apply String.eqb_neq].
  - destruct (String.eqb d "") eqn:E; cbn [negb truthy].
    + exists "Unknown". split; [reflexivity | discriminate].
    + rewrite E. exists d. split; [reflexivity | now apply String.eqb_neq].
  - destruct (String.eqb d "") eqn:E; cbn [negb truthy].
    + destruct (String.eqb e "") eqn:E'; cbn [negb].
      * exists "Unknown". split; [reflexivity | discriminate].
      * exists e. split; [reflexivity | now apply String.eqb_neq].
    + rewrite E. exists d. split; [reflexivity | now apply String.eqb_neq].
Qed.

(** A coerced number field of an accepted object. *)
Lemma accepted_number_field (shape : list (string * Zod.ZodType)) (o : object)
      (k : string) (checks : list (Zod.Check number)) :
  In (k, Zod.coerce_number checks) shape ->
  accepted (Zod.object_ shape) (JObj o) = true ->
  isNaN (Number (get k o)) = false
  /\ forall c, In c checks -> Zod.test c (Number (get k o)) = true.
Proof.
  intros Hin Hacc. apply accepted_status in Hacc.
  rewrite ZodFacts.object_status in Hacc.
  pose proof (ZodFacts.properties_valid shape o Hacc _ _ Hin) as Hv.
  apply ZodObjects.coerce_number_valid in Hv. tauto.
Qed.



(** The value of an optional coerced number that is valid. *)
Lemma optional_number_valid (v : jsval) :
  Zod.status (Zod.optional (Zod.coerce_number []) v) = Zod.Valid ->
  Zod.value (Zod.optional (Zod.coerce_number []) v) = JUndefined
  \/ exists a, Zod.value (Zod.optional (Zod.coerce_number []) v) = JNum a
               /\ isNaN a = false.
Proof.
  intros Hv. destruct v; [now left | ..];
    unfold Zod.optional in *; apply ZodObjects.coerce_number_valid in Hv;
    destruct Hv as (Hn & Hval & _); right; eexists; split;
    [exact Hval | exact Hn | exact Hval | exact Hn | exact Hval | exact Hn
     | exact Hval | exact Hn | exact Hval | exact Hn | exact Hval | exact Hn
     | exact Hval | exact Hn | exact Hval | exact Hn | exact Hval | exact Hn].
Qed.

(** ... is accepted again as it is. *)
Lemma optional_number_again (x : jsval) :
  x = JUndefined \/ (exists a, x = JNum a /\ isNaN a = false) ->
  Zod.optional (Zod.coerce_number []) x = Zod.OK x.
Proof.
  intros [-> | (a & -> & Ha)]; [reflexivity|].
  unfold Zod.optional. apply ZodObjects.coerce_number_accepts;
    [exact Ha | reflexivity].
Qed.

Lemma default_boolean_valid (v : jsval) :
  Zod.status (Zod.default Zod.boolean (JBool false) v) = Zod.Valid ->
  exists b, Zod.value (Zod.default Zod.boolean (JBool false) v) = JBool b
            /\ (b = true -> v = JBool true).
Proof.
  intros Hv. destruct v; try discriminate.
  - exists false. split; [reflexivity | discriminate].
  - exists b. split; [reflexivity | now intros ->].
Qed.

Lemma dsrForm_keys :
  NoDup ["description"; "hasTravelled"; "openingKm"; "closingKm"].
Proof. repeat constructor; cbn [In]; intuition discriminate. Qed.

Lemma dsrSchema_keys :
  NoDup [ "description"; "hasTravelled"; "openingKm"; "closingKm";
          "employeeId"; "employeeName" ].
Proof. repeat constructor; cbn [In]; intuition discriminate. Qed.

(** What the form of the DSR page makes of accepted values. *)
Lemma dsrForm_values (o : object) :
  accepted DsrPage.dsrSchema (JObj o) = true ->
  exists values d b,
    Zod.safeParse DsrPage.dsrSchema (JObj o) = Zod.Success (JObj values)
    /\ get "description" values = JStr d /\ (10 <= String.length d)%nat
    /\ get "hasTravelled" values = JBool b
    /\ (get "openingKm" values = JUndefined
        \/ exists a, get "openingKm" values = JNum a /\ isNaN a = false)
    /\ (get "closingKm" values = JUndefined
        \/ exists a, get "closingKm" values = JNum a /\ isNaN a = false)
    /\ (b = true ->
        exists x y,
          get "openingKm" values = JNum x /\ get "closingKm" values = JNum y
          /\ gtb y x = true).
Proof.
  intros Hacc. pose proof (accepted_success _ _ Hacc) as Hs.
  assert (Hforward :
            get "hasTravelled" o = JBool true ->
            exists x y,
              get "openingKm" (dataOf (Zod.value (DsrPage.dsrSchema (JObj o))))
              = JNum x
              /\ get "closingKm"
                   (dataOf (Zod.value (DsrPage.dsrSchema (JObj o)))) = JNum y
              /\ gtb y x = true).
  { intros Ht. exact (form_schema_requires_forward_readings o _ Ht Hs). }
  revert Hs Hforward. generalize (Zod.value (DsrPage.dsrSchema (JObj o))).
  intros v Hs Hforward. clear Hacc.
  pose proof Hs as Hs'. unfold DsrPage.dsrSchema in Hs'.
  match type of Hs' with
  | context [Zod.object_ ?sh] => set (form := sh) in *
  end.
  assert (Hnd : NoDup (map fst form)) by exact dsrForm_keys.
  assert (Hi1 : In ("description",
                    Zod.string_
                      [Zod.min 10
                         "Please provide a detailed description of your work."])
                   form) by (subst form; cbn [In]; tauto).
  assert (Hi2 : In ("hasTravelled", Zod.default Zod.boolean (JBool false))
                   form) by (subst form; cbn [In]; tauto).
  assert (Hi3 : In ("openingKm", Zod.optional (Zod.coerce_number [])) form)
    by (subst form; cbn [In]; tauto).
  assert (Hi4 : In ("closingKm", Zod.optional (Zod.coerce_number [])) form)
    by (subst form; cbn [In]; tauto).
  clearbody form.
  apply ZodObjects.safeParse_refine_success in Hs'.
  destruct Hs' as (Hst & Hval & _).
  rewrite ZodFacts.object_status in Hst.
  rewrite ZodFacts.object_value in Hval. subst v. cbn [dataOf] in Hforward.
  pose proof (ZodFacts.properties_valid form o Hst) as Hall.
  destruct (ZodObjects.string_valid _ _ (Hall _ _ Hi1)) as (d & _ & V1 & C1).
  specialize (C1 _ (or_introl eq_refl)). cbn [Zod.test Zod.min] in C1.
  apply Nat.leb_le in C1.
  destruct (default_boolean_valid _ (Hall _ _ Hi2)) as (b & V2 & Hb).
  exists (Zod.outputOf (Zod.properties form o)), d, b.
  rewrite (ZodObjects.output_get form o _ _ Hnd Hi1),
    (ZodObjects.output_get form o _ _ Hnd Hi2),
    (ZodObjects.output_get form o _ _ Hnd Hi3),
    (ZodObjects.output_get form o _ _ Hnd Hi4).
  rewrite (ZodObjects.output_get form o _ _ Hnd Hi3),
    (ZodObjects.output_get form o _ _ Hnd Hi4) in Hforward.
  split; [exact Hs|]. split; [exact V1|]. split; [exact C1|].
  split; [exact V2|].
  split; [exact (optional_number_valid _ (Hall _ _ Hi3))|].
  split; [exact (optional_number_valid _ (Hall _ _ Hi4))|].
  intros ->. exact (Hforward (Hb eq_refl)).
Qed.

(** The server's schema accepts what the form hands over. *)
Lemma dsrSchema_accepts_form_values
      (payload : object) (d name uid : string) (b : bool) :
  get "description" payload = JStr d -> (10 <= String.length d)%nat ->
  get "hasTravelled" payload = JBool b ->
  (get "openingKm" payload = JUndefined
   \/ exists a, get "openingKm" payload = JNum a /\ isNaN a = false) ->
  (get "closingKm" payload = JUndefined
   \/ exists a, get "closingKm" payload = JNum a /\ isNaN a = false) ->
  get "employeeId" payload = JStr uid ->
  get "employeeName" payload = JStr name ->
  exists out,
    Zod.safeParse Actions.dsrSchema (JObj payload) = Zod.Success (JObj out)
    /\ get "hasTravelled" out = JBool b
    /\ get "openingKm" out = get "openingKm" payload
    /\ get "closingKm" out = get "closingKm" payload
    /\ get "employeeId" out = JStr uid.
Proof.
  intros P1 C1 P2 V3 V4 P5 P6. unfold Actions.dsrSchema.
  match goal with
  | |- context [Zod.safeParse (Zod.object_ ?sh) _] => set (shape := sh) in *
  end.
  assert (Hnd : NoDup (map fst shape)) by exact dsrSchema_keys.
  assert (Hj2 : In ("hasTravelled", Zod.default Zod.boolean (JBool false))
                   shape) by (subst shape; cbn [In]; tauto).
  assert (Hj3 : In ("openingKm", Zod.optional (Zod.coerce_number [])) shape)
    by (subst shape; cbn [In]; tauto).
  assert (Hj4 : In ("closingKm", Zod.optional (Zod.coerce_number [])) shape)
    by (subst shape; cbn [In]; tauto).
  assert (Hj5 : In ("employeeId", Zod.string_ []) shape)
    by (subst shape; cbn [In]; tauto).
  assert (Hacc : accepted (Zod.object_ shape) (JObj payload) = true).
  { rewrite accepted_object. subst shape. cbn [forallb fst snd].
    unfold accepted, Zod.safeParse.
    rewrite (optional_number_again _ V3), (optional_number_again _ V4).
    rewrite P1, P2, P5, P6, (min_accepts _ _ _ C1). reflexivity. }
  clearbody shape.
  exists (Zod.outputOf (Zod.properties shape payload)).
  split; [exact (accepted_value_object shape payload Hacc)|].
  rewrite (ZodObjects.output_get shape payload _ _ Hnd Hj2),
    (ZodObjects.output_get shape payload _ _ Hnd Hj3),
    (ZodObjects.output_get shape payload _ _ Hnd Hj4),
    (ZodObjects.output_get shape payload _ _ Hnd Hj5).
  rewrite (optional_number_again _ V3), (optional_number_again _ V4).
  rewrite P2, P5. repeat split.
Qed.

(** X20 -- a report that passes the form of the DSR page is never refused by the
    server's validation: with a signed-in user and the store taking the
    write, it is stored under the user's identifier, and when it says the
    employee travelled it carries both readings, the closing one above the
    opening one. *)
Theorem dsr_form_stores_forward_readings (u : User) (o : object) (w : World) :
  accepted DsrPage.dsrSchema (JObj o) = true ->
  nameGiven (displayName u) = true -> nameGiven (userEmail u) = true ->
  failsAt 0 w = false ->
  let run := DsrPage.handleSubmit (Some u) (JObj o) w in
  fst run = Return (Some (result true "DSR submitted successfully."))
  /\ exists doc,
      store (snd run) "dsr"
      = store w "dsr"
        ++ [ {| docId := ("doc" ++ decimal (nextId w))%string;
                docData := doc |} ]
      /\ get "employeeId" doc = JStr (userUid u)
      /\ get "date" doc = JTimestamp (serverTime w)
      /\ (get "hasTravelled" doc = JBool true ->
          exists a b,
            get "openingKm" doc = JNum a /\ get "closingKm" doc = JNum b
            /\ gtb b a = true).
Proof.
  intros Hacc Hd He Hf run. subst run.
  destruct (employeeName_is_text u Hd He) as (name & Hname & _).
  destruct (dsrForm_values o Hacc)
    as (values & d & b & Hs & G1 & C1 & G2 & V3 & V4 & Hforward).
  unfold DsrPage.handleSubmit. rewrite Hs.
  unfold DsrPage.onSubmit. rewrite Hname. cbn [dataOf].
  set (payload := spread values _).
  assert (P1 : get "description" payload = JStr d)
    by (subst payload; now rewrite get_spread_two).
  assert (P2 : get "hasTravelled" payload = JBool b)
    by (subst payload; now rewrite get_spread_two).
  assert (P3 : get "openingKm" payload = get "openingKm" values)
    by (subst payload; now rewrite get_spread_two).
  assert (P4 : get "closingKm" payload = get "closingKm" values)
    by (subst payload; now rewrite get_spread_two).
  assert (P5 : get "employeeId" payload = JStr (userUid u))
    by (subst payload; now rewrite get_spread_two).
  assert (P6 : get "employeeName" payload = JStr name)
    by (subst payload; now rewrite get_spread_two).
  clearbody payload. rewrite <- P3 in V3, Hforward. rewrite <- P4 in V4, Hforward.
  destruct (dsrSchema_accepts_form_values payload d name (userUid u) b
              P1 C1 P2 V3 V4 P5 P6) as (out & Hs' & O2 & O3 & O4 & O5).
  unfold bind, Actions.submitDsr. rewrite Hs'. cbn [dataOf].
  rewrite (write_accepted _ _ _ _ w Hf). cbn [fst snd ret].
  split; [reflexivity|]. eexists. split; [apply store_added_same|].
  rewrite !get_dated. cbn [String.eqb Ascii.eqb Bool.eqb].
  rewrite O2, O3, O4, O5.
  split; [reflexivity|]. split; [reflexivity|].
  intros Hb. injection Hb as ->.
  destruct (Hforward eq_refl) as (x & y & Hx & Hy & Hgt).
  exists x, y. rewrite Hx, Hy. repeat split. exact Hgt.
Qed.

Lemma dsr_form_stores_forward_readings_witness :
  let o := dataOf (travelledForm "Visited two client sites" (JStr "15000")
                     (JStr "15100")) in
  let run := DsrPage.handleSubmit (Some sampleUser) (JObj o) emptyWorld in
  fst run = Return (Some (result true "DSR submitted successfully."))
  /\ exists doc,
      store (snd run) "dsr"
      = store emptyWorld "dsr"
        ++ [ {| docId := ("doc" ++ decimal (nextId emptyWorld))%string;
                docData := doc |} ]
      /\ get "employeeId" doc = JStr (userUid sampleUser)
      /\ get "date" doc = JTimestamp (serverTime emptyWorld)
      /\ (get "hasTravelled" doc = JBool true ->
          exists a b,
            get "openingKm" doc = JNum a /\ get "closingKm" doc = JNum b
            /\ gtb b a = true).
Proof.
  apply (dsr_form_stores_forward_readings sampleUser
           (dataOf (travelledForm "Visited two client sites" (JStr "15000")
                      (JStr "15100")))
           emptyWorld); vm_compute; reflexivity.
Defined.
Lemma goingThrough_all (n : nat) (w : World) :
  (forall i, (i < n)%nat -> failsAt i w = false) -> goingThrough n w = n.
Proof.
  intros Hf. unfold goingThrough.
  assert (E : filter (fun i => negb (failsAt i w)) (seq 0 n) = seq 0 n).
  { apply forallb_filter_id. apply forallb_forall. intros i Hi.
    apply in_seq in Hi. rewrite Hf by lia. reflexivity. }
  now rewrite E, length_seq.
Qed.

(** A line item the form of the earnings page accepts comes out as one the
    server accepts, and parses to itself there. *)
Lemma earningsForm_item (x : jsval) :
  accepted
    (Zod.object_
       [ ("description",
           Zod.string_
             [Zod.min 3 "Description must be at least 3 characters."]);
         ("amount",
           Zod.coerce_number
             [Zod.nmin (ofN 1) "Amount must be a positive number."]) ]) x
  = true ->
  exists d a,
    Zod.value
      (Zod.object_
         [ ("description",
             Zod.string_
               [Zod.min 3 "Description must be at least 3 characters."]);
           ("amount",
             Zod.coerce_number
               [Zod.nmin (ofN 1) "Amount must be a positive number."]) ] x)
    = lineItem d (JNum a)
    /\ accepted Actions.earningSchema (lineItem d (JNum a)) = true.
Proof.
  intros Hacc. destruct x as [ | | | | | | o | | | ]; try discriminate.
  match type of Hacc with
  | context [Zod.object_ ?sh] => set (shape := sh) in *
  end.
  assert (Hi1 : In ("description",
                    Zod.string_
                      [Zod.min 3 "Description must be at least 3 characters."])
                   shape) by (subst shape; cbn [In]; tauto).
  assert (Hi2 : In ("amount",
                    Zod.coerce_number
                      [Zod.nmin (ofN 1) "Amount must be a positive number."])
                   shape) by (subst shape; cbn [In]; tauto).
  destruct (accepted_string_field shape o _ _ Hi1 Hacc) as (d & Hd & Cd).
  destruct (accepted_number_field shape o _ _ Hi2 Hacc) as (Hn & Ca).
  specialize (Cd _ (or_introl eq_refl)). specialize (Ca _ (or_introl eq_refl)).
  cbn [Zod.test Zod.min Zod.nmin] in Cd, Ca.
  apply negb_true_iff in Ca.
  exists d, (Number (get "amount" o)). split.
  - rewrite ZodFacts.object_value, output_flat_map. subst shape.
    unfold outputs. cbn [flat_map fst snd]. rewrite Hd.
    rewrite (min_accepts _ _ _ (proj1 (Nat.leb_le _ _) Cd)),
      (nmin_accepts _ _ _ Hn Ca).
    reflexivity.
  - rewrite lineItem_accepted. cbn [Number]. now rewrite Cd, Hn, Ca.
Qed.

(** X21 -- earnings that pass the form of the earnings page are never refused by
    the server's validation: with a signed-in user and the store taking
    the writes, the submission succeeds and the collection grows by one
    document per line item. *)
Theorem earnings_form_reaches_the_store
        (u : User) (o : object) (items : list jsval) (w : World) :
  accepted EarningsPage.earningsSchema (JObj o) = true ->
  get "earnings" o = JArr items ->
  nameGiven (displayName u) = true -> nameGiven (userEmail u) = true ->
  (forall i, (i < List.length items)%nat -> failsAt i w = false) ->
  let run := EarningsPage.handleSubmit (Some u) (JObj o) w in
  fst run = Return (Some (result true "Earnings submitted successfully."))
  /\ items <> []
  /\ List.length (store (snd run) "earnings")
     = (List.length (store w "earnings") + List.length items)%nat
  /\ (forall c, String.eqb c "earnings" = false ->
        store (snd run) c = store w c).
Proof.
  intros Hacc Hitems Hd He Hf run. subst run.
  destruct (employeeName_is_text u Hd He) as (name & Hname & _).
  pose proof (accepted_value_object _ _ Hacc) as Hs.
  unfold EarningsPage.handleSubmit. unfold EarningsPage.earningsSchema in *.
  rewrite Hs. clear Hs.
  rewrite accepted_object in Hacc. cbn [forallb fst snd] in Hacc.
  rewrite andb_true_r, Hitems in Hacc.
  rewrite output_flat_map. unfold outputs. cbn [flat_map fst snd app].
  rewrite Hitems.
  match type of Hacc with
  | accepted (Zod.array ?t _ _) _ = _ => set (item := t) in *
  end.
  apply accepted_status in Hacc. rewrite array_status in Hacc.
  apply ZodFacts.merge_valid in Hacc. destruct Hacc as [Hmin Hst].
  assert (Hne : items <> []).
  { intros ->. discriminate. }
  pose proof (ZodFacts.elements_valid item items 0 Hst) as Hall.
  destruct (elements_values item items Hall 0) as [_ Hvs].
  rewrite array_value, Hvs.
  unfold EarningsPage.onSubmit. rewrite Hname.
  cbn [dataOf app get String.eqb Ascii.eqb Bool.eqb].
  set (parsed := map (fun x => Zod.value (item x)) items).
  assert (Hok : forallb (accepted Actions.earningSchema) parsed = true).
  { apply forallb_forall. intros y Hy. subst parsed.
    apply in_map_iff in Hy. destruct Hy as (x & <- & Hx).
    rewrite Forall_forall in Hall.
    destruct (earningsForm_item x) as (d & a & Hv & Ha).
    { apply accepted_status. now apply Hall. }
    subst item. now rewrite Hv. }
  assert (Hlen : List.length parsed = List.length items)
    by (subst parsed; apply length_map).
  assert (Hnp : parsed <> []).
  { intros E. rewrite E in Hlen. destruct items; [now elim Hne | discriminate]. }
  clearbody parsed.
  unfold bind.
  rewrite (submitEarnings_validated
             [ ("earnings", JArr parsed); ("employeeId", JStr (userUid u));
               ("employeeName", JStr name) ]
             parsed (userUid u) name eq_refl Hnp eq_refl eq_refl Hok).
  pose proof (promiseAll_addDoc_some
                (fun x => Actions.earningDocument (JStr (userUid u)) (JStr name)
                            (Zod.value (Actions.earningSchema x)))
                parsed w) as Hsome.
  destruct (promiseAll_addDoc
              (fun x => Actions.earningDocument (JStr (userUid u)) (JStr name)
                          (Zod.value (Actions.earningSchema x)))
              parsed w) as (ids & w' & Hrun & _).
  { intros i Hi. apply Hf. now rewrite <- Hlen. }
  cbv beta zeta in Hsome, Hrun. rewrite Hrun in Hsome.
  cbn [fst snd] in Hsome.
  destruct Hsome as (Hcount & _ & Hother).
  unfold tryCatch, bind. rewrite Hrun. cbn [fst snd ret].
  split; [reflexivity|]. split; [exact Hne|]. split; [| exact Hother].
  rewrite Hcount, goingThrough_all, Hlen; [reflexivity|].
  intros i Hi. apply Hf. now rewrite <- Hlen.
Qed.

Lemma earnings_form_reaches_the_store_witness :
  let o := [("earnings", JArr twoItems)] in
  let run := EarningsPage.handleSubmit (Some sampleUser) (JObj o) emptyWorld in
  fst run = Return (Some (result true "Earnings submitted successfully."))
  /\ twoItems <> []
  /\ List.length (store (snd run) "earnings")
     = (List.length (store emptyWorld "earnings") + List.length twoItems)%nat
  /\ (forall c, String.eqb c "earnings" = false ->
        store (snd run) c = store emptyWorld c).
Proof.
  apply (earnings_form_reaches_the_store sampleUser
           [("earnings", JArr twoItems)] twoItems emptyWorld);
    try (vm_compute; reflexivity).
  intros [|[|i]] Hi; [reflexivity | reflexivity | simpl in Hi; lia].
Defined.
(* ================================================================== *)
(** ** The page to join as a member, and the server behind it *)
(* ================================================================== *)

Lemma ltb_ofN (a b : N) : ltb (ofN a) (ofN b) = (a <? b)%N.
Proof.
  unfold ofN. destruct (a <? b)%N eqn:E.
  - apply ltb_Fin. rewrite <- Zlt_Qlt. apply N.ltb_lt in E. lia.
  - destruct (ltb (Fin (inject_Z (Z.of_N a))) (Fin (inject_Z (Z.of_N b))))
      eqn:L; [|reflexivity].
    apply ltb_Fin in L. rewrite <- Zlt_Qlt in L. apply N.ltb_ge in E. lia.
Qed.

Section JoiningAsMember.

Context `{Platform}.

(** What the form of the page makes of accepted values. *)
Lemma joinForm_validated (o : object) :
  accepted JoinMembershipPage.membershipSchema (JObj o) = true ->
  exists n e p s d u,
    Zod.safeParse JoinMembershipPage.membershipSchema (JObj o)
    = Zod.Success
        (JObj [ ("name", JStr n); ("email", JStr e); ("phone", JStr p);
                ("state", JStr s); ("district", JStr d); ("utr", JStr u) ])
    /\ get "state" o = JStr s /\ get "district" o = JStr d
    /\ get "utr" o = JStr u
    /\ (2 <= String.length n)%nat /\ isEmail e = true
    /\ (10 <= String.length p)%nat /\ (10 <= String.length u)%nat.
Proof.
  intros Hacc. unfold JoinMembershipPage.membershipSchema in *.
  match goal with
  | |- context [Zod.safeParse (Zod.object_ ?sh) _] => set (shape := sh) in *
  end.
  assert (Hi1 : In ("name", Zod.string_ [Zod.min 2 "Name is required."]) shape)
    by (subst shape; cbn [In]; tauto).
  assert (Hi2 : In ("email",
                    Zod.string_ [Zod.email "A valid email is required."])
                   shape) by (subst shape; cbn [In]; tauto).
  assert (Hi3 : In ("phone",
                    Zod.string_
                      [Zod.min 10 "A valid 10-digit phone number is required.";
                       Zod.max 13 "Phone number is too long."]) shape)
    by (subst shape; cbn [In]; tauto).
  assert (Hi4 : In ("state", Zod.string_ [Zod.min 1 "State is required."])
                   shape) by (subst shape; cbn [In]; tauto).
  assert (Hi5 : In ("district",
                    Zod.string_ [Zod.min 1 "District is required."]) shape)
    by (subst shape; cbn [In]; tauto).
  assert (Hi6 : In ("utr",
                    Zod.string_
                      [Zod.min 10 "A valid UTR/Transaction ID is required."])
                   shape) by (subst shape; cbn [In]; tauto).
  destruct (accepted_string_field shape o _ _ Hi1 Hacc) as (n & Hn & Cn).
  destruct (accepted_string_field shape o _ _ Hi2 Hacc) as (e & He & Ce).
  destruct (accepted_string_field shape o _ _ Hi3 Hacc) as (p & Hp & Cp).
  destruct (accepted_string_field shape o _ _ Hi4 Hacc) as (s & Hs & Cs).
  destruct (accepted_string_field shape o _ _ Hi5 Hacc) as (d & Hd & Cd).
  destruct (accepted_string_field shape o _ _ Hi6 Hacc) as (u & Hu & Cu).
  exists n, e, p, s, d, u.
  pose proof (Cn _ (or_introl eq_refl)) as Cn1.
  pose proof (Ce _ (or_introl eq_refl)) as Ce1.
  pose proof (Cp _ (or_introl eq_refl)) as Cp1.
  pose proof (Cu _ (or_introl eq_refl)) as Cu1.
  cbn [Zod.test Zod.min Zod.email] in Cn1, Ce1, Cp1, Cu1.
  apply Nat.leb_le in Cn1, Cp1, Cu1.
  assert (Hout : flat_map (outputs o) shape
                 = [ ("name", JStr n); ("email", JStr e); ("phone", JStr p);
                     ("state", JStr s); ("district", JStr d);
                     ("utr", JStr u) ]).
  { subst shape. unfold outputs. cbn [flat_map fst snd].
    now rewrite Hn, He, Hp, Hs, Hd, Hu. }
  clearbody shape.
  rewrite (accepted_value_object shape o Hacc), output_flat_map, Hout.
  repeat split; assumption.
Qed.

(** The guard of [onSubmit] lets a transaction identifier of at least 10
    characters through. *)
Lemma utr_guard (u : string) :
  (10 <= String.length u)%nat ->
  negb (truthy (JStr u)) || js_gt (JNum (ofN 10)) (lengthOf (JStr u)) = false.
Proof.
  intros Hu. cbn [truthy lengthOf js_gt Number]. unfold gtb.
  rewrite ltb_ofN.
  assert (E : String.eqb u "" = false).
  { apply String.eqb_neq. intros ->. simpl in Hu. lia. }
  rewrite E. cbn [negb orb]. apply N.ltb_ge. lia.
Qed.

(** What the server's schema says of the values of the form. *)
Lemma membership_values_accepted (n e p s d u : string) :
  (2 <= String.length n)%nat -> isEmail e = true ->
  (10 <= String.length p)%nat -> (10 <= String.length u)%nat ->
  accepted Actions.membershipApplicationSchema
    (JObj [ ("name", JStr n); ("email", JStr e); ("phone", JStr p);
            ("state", JStr s); ("district", JStr d); ("utr", JStr u) ])
  = (2 <=? String.length d)%nat && (2 <=? String.length s)%nat.
Proof.
  intros Cn Ce Cp Cu. unfold Actions.membershipApplicationSchema.
  rewrite accepted_object.
  cbn [forallb fst snd get String.eqb Ascii.eqb Bool.eqb].
  rewrite !accepted_string. cbn [forallb Zod.test Zod.min Zod.email].
  apply Nat.leb_le in Cn, Cp, Cu. rewrite Cn, Ce, Cp, Cu.
  now rewrite !andb_true_r.
Qed.

(** X22 -- the form takes a state or a district of one character, the server
    does not: such an application passes the form, is refused by the
    server, and the page shows the server's message; nothing is
    stored. *)
Theorem membership_form_is_laxer_than_the_server
        (o : object) (s d : string) (w : World) :
  accepted JoinMembershipPage.membershipSchema (JObj o) = true ->
  get "state" o = JStr s -> get "district" o = JStr d ->
  (String.length s < 2)%nat \/ (String.length d < 2)%nat ->
  JoinMembershipPage.handleSubmit (JObj o) w
  = (Return (Some (JoinMembershipPage.SubmissionFailed
                     "Invalid data. Please check all fields.")), w).
Proof.
  intros Hacc Hs Hd Hshort.
  destruct (joinForm_validated o Hacc)
    as (n & e & p & s' & d' & u & Hv & Hs' & Hd' & _ & Cn & Ce & Cp & Cu).
  rewrite Hs in Hs'. rewrite Hd in Hd'.
  injection Hs' as <-. injection Hd' as <-.
  unfold JoinMembershipPage.handleSubmit. rewrite Hv.
  unfold bind, JoinMembershipPage.onSubmit.
  cbn [dataOf get String.eqb Ascii.eqb Bool.eqb]. rewrite (utr_guard u Cu).
  unfold bind, Actions.applyForMembership.
  assert (Hno : accepted Actions.membershipApplicationSchema
                  (JObj [ ("name", JStr n); ("email", JStr e);
                          ("phone", JStr p); ("state", JStr s);
                          ("district", JStr d); ("utr", JStr u) ]) = false).
  { rewrite (membership_values_accepted n e p s d u Cn Ce Cp Cu).
    apply andb_false_iff.
    destruct Hshort as [Hl | Hl]; [right | left]; apply Nat.leb_gt; lia. }
  rewrite (accepted_failure _ _ Hno). reflexivity.
Qed.

(** X23 -- an application that passes the form, with a state and a district of
    at least two characters, reaches the third step: it is stored as a
    pending membership, and the page shows the identifier of that
    document. *)
Theorem membership_form_reaches_confirmation
        (o : object) (s d : string) (w : World) :
  accepted JoinMembershipPage.membershipSchema (JObj o) = true ->
  get "state" o = JStr s -> get "district" o = JStr d ->
  (2 <= String.length s)%nat -> (2 <= String.length d)%nat ->
  failsAt 0 w = false ->
  let run := JoinMembershipPage.handleSubmit (JObj o) w in
  let id := ("doc" ++ decimal (nextId w))%string in
  fst run = Return (Some (JoinMembershipPage.Confirmation (JStr id)))
  /\ exists doc,
      store (snd run) "memberships"
      = store w "memberships" ++ [ {| docId := id; docData := doc |} ]
      /\ get "status" doc = JStr "pending"
      /\ get "utr" doc = get "utr" o
      /\ get "submittedAt" doc = JTimestamp (serverTime w).
Proof.
  intros Hacc Hs Hd Ls Ld Hf run id. subst run id.
  destruct (joinForm_validated o Hacc)
    as (n & e & p & s' & d' & u & Hv & Hs' & Hd' & Hu & Cn & Ce & Cp & Cu).
  rewrite Hs in Hs'. rewrite Hd in Hd'.
  injection Hs' as <-. injection Hd' as <-.
  unfold JoinMembershipPage.handleSubmit. rewrite Hv.
  unfold bind, JoinMembershipPage.onSubmit.
  cbn [dataOf get String.eqb Ascii.eqb Bool.eqb]. rewrite (utr_guard u Cu).
  unfold bind, Actions.applyForMembership.
  assert (Hyes : accepted Actions.membershipApplicationSchema
                   (JObj [ ("name", JStr n); ("email", JStr e);
                           ("phone", JStr p); ("state", JStr s);
                           ("district", JStr d); ("utr", JStr u) ]) = true).
  { rewrite (membership_values_accepted n e p s d u Cn Ce Cp Cu).
    apply andb_true_iff. split; now apply Nat.leb_le. }
  pose proof (accepted_success _ _ Hyes) as Hsrv.
  assert (Hval : Zod.value
                   (Actions.membershipApplicationSchema
                      (JObj [ ("name", JStr n); ("email", JStr e);
                              ("phone", JStr p); ("state", JStr s);
                              ("district", JStr d); ("utr", JStr u) ]))
                 = JObj [ ("name", JStr n); ("email", JStr e);
                          ("phone", JStr p); ("district", JStr d);
                          ("state", JStr s); ("utr", JStr u) ]).
  { unfold Actions.membershipApplicationSchema.
    rewrite ZodFacts.object_value, output_flat_map. reflexivity. }
  rewrite Hval in Hsrv. rewrite Hsrv. cbn [dataOf].
  unfold tryCatch, bind. rewrite (addDoc_ok _ _ w Hf).
  cbn [ret fst snd success details get String.eqb Ascii.eqb Bool.eqb truthy
       andb negb append].
  split; [reflexivity|]. eexists. split; [apply store_added_same|].
  rewrite Hu. repeat split.
Qed.

End JoiningAsMember.

Lemma membership_form_is_laxer_than_the_server_witness :
  let o := set "district" (JStr "X") (membershipForm "UTR1234567890") in
  @JoinMembershipPage.handleSubmit samplePlatform (JObj o) emptyWorld
  = (Return (Some (JoinMembershipPage.SubmissionFailed
                     "Invalid data. Please check all fields.")), emptyWorld).
Proof.
  apply (@membership_form_is_laxer_than_the_server samplePlatform
           (set "district" (JStr "X") (membershipForm "UTR1234567890"))
           "Maharashtra" "X" emptyWorld);
    [vm_compute; reflexivity | reflexivity | reflexivity |].
  right. simpl. lia.
Defined.

Lemma membership_form_reaches_confirmation_witness :
  let o := membershipForm "UTR1234567890" in
  let run := @JoinMembershipPage.handleSubmit samplePlatform (JObj o)
               emptyWorld in
  let id := ("doc" ++ decimal (nextId emptyWorld))%string in
  fst run = Return (Some (JoinMembershipPage.Confirmation (JStr id)))
  /\ exists doc,
      store (snd run) "memberships"
      = store emptyWorld "memberships" ++ [ {| docId := id; docData := doc |} ]
      /\ get "status" doc = JStr "pending"
      /\ get "utr" doc = get "utr" o
      /\ get "submittedAt" doc = JTimestamp (serverTime emptyWorld).
Proof.
  apply (@membership_form_reaches_confirmation samplePlatform
           (membershipForm "UTR1234567890") "Maharashtra" "Pune" emptyWorld);
    try (vm_compute; reflexivity); simpl; lia.
Defined.
(* ================================================================== *)
(** ** The report page of the admin console *)
(* ================================================================== *)

Lemma has_keys (k : string) (o : object) :
  has k o = false -> ~ In k (map fst o).
Proof.
  induction o as [|[k' v] o IH]; cbn [has map fst In]; [tauto|].
  intros Hh. apply orb_false_iff in Hh. destruct Hh as [Hk Ho].
  apply String.eqb_neq in Hk. intros [E | Hin]; [congruence | now apply IH].
Qed.

Lemma keys_has (k : string) (o : object) :
  ~ In k (map fst o) -> has k o = false.
Proof.
  induction o as [|[k' v] o IH]; cbn [has map fst In]; [reflexivity|].
  intros Hn. apply orb_false_iff. split.
  - apply String.eqb_neq. intros ->. apply Hn. now left.
  - apply IH. intros Hin. apply Hn. now right.
Qed.

Lemma get_absent (k : string) (o : object) :
  has k o = false -> get k o = JUndefined.
Proof.
  induction o as [|[k' v] o IH]; cbn [has get]; [reflexivity|].
  intros Hh. apply orb_false_iff in Hh. destruct Hh as [Hk Ho].
  rewrite Hk. now apply IH.
Qed.

(** Reading a property of [{...a, ...b}], for an object [b] (no key
    twice). *)
Lemma get_spread (k : string) (b : object) :
  NoDup (map fst b) ->
  forall a, get k (spread a b) = if has k b then get k b else get k a.
Proof.
  induction b as [|[k' v] b IH]; intros Hnd a; [reflexivity|].
  cbn [map fst] in Hnd. inversion Hnd as [|? ? Hnot Hnd']; subst.
  rewrite spread_cons, (IH Hnd'). cbn [has get].
  destruct (String.eqb k k') eqn:E.
  - apply String.eqb_eq in E. subst k'.
    rewrite (keys_has k b Hnot). cbn [orb]. apply get_set_same.
  - cbn [orb]. destruct (has k b); [reflexivity|].
    now apply get_set_other.
Qed.

(** The amount of a row of the report is the amount of its document. *)
Lemma item_amount (d : Document) :
  NoDup (map fst (docData d)) ->
  get "amount" (ReportPage.item d) = get "amount" (docData d).
Proof.
  intros Hnd. unfold ReportPage.item. rewrite (get_spread _ _ Hnd).
  destruct (has "amount" (docData d)) eqn:E; [reflexivity|].
  symmetry. now apply get_absent.
Qed.

Lemma report_from (ds : list Document) :
  Forall (fun d => NoDup (map fst (docData d))) ds ->
  forallb amountIsNumberOrMissing ds = true ->
  forall acc,
    fold_left
      (fun sum item =>
         match sum with
         | Some s => js_add s (get "amount" item)
         | None => None
         end)
      (map ReportPage.item ds) (Some (JNum acc))
    = Some (JNum (fold_left
                    (fun sum d => add sum (Number (get "amount" (docData d))))
                    ds acc)).
Proof.
  induction ds as [|d ds IH]; intros Hwf Hok acc; [reflexivity|].
  inversion Hwf as [|? ? Hd Hds]; subst.
  cbn [forallb] in Hok. apply andb_true_iff in Hok. destruct Hok as [Hn Hok].
  cbn [map fold_left]. rewrite (item_amount d Hd).
  unfold amountIsNumberOrMissing in Hn.
  destruct (get "amount" (docData d)) as [ | | | n | | | | | | ];
    try discriminate; cbn [js_add Number]; exact (IH Hds Hok _).
Qed.

(** Once the running sum is NaN it stays NaN. *)
Lemma sum_from_nan (ds : list Document) :
  fold_left (fun sum d => add sum (Number (get "amount" (docData d)))) ds NaN
  = NaN.
Proof.
  induction ds as [|d ds IH]; [reflexivity|]. cbn [fold_left add]. exact IH.
Qed.

Lemma sum_missing (ds : list Document) :
  existsb amountIsMissing ds = true ->
  forall acc,
    fold_left (fun sum d => add sum (Number (get "amount" (docData d)))) ds acc
    = NaN.
Proof.
  induction ds as [|d ds IH]; intros Hmiss acc; [discriminate|].
  cbn [existsb] in Hmiss. cbn [fold_left].
  destruct (amountIsMissing d) eqn:E.
  - unfold amountIsMissing in E.
    destruct (get "amount" (docData d)) as [ | | | n | | | | | | ];
      try discriminate; [| destruct n; discriminate].
    cbn [Number].
    assert (Ea : add acc NaN = NaN) by (destruct acc; reflexivity).
    rewrite Ea. apply sum_from_nan.
  - cbn [orb] in Hmiss. exact (IH Hmiss _).
Qed.

(** X24 -- the total of the report page, for Earning documents whose amount is
    a number or is missing: the amounts are added up one after the other
    from 0, in the order of the rows, and a row without amount is not
    skipped: as soon as one document has no amount the total is NaN. *)
Theorem report_total_is_NaN_without_amount (ds : list Document) :
  Forall (fun d => NoDup (map fst (docData d))) ds ->
  forallb amountIsNumberOrMissing ds = true ->
  ReportPage.totalEarnings (map ReportPage.item ds)
  = Some (JNum (fold_left
                  (fun sum d => add sum (Number (get "amount" (docData d))))
                  ds (ofN 0)))
  /\ (existsb amountIsMissing ds = true ->
      ReportPage.totalEarnings (map ReportPage.item ds) = Some (JNum NaN)).
Proof.
  intros Hwf Hok.
  assert (Hsum := report_from ds Hwf Hok (ofN 0)).
  split; [exact Hsum|].
  intros Hmiss. unfold ReportPage.totalEarnings. rewrite Hsum.
  now rewrite (sum_missing ds Hmiss).
Qed.

Lemma report_total_is_NaN_without_amount_witness :
  let ds := documentsOf "earnings" "emp-1" earningsWorld in
  Forall (fun d => NoDup (map fst (docData d))) ds
  /\ forallb amountIsNumberOrMissing ds = true
  /\ ReportPage.totalEarnings (map ReportPage.item ds)
     = Some (JNum (fold_left
                     (fun sum d => add sum (Number (get "amount" (docData d))))
                     ds (ofN 0)))
  /\ (existsb amountIsMissing ds = true ->
      ReportPage.totalEarnings (map ReportPage.item ds) = Some (JNum NaN)).
Proof.
  assert (Hwf : Forall (fun d => NoDup (map fst (docData d)))
                  (documentsOf "earnings" "emp-1" earningsWorld)).
  { vm_compute. repeat constructor; cbn [In]; intuition discriminate. }
  split; [exact Hwf|]. split; [reflexivity|].
  apply (report_total_is_NaN_without_amount
           (documentsOf "earnings" "emp-1" earningsWorld));
    [exact Hwf | reflexivity].
Defined.

(** The report of the sample employee, one of whose documents has no
    amount, and the report of the two that have one. *)
Example report_total_examples :
  ReportPage.totalEarnings
    (map ReportPage.item (documentsOf "earnings" "emp-1" earningsWorld))
  = Some (JNum NaN)
  /\ ReportPage.totalEarnings
       (map ReportPage.item
          (filter amountIsNumber
             (documentsOf "earnings" "emp-1" earningsWorld)))
     = Some (JNum (Fin (100005 # 2))).
Proof. split; vm_compute; reflexivity. Qed.

(* ================================================================== *)
(** ** The employees page of the admin console *)
(* ================================================================== *)

(** X25 -- the "Inactive Employees" card counts the employees whose status is
    not "active", those without a status included; the three cards add
    up. *)
Theorem inactive_employees_are_the_others (employees : list object) :
  EmployeesPage.inactiveEmployees employees
  = List.length
      (filter (fun e => negb (strictEq (get "status" e) (JStr "active")))
              employees)
  /\ (EmployeesPage.activeEmployees employees
      + EmployeesPage.inactiveEmployees employees)%nat
     = List.length employees.
Proof.
  unfold EmployeesPage.inactiveEmployees, EmployeesPage.activeEmployees.
  pose proof (filter_length
                (fun e => strictEq (get "status" e) (JStr "active")) employees)
    as Hlen.
  cbv beta in Hlen. split; lia.
Qed.

Lemma dropWhile_nil (p : ascii -> bool) (l : list ascii) :
  StringToNumber.dropWhile p l = [] <-> forallb p l = true.
Proof.
  induction l as [|c l IH]; cbn [StringToNumber.dropWhile forallb];
    [tauto|].
  destruct (p c); cbn [andb]; [exact IH | split; discriminate].
Qed.

(** A string trims to nothing exactly when it is blank. *)
Lemma trim_blank (s : string) :
  String.eqb (js_trim s) "" = blank s.
Proof.
  unfold js_trim, blank, StringToNumber.trim, StringToNumber.chars.
  set (l := list_ascii_of_string s).
  destruct (forallb StringToNumber.isWhiteSpace l) eqn:E.
  - apply dropWhile_nil in E. rewrite E. reflexivity.
  - apply String.eqb_neq. intros Hnil.
    assert (Hl : rev (StringToNumber.dropWhile StringToNumber.isWhiteSpace
                        (rev (StringToNumber.dropWhile
                                StringToNumber.isWhiteSpace l))) = []).
    { destruct (rev _) as [|c r] eqn:Er; [reflexivity | discriminate]. }
    apply (f_equal (@rev ascii)) in Hl. rewrite rev_involutive in Hl.
    cbn [rev] in Hl. apply dropWhile_nil in Hl.
    destruct (StringToNumber.dropWhile StringToNumber.isWhiteSpace l)
      as [|c r] eqn:Ed.
    + apply dropWhile_nil in Ed. congruence.
    + pose proof (dropWhile_head _ _ _ _ Ed) as Hc.
      rewrite forallb_forall in Hl.
      assert (Hin : In c (rev (c :: r))) by (apply -> in_rev; now left).
      rewrite (Hl c Hin) in Hc. discriminate.
Qed.

(** X26 -- a task is sent only with a title and a description that are not
    blank: otherwise nothing is written.  The task that is written is
    pending, for the employee of the dialog, with the title and the
    description as they were typed. *)
Theorem handleSendWork_writes_only_with_text
        (now : N) (employee : EmployeesPage.Employee)
        (title description priority : string) (w : World) :
  let run :=
    EmployeesPage.handleSendWork now employee title description priority w in
  (blank title || blank description = true ->
   run = (Return (EmployeesPage.ToastError
                    "Title and description are required."), w))
  /\ (blank title || blank description = false ->
      failsAt 0 w = false ->
      fst run
      = Return (EmployeesPage.ToastSuccess
                  ("Task assigned to " ++ EmployeesPage.name employee)%string)
      /\ store (snd run) "tasks"
         = store w "tasks"
           ++ [ {| docId := ("doc" ++ decimal (nextId w))%string;
                   docData :=
                     [ ("employeeId", JStr (EmployeesPage.id employee));
                       ("employeeName", JStr (EmployeesPage.name employee));
                       ("title", JStr title);
                       ("description", JStr description);
                       ("priority", JStr priority);
                       ("status", JStr "pending");
                       ("assignedAt", JTimestamp now) ] |} ]).
Proof.
  intros run. subst run. unfold EmployeesPage.handleSendWork.
  rewrite !trim_blank. split.
  - intros ->. reflexivity.
  - intros -> Hf. unfold tryCatch, bind. rewrite (addDoc_ok _ _ w Hf).
    cbn [fst snd ret]. split; [reflexivity|]. now rewrite store_added_same.
Qed.

Example handleSendWork_examples :
  EmployeesPage.handleSendWork 1700000001000 sampleEmployee "   "
    "Call the client back" "High" emptyWorld
  = (Return (EmployeesPage.ToastError "Title and description are required."),
     emptyWorld)
  /\ map (fun d => get "status" (docData d))
       (store (snd (EmployeesPage.handleSendWork 1700000001000 sampleEmployee
                      " Renewal " "Call the client back" "High" emptyWorld))
          "tasks")
     = [JStr "pending"].
Proof. split; vm_compute; reflexivity. Qed.

(* ================================================================== *)
(** ** The travel column, in general *)
(* ================================================================== *)

(** X27 -- the travel column of a report that says the employee travelled, with
    two numeric readings: the distance, closing reading minus opening
    reading, unless one of the readings is 0 -- then "N/A".  A report
    that does not say so shows "N/A". *)
Theorem travelCell_shows_the_distance (log : object) :
  (forall a b : number,
      get "hasTravelled" log = JBool true ->
      get "openingKm" log = JNum a -> get "closingKm" log = JNum b ->
      isNaN a = false -> isNaN b = false ->
      DsrPage.travelCell log
      = if isZero a || isZero b then JStr "N/A" else JNum (sub b a))
  /\ (get "hasTravelled" log = JBool false
      \/ get "hasTravelled" log = JUndefined ->
      DsrPage.travelCell log = JStr "N/A").
Proof.
  unfold DsrPage.travelCell, js_and, js_sub. split.
  - intros a b -> -> -> Ha Hb. cbn [truthy Number].
    rewrite Hb. cbn [orb].
    destruct (isZero b) eqn:Zb; cbn [negb truthy].
    + rewrite Hb, Zb. cbn [orb negb]. now rewrite orb_true_r.
    + rewrite Ha. cbn [orb]. destruct (isZero a); reflexivity.
  - intros [-> | ->]; reflexivity.
Qed.
(* ================================================================== *)
(** ** Verifying a membership that is not there *)
(* ================================================================== *)

Lemma updateDoc_missing (c id : string) (data : object) (w : World) :
  failsAt 0 w = false -> existsb (hasId id) (store w c) = false ->
  updateDoc c id data w
  = (Throw {| code := "not-found"; errorMessage := "No document to update." |},
     afterCall (UpdateDoc c id data) w).
Proof.
  intros Hf Hno. unfold updateDoc, bind, service. rewrite Hf.
  cbn [store afterCall withFaults recorded]. now rewrite Hno.
Qed.

Section UnknownMembership.

Context `{Platform}.

(** X28 -- verifying an identifier under which there is no membership fails, but
    only after the account was created: the account stays, and no
    membership is touched. *)
Theorem verifyMembership_of_unknown_membership
        (id e p : string) (w : World) :
  existsb (hasId id) (store w "memberships") = false ->
  isEmail e = true -> authAcceptsEmail e = true -> hasAccount e w = false ->
  (6 <= String.length p)%nat ->
  failsAt 0 w = false -> failsAt 1 w = false ->
  let run := Actions.verifyMembership (verification id e p) w in
  (exists m, fst run = Return (result false m))
  /\ accounts (snd run)
     = accounts w ++ [ {| uid := ("uid" ++ decimal (nextId w))%string;
                          accountEmail := e; accountPassword := p |} ]
  /\ store (snd run) = store w.
Proof.
  intros Hno Hmail Hauth Hnew Hlen Hf0 Hf1 run. subst run.
  unfold Actions.verifyMembership.
  rewrite (verification_validated id e p Hmail).
  cbn [dataOf verification get String.eqb Ascii.eqb Bool.eqb stringOf].
  unfold tryCatch, bind.
  rewrite (createUser_fresh e p w Hf0 Hauth Hnew Hlen).
  rewrite updateDoc_missing;
    [ | now rewrite failsAt_registered | now rewrite store_registered ].
  cbn [code String.eqb Ascii.eqb Bool.eqb errorMessage fst snd ret].
  split; [eexists; reflexivity|]. split; reflexivity.
Qed.

End UnknownMembership.

Lemma verifyMembership_of_unknown_membership_witness :
  let run :=
    @Actions.verifyMembership samplePlatform
      (verification "m-404" "ravi@example.org" "9876543210") membershipWorld in
  (exists m, fst run = Return (result false m))
  /\ accounts (snd run)
     = accounts membershipWorld
       ++ [ {| uid := ("uid" ++ decimal (nextId membershipWorld))%string;
               accountEmail := "ravi@example.org";
               accountPassword := "9876543210" |} ]
  /\ store (snd run) = store membershipWorld.
Proof.
  apply (@verifyMembership_of_unknown_membership samplePlatform
           "m-404" "ravi@example.org" "9876543210" membershipWorld);
    try reflexivity. simpl. lia.
Defined.

(* ================================================================== *)
(** ** Strings in numeric fields, field by field *)
(* ================================================================== *)











Section YearsOfExperience.

Context `{Platform}.








End YearsOfExperience.

